(** * ClawdBot orchestration core: a shallow embedding and its properties

    The development follows the JavaScript sources of the orchestration,
    telemetry and reactive-control subsystem:

    - [SkillRouter]        orchestrator/skill-router.js   (intent classifier)
    - [ModelPicker]        orchestrator/model-picker      (tier selector)
    - [Metrics]            bot/metrics-collector.js       (timing checkpoints)
    - [EmojiMappings]      bot/emoji-mappings.js          (symbol tables)
    - [MetadataStore]      bot/message-metadata-store     (TTL cache)
    - [ReactionHandler]    bot/reaction-handler.js        (signal events)
    - [UserPromptHandler]  bot/user-prompt-handler.js     (pending prompts)
    - [SessionStore]       storage/session-store          (persistence)
    - [Orchestrator]       orchestrator/main.js           (chat sessions, request)
    - [CodeExec]           skills/code-exec               (language detection)

    Conventions.  A JavaScript string is a [string] holding the UTF-8
    encoding of the text; [Js.jsLength] recovers the [.length] of the
    JavaScript string (UTF-16 code units).  [Date.now()] is an explicit
    [Z] argument (milliseconds).  A [Map] keyed by [String(id)] is a
    [gmap string _]; a [Map] or object whose iteration order is observed is
    an association list in insertion order.  [null]/[undefined] is [None]. *)

From Stdlib Require Import ZArith QArith Lia Ascii String.
From stdpp Require Import base option list gmap strings pretty.

(* ===================================================================== *)
(** * JavaScript primitives used by the sources                          *)
(* ===================================================================== *)

Module Js.

(** The line feed written [\n] in the sources. *)
Definition nl : string := String "010"%char "".

(** The double quote. *)
Definition dq : string := String "034"%char "".

(** [s.startsWith(p)] on the byte sequences. *)
Fixpoint startsWith (s p : string) {struct p} : bool :=
  match p, s with
  | EmptyString, _ => true
  | String _ _, EmptyString => false
  | String c p', String d s' => if Ascii.eqb c d then startsWith s' p' else false
  end.

(** [s.includes(p)]: [p] occurs as a contiguous run inside [s]. *)
Fixpoint includes (s p : string) : bool :=
  startsWith s p ||
  match s with
  | EmptyString => false
  | String _ s' => includes s' p
  end.

(** The lower-case form of an ASCII letter. *)
Definition lowerChar (c : ascii) : ascii :=
  let n := N_of_ascii c in
  if ((65 <=? n) && (n <=? 90))%N then ascii_of_N (n + 32) else c.

(** The UTF-8 bytes of U+212A (Kelvin sign) and of U+0130 (capital I
    with dot above). *)
Definition kelvinSign : string :=
  String "226"%char (String "132"%char (String "170"%char "")).
Definition dottedCapitalI : string :=
  String "196"%char (String "176"%char "").

(** [s.toLowerCase()] as far as a search for an ASCII phrase can tell.
    The ASCII letters are lowered.  Two characters outside ASCII have
    a lower-case form that contains an ASCII letter: U+212A becomes [k]
    and U+0130 becomes [i] followed by U+0307 (bytes 204, 135).  The
    lower-case form of every other character outside ASCII is again
    outside ASCII; such characters are kept as they are, which no
    [includes] with an ASCII phrase distinguishes. *)
Fixpoint toLowerCase (s : string) : string :=
  match s with
  | EmptyString => EmptyString
  | String "226"%char (String "132"%char (String "170"%char rest)) =>
      String "k"%char (toLowerCase rest)
  | String "196"%char (String "176"%char rest) =>
      String "i"%char (String "204"%char (String "135"%char (toLowerCase rest)))
  | String c s' => String (lowerChar c) (toLowerCase s')
  end.

(** [w] is empty or begins with an ASCII character. *)
Definition asciiStart (w : string) : bool :=
  match w with
  | EmptyString => true
  | String c _ => (N_of_ascii c <? 128)%N
  end.

(** Every byte of [p] lies outside ASCII. *)
Definition nonAscii (p : string) : bool :=
  forallb (fun c => (128 <=? N_of_ascii c)%N) (list_ascii_of_string p).

(** Number of UTF-16 code units contributed by one byte of a UTF-8
    text: continuation bytes contribute nothing, the lead byte of a
    four-byte sequence stands for a surrogate pair. *)
Definition unitsOfByte (c : ascii) : nat :=
  let n := N_of_ascii c in
  if (n <? 128)%N then 1
  else if (n <? 192)%N then 0
  else if (n <? 240)%N then 1
  else 2.

(** [s.length]. *)
Fixpoint jsLength (s : string) : nat :=
  match s with
  | EmptyString => 0
  | String c s' => unitsOfByte c + jsLength s'
  end.

(** [`${n}`] and [String(n)] for an integer [n] of magnitude below
    1e21, which JavaScript prints as a decimal numeral; the numbers of
    the sources (clock readings, durations, scores, Telegram ids) are
    integers of magnitude below 2^53. *)
Definition numToString (n : Z) : string := pretty n.

(** Truthiness of the values that the sources test with [if (x)]. *)
Definition truthyStr (s : string) : bool := negb (String.eqb s "").
Definition truthyNum (n : Z) : bool := negb (n =? 0)%Z.
Definition truthyOptStr (o : option string) : bool :=
  match o with Some s => truthyStr s | None => false end.
Definition truthyOptNum (o : option Z) : bool :=
  match o with Some n => truthyNum n | None => false end.

(** A value used as a key or identifier: a number or a string. *)
Inductive key : Type :=
| KNum (n : Z)
| KStr (s : string).

(** [String(k)]. *)
Definition keyToString (k : key) : string :=
  match k with
  | KNum n => numToString n
  | KStr s => s
  end.

(** [!k] is false. *)
Definition truthyKey (k : key) : bool :=
  match k with
  | KNum n => truthyNum n
  | KStr s => truthyStr s
  end.

(** Key identity of a [Map] (SameValueZero): a number never equals a
    string. *)
Definition keyEqb (a b : key) : bool :=
  match a, b with
  | KNum x, KNum y => (x =? y)%Z
  | KStr x, KStr y => String.eqb x y
  | _, _ => false
  end.

(** [p] without its first [k] bytes. *)
Fixpoint dropStr (k : nat) (p : string) : string :=
  match k, p with
  | O, _ => p
  | S k', String _ p' => dropStr k' p'
  | S _, EmptyString => EmptyString
  end.

(** No occurrence of [p] in a text ending with [w] can touch [w]:
    [p] does not occur inside [w] and no proper end of [p] starts [w]. *)
Definition cannotComplete (p w : string) : bool :=
  negb (includes w p)
  && forallb (fun k => negb (startsWith w (dropStr k p)))
       (seq 1 (String.length p - 1)).

(** The members every plain object inherits from [Object.prototype],
    each with its [.name] ([None] for the [__proto__] accessor, whose
    value is an object without a name). *)
Definition protoMember (property : string) : option (option string) :=
  if String.eqb property "constructor" then Some (Some "Object")
  else if String.eqb property "__proto__" then Some None
  else if existsb (String.eqb property)
            [ "__defineGetter__"; "__defineSetter__"; "hasOwnProperty";
              "__lookupGetter__"; "__lookupSetter__"; "isPrototypeOf";
              "propertyIsEnumerable"; "toString"; "valueOf"; "toLocaleString" ]
  then Some (Some property)
  else None.

End Js.

(* ===================================================================== *)
(** * Intent classifier (orchestrator/skill-router.js)                   *)
(* ===================================================================== *)

Module SkillRouter.
Import Js.

Record skillConfig : Type := {
  name : string;
  description : string;
  keywords : list string;
  models : list string;
  timeout : Z;
  handler : string
}.

(** The registration table [skills], in the order of its keys
    ([Object.entries] lists string keys in insertion order). *)
Definition skills : list (string * skillConfig) :=
  [ ("web-search",
     {| name := "Web Search";
        description := "Search the web and fetch information";
        keywords := ["search"; "find"; "look up"; "google"; "web"; "information"];
        models := ["fast"; "smart"]; timeout := 30000;
        handler := "./skills/web-search.js" |});
    ("pr-review",
     {| name := "PR Reviewer";
        description := "Review pull requests for bugs, security, and quality";
        keywords := ["pr"; "pull request"; "review"; "check code"];
        models := ["smart"]; timeout := 120000;
        handler := "./skills/pr-review.js" |});
    ("code-exec",
     {| name := "Code Executor";
        description := "Execute code in a Docker sandbox";
        keywords := ["run"; "execute"; "compile"; "test code"];
        models := ["fast"]; timeout := 60000;
        handler := "./skills/code-exec.js" |});
    ("file-ops",
     {| name := "File Operations";
        description := "Download, upload, and manage files";
        keywords := ["download"; "upload"; "file"; "save"; "fetch"];
        models := ["fast"]; timeout := 60000;
        handler := "./skills/file-ops.js" |});
    ("web-scrape",
     {| name := "Web Scraper";
        description := "Scrape websites for structured data";
        keywords := ["scrape"; "extract"; "crawl"; "parse"];
        models := ["smart"]; timeout := 90000;
        handler := "./skills/web-scrape.js" |});
    ("organize",
     {| name := "Organizer";
        description := "Organize information, tasks, and data";
        keywords := ["organize"; "sort"; "categorize"; "structure"];
        models := ["smart"]; timeout := 60000;
        handler := "./skills/organize.js" |});
    ("docker-mgr",
     {| name := "Docker Manager";
        description := "Create and manage Docker containers";
        keywords := ["docker"; "container"; "deploy"; "spin up"];
        models := ["smart"]; timeout := 120000;
        handler := "./skills/docker-mgr.js" |});
    ("tts",
     {| name := "Text to Speech";
        description := "Convert text to speech";
        keywords := ["speak"; "say"; "voice"; "audio"; "tts"];
        models := ["fast"]; timeout := 15000;
        handler := "./skills/tts.js" |});
    ("skill-creator",
     {| name := "Skill Creator";
        description := "Autonomously create new skills from descriptions";
        keywords := ["create skill"; "new skill"; "add skill"; "make skill";
                     "skill creator"];
        models := ["smart"]; timeout := 120000;
        handler := "./skills/skill-creator.js" |}) ].

(** One turn of the inner loop over [skill.keywords]:
    [if (lower.includes(keyword)) { score += 1;
       if (lower.includes(keyword.toLowerCase())) score += 0.5; }] *)
Definition keywordStep (lower : string) (score : Q) (keyword : string) : Q :=
  if includes lower keyword then
    let score := (score + 1)%Q in
    if includes lower (toLowerCase keyword) then (score + (1 # 2))%Q else score
  else score.

(** The inner loop: [let score = 0; for (const keyword of ...) ...]. *)
Definition skillScore (lower : string) (kws : list string) : Q :=
  fold_left (keywordStep lower) kws 0%Q.

(** The object [scores] after the first loop, as its entry list. *)
Definition scoreTable (table : list (string * skillConfig)) (lower : string)
  : list (string * Q) :=
  map (fun e => (e.1, skillScore lower (keywords e.2))) table.

(** One turn of the second loop:
    [if (score > bestScore) { bestScore = score; bestSkill = skillId; }] *)
Definition bestStep (best : option string * Q) (entry : string * Q)
  : option string * Q :=
  if Qlt_le_dec best.2 entry.2 then (Some entry.1, entry.2) else best.

Definition findBest (scores : list (string * Q)) : option string * Q :=
  fold_left bestStep scores (None, 0%Q).

Record detection : Type := {
  skill : option string;
  confidence : Q
}.

(** [detectSkill] over an arbitrary registration table. *)
Definition detectSkillIn (table : list (string * skillConfig)) (message : string)
  : detection :=
  let lower := toLowerCase message in
  let scores := scoreTable table lower in
  let best := findBest scores in
  if Qlt_le_dec 0 best.2
  then {| skill := best.1; confidence := best.2 |}
  else {| skill := Some "general"; confidence := 0%Q |}.

Definition detectSkill (message : string) : detection :=
  detectSkillIn skills message.

(** [skills[id].keywords], empty for an identifier that is not
    registered (such as the default ['general']). *)
Definition keywordsOf (id : string) : list string :=
  match find (fun e => String.eqb e.1 id) skills with
  | Some e => keywords e.2
  | None => []
  end.

(** How many of the keywords occur in the lower-cased text. *)
Definition matchCount (lower : string) (kws : list string) : nat :=
  length (filter (fun k => includes lower k = true) kws).

(** The second loop keeps, at every point, the earliest entry holding
    the highest score seen so far (or nothing while no score is
    positive). *)
Definition bestInvariant (scores : list (string * Q)) (best : option string * Q)
  : Prop :=
  (best = (None, 0%Q) ∧ ∀ e, e ∈ scores → (e.2 <= 0)%Q)
  ∨ ∃ i id, scores !! i = Some (id, best.2) ∧ best.1 = Some id ∧ (0 < best.2)%Q
      ∧ (∀ j e, scores !! j = Some e → (e.2 <= best.2)%Q)
      ∧ (∀ j e, (j < i)%nat → scores !! j = Some e → (e.2 < best.2)%Q).

(** [skills[id]]: an own entry of the table, a member inherited from
    [Object.prototype], or nothing. *)
Inductive skillLookup : Type :=
| OwnSkill (config : skillConfig)
| InheritedMember (memberName : option string)
| NoSkill.

Definition lookupSkill (id : string) : skillLookup :=
  match find (fun e => String.eqb e.1 id) skills with
  | Some e => OwnSkill e.2
  | None =>
      match protoMember id with
      | Some memberName => InheritedMember memberName
      | None => NoSkill
      end
  end.

(** The result of a function that can raise a [TypeError]. *)
Inductive outcome (A : Type) : Type :=
| Returned (value : A)
| TypeError.
Arguments Returned {A} value.
Arguments TypeError {A}.

(** [getModelPreference(task, userPreferences)], with
    [userPreferences.forceModel] as [forceModel]. *)
Definition getModelPreference (task : string) (forceModel : option string)
  : outcome string :=
  let skillConfig := lookupSkill task in
  (* User preference overrides *)
  if truthyOptStr forceModel
  then Returned (match forceModel with Some f => f | None => "" end)
  else
    match skillConfig with
    | InheritedMember _ =>
        (* [skillConfig.models] is [undefined]: reading [.length] raises *)
        TypeError
    | OwnSkill config =>
        (* Check if skill specifies model preference *)
        match models config with
        | [only] => Returned only
        | _ =>
            if String.eqb task "pr-review" || String.eqb task "web-scrape"
               || String.eqb task "organize"
            then Returned "smart"
            else Returned "fast"
        end
    | NoSkill =>
        if String.eqb task "pr-review" || String.eqb task "web-scrape"
           || String.eqb task "organize"
        then Returned "smart"
        else Returned "fast"
    end.

(** The instructions appended by the [switch] of [buildSkillPrompt]. *)
Definition skillInstructions (skillId : string) : string :=
  if String.eqb skillId "pr-review" then
    nl +:+
    "Review the pull request thoroughly:" +:+
    nl +:+
    "1. Check for bugs and logic errors" +:+
    nl +:+
    "2. Look for security vulnerabilities" +:+
    nl +:+
    "3. Evaluate code quality and best practices" +:+
    nl +:+
    "4. Suggest improvements" +:+
    nl +:+
    nl +:+
    "Use severity labels: [CRITICAL], [HIGH], [MEDIUM], [LOW]" +:+
    nl
  else if String.eqb skillId "web-search" then
    nl +:+
    "Search for the requested information and provide:" +:+
    nl +:+
    "1. Direct answers to the question" +:+
    nl +:+
    "2. Source URLs" +:+
    nl +:+
    "3. Relevant context" +:+
    nl +:+
    "4. Additional resources if helpful" +:+
    nl
  else if String.eqb skillId "code-exec" then
    nl +:+
    "Execute the requested code safely:" +:+
    nl +:+
    "1. Create a temporary Docker container" +:+
    nl +:+
    "2. Run the code in isolation" +:+
    nl +:+
    "3. Capture output/errors" +:+
    nl +:+
    "4. Clean up the container" +:+
    nl +:+
    "5. Report results clearly" +:+
    nl +:+
    nl +:+
    "Support: Python, JavaScript, Bash, and more." +:+
    nl
  else if String.eqb skillId "docker-mgr" then
    nl +:+
    "Manage Docker containers:" +:+
    nl +:+
    "1. Create appropriate Dockerfile if needed" +:+
    nl +:+
    "2. Build the image" +:+
    nl +:+
    "3. Run the container with proper settings" +:+
    nl +:+
    "4. Provide commands to manage it" +:+
    nl +:+
    "5. Handle cleanup and errors" +:+
    nl +:+
    nl +:+
    "Always include security best practices." +:+
    nl
  else if String.eqb skillId "organize" then
    nl +:+
    "Organize the information by:" +:+
    nl +:+
    "1. Categorizing items logically" +:+
    nl +:+
    "2. Prioritizing by importance/urgency" +:+
    nl +:+
    "3. Creating clear structure" +:+
    nl +:+
    "4. Providing action items" +:+
    nl +:+
    "5. Making it easy to follow" +:+
    nl
  else if String.eqb skillId "web-scrape" then
    nl +:+
    "Scrape the website and:" +:+
    nl +:+
    "1. Extract structured data" +:+
    nl +:+
    "2. Preserve important information" +:+
    nl +:+
    "3. Handle pagination if needed" +:+
    nl +:+
    "4. Respect rate limits" +:+
    nl +:+
    "5. Output in organized format" +:+
    nl
  else if String.eqb skillId "file-ops" then
    nl +:+
    "Handle file operations:" +:+
    nl +:+
    "1. Download/upload as requested" +:+
    nl +:+
    "2. Verify file integrity" +:+
    nl +:+
    "3. Organize files properly" +:+
    nl +:+
    "4. Report success/failure clearly" +:+
    nl +:+
    "5. Handle errors gracefully" +:+
    nl
  else if String.eqb skillId "tts" then
    nl +:+
    "Convert text to speech:" +:+
    nl +:+
    "1. Use appropriate speed and tone" +:+
    nl +:+
    "2. Handle punctuation correctly" +:+
    nl +:+
    "3. Generate audio file" +:+
    nl +:+
    "4. Provide the file path" +:+
    nl
  else if String.eqb skillId "skill-creator" then
    nl +:+
    "Create a new skill based on the description:" +:+
    nl +:+
    "1. Analyze requirements from the description" +:+
    nl +:+
    "2. Generate skill code with proper structure" +:+
    nl +:+
    "3. Add skill to skill-router.js" +:+
    nl +:+
    "4. Wire up skill in orchestrator/main.js" +:+
    nl +:+
    "5. Test the skill" +:+
    nl +:+
    "6. Provide summary of what was created" +:+
    nl +:+
    nl +:+
    "Return a summary including:" +:+
    nl +:+
    "- Skill ID" +:+
    nl +:+
    "- Files created/modified" +:+
    nl +:+
    "- Test results" +:+
    nl +:+
    "- Next steps for the user" +:+
    nl
  else "".

(** [buildSkillPrompt(skillId, userMessage)] *)
Definition buildSkillPrompt (skillId : string) (userMessage : string) : string :=
  let wrap (skillName : option string) :=
    let prompt :=
      "You are a " +:+ match skillName with Some n => n | None => "undefined" end
      +:+ " specialist." +:+ nl +:+ nl in
    let prompt := prompt +:+ "Task: " +:+ userMessage +:+ nl +:+ nl in
    let prompt := prompt +:+ "Use your expertise to complete this task." +:+ nl in
    (* Add skill-specific instructions *)
    prompt +:+ skillInstructions skillId in
  match lookupSkill skillId with
  | NoSkill => userMessage   (* General chat - no special prompt *)
  | OwnSkill config => wrap (Some (name config))
  | InheritedMember memberName => wrap memberName
  end.

End SkillRouter.

(* ===================================================================== *)
(** * Tier selector (orchestrator/model-picker)                          *)
(* ===================================================================== *)

Module ModelPicker.
Import Js.
Local Open Scope Z_scope.

Record modelConfig : Type := {
  name : string;
  model : string;
  provider : string;
  glmModel : string;
  maxTokens : Z;
  temperature : Q;
  useCase : string
}.

(** [models.fast] and [models.smart]: the fast tier and the deep tier. *)
Definition fast : modelConfig :=
  {| name := "Haiku (Fast)"; model := "claude-haiku-4-20250514";
     provider := "glm"; glmModel := "glm-4.7"; maxTokens := 4000;
     temperature := (7 # 10)%Q;
     useCase := "Simple questions, quick responses, initial analysis" |}.

Definition smart : modelConfig :=
  {| name := "Sonnet (Smart)"; model := "claude-sonnet-4-20250514";
     provider := "glm"; glmModel := "glm-4.7"; maxTokens := 8000;
     temperature := (1 # 2)%Q;
     useCase := "Complex tasks, code analysis, deep reasoning" |}.

(** The fields of [context] that the selector reads; [None] is an
    absent field. *)
Record context : Type := {
  conversationTurns : option Z;
  forceModel : option string
}.

(** [context.conversationTurns > 3]; false when the field is absent. *)
Definition deepConversation (context : context) : bool :=
  match conversationTurns context with
  | Some n => 3 <? n
  | None => false
  end.

(** [if (cond) complexityScore += delta;] *)
Definition addIf (cond : bool) (delta : Z) (complexityScore : Z) : Z :=
  if cond then complexityScore + delta else complexityScore.

(** [if (cond) complexityScore -= delta;] *)
Definition subIf (cond : bool) (delta : Z) (complexityScore : Z) : Z :=
  if cond then complexityScore - delta else complexityScore.

Definition analyzeTaskComplexity (message : string) (context : context) : Z :=
  let complexityScore := 0 in
  let lower := toLowerCase message in
  (* High complexity indicators *)
  let complexityScore :=
    addIf (includes lower "analyze" || includes lower "analysis") 2 complexityScore in
  let complexityScore :=
    addIf (includes lower "review" || includes lower "audit") 2 complexityScore in
  let complexityScore :=
    addIf (includes lower "implement" || includes lower "create") 2 complexityScore in
  let complexityScore :=
    addIf (includes lower "debug" || includes lower "fix") 2 complexityScore in
  let complexityScore :=
    addIf (includes lower "optimize" || includes lower "improve") 2 complexityScore in
  let complexityScore :=
    addIf (includes lower "architecture" || includes lower "design") 3 complexityScore in
  (* Code-related tasks *)
  let complexityScore :=
    addIf (includes lower "code" || includes lower "function" || includes lower "class")
      1 complexityScore in
  let complexityScore :=
    addIf (includes lower "pr" || includes lower "pull request") 2 complexityScore in
  let complexityScore :=
    addIf (includes lower "refactor") 2 complexityScore in
  (* Length of message (longer = more complex) *)
  let complexityScore :=
    addIf (200 <? Z.of_nat (jsLength message)) 1 complexityScore in
  let complexityScore :=
    addIf (500 <? Z.of_nat (jsLength message)) 2 complexityScore in
  (* Context from previous turns *)
  let complexityScore :=
    addIf (deepConversation context) 1 complexityScore in
  (* Low complexity indicators *)
  let complexityScore :=
    subIf (includes lower "what is" || includes lower "define") 1 complexityScore in
  let complexityScore :=
    subIf (includes lower "list" || includes lower "show me") 1 complexityScore in
  let complexityScore :=
    subIf (Z.of_nat (jsLength message) <? 50) 1 complexityScore in
  Z.max 0 complexityScore.

(** [context.forceModel === v]. *)
Definition forced (context : context) (v : string) : bool :=
  match forceModel context with
  | Some f => String.eqb f v
  | None => false
  end.

Definition chooseModel (message : string) (context : context) : modelConfig :=
  let complexity := analyzeTaskComplexity message context in
  let threshold := 3 in
  (* Allow override from context *)
  if forced context "fast" then fast
  else if forced context "smart" then smart
  (* Decision based on complexity *)
  else if threshold <=? complexity then smart
  else fast.

(** The phrases of the block "High complexity indicators". *)
Definition highComplexityIndicators : list string :=
  [ "analyze"; "analysis"; "review"; "audit"; "implement"; "create";
    "debug"; "fix"; "optimize"; "improve"; "architecture"; "design" ].

(** The phrases of the block "Low complexity indicators". *)
Definition lowComplexityIndicators : list string :=
  [ "what is"; "define"; "list"; "show me" ].

(** The additive rule in the words of the specification: each
    indicator class contributes a fixed increment when one of its
    phrases occurs, the two length thresholds and the conversation
    depth contribute theirs, and the trivial-lookup classes and a short
    message each take one point away. *)
Definition weight (present : bool) (w : Z) : Z := if present then w else 0.

Definition additiveScore (message : string) (context : context) : Z :=
  let lower := toLowerCase message in
  let len := Z.of_nat (jsLength message) in
  weight (includes lower "analyze" || includes lower "analysis") 2
  + weight (includes lower "review" || includes lower "audit") 2
  + weight (includes lower "implement" || includes lower "create") 2
  + weight (includes lower "debug" || includes lower "fix") 2
  + weight (includes lower "optimize" || includes lower "improve") 2
  + weight (includes lower "architecture" || includes lower "design") 3
  + weight (includes lower "code" || includes lower "function"
            || includes lower "class") 1
  + weight (includes lower "pr" || includes lower "pull request") 2
  + weight (includes lower "refactor") 2
  + weight (200 <? len) 1
  + weight (500 <? len) 2
  + weight (deepConversation context) 1
  - weight (includes lower "what is" || includes lower "define") 1
  - weight (includes lower "list" || includes lower "show me") 1
  - weight (len <? 50) 1.

(** [m'] extends [m] without disturbing the indicators: every phrase
    found in [m] is found in [m'], a low-complexity phrase found in
    [m'] was already in [m], and [m'] is at least as long. *)
Definition extends (m m' : string) : Prop :=
  (∀ p, includes (toLowerCase m) p = true → includes (toLowerCase m') p = true)
  ∧ (∀ p, p ∈ lowComplexityIndicators →
       includes (toLowerCase m') p = true → includes (toLowerCase m) p = true)
  ∧ (jsLength m <= jsLength m')%nat.

(** The phrases that may be appended: an indicator of the
    high-complexity block, alone or after a separating space. *)
Definition indicatorExtensions : list string :=
  highComplexityIndicators ++ map (String.append " ") highComplexityIndicators.

(** The second argument of [explainChoice]: a configuration object,
    or, as [orchestrate] passes it, the name of one. *)
Inductive chosenModel : Type :=
| ChosenConfig (config : modelConfig)
| ChosenName (modelName : string).

(** The object returned by [explainChoice]. *)
Record choiceExplanation : Type := {
  e_chosen : option string;
  e_complexity : Z;
  e_reason : string
}.

(** The empty context of a call without second argument. *)
Definition noContext : context :=
  {| conversationTurns := None; forceModel := None |}.

(** [explainChoice(message, chosenModel)]: the score is taken without
    the context. *)
Definition explainChoice (message : string) (chosen : chosenModel)
  : choiceExplanation :=
  let complexity := analyzeTaskComplexity message noContext in
  {| e_chosen :=
       match chosen with
       | ChosenConfig config => Some (name config)
       | ChosenName _ => None   (* a string has no [name] *)
       end;
     e_complexity := complexity;
     e_reason :=
       if 3 <=? complexity
       then "Task requires deep analysis and reasoning"
       else "Quick response sufficient for this task" |}.

End ModelPicker.

(* ===================================================================== *)
(** * Metrics collector (bot/metrics-collector.js)                       *)
(* ===================================================================== *)

Module Metrics.
Import Js.
Local Open Scope Z_scope.

(** The keys of [this.timings]. *)
Inductive checkpoint : Type :=
| receivedAt | fastPathCheck | acknowledgmentSent | orchestratorStart
| orchestratorEnd | skillDetection | modelSelection | promptBuilding
| apiCallStart | apiCallEnd | responseFormatStart | responseFormatEnd
| responseSent.

Global Instance checkpoint_eq_dec : EqDecision checkpoint.
Proof. solve_decision. Defined.

(** [this.timings]: every key is present, [None] is [null]. *)
Record timings : Type := {
  t_receivedAt : option Z;
  t_fastPathCheck : option Z;
  t_acknowledgmentSent : option Z;
  t_orchestratorStart : option Z;
  t_orchestratorEnd : option Z;
  t_skillDetection : option Z;
  t_modelSelection : option Z;
  t_promptBuilding : option Z;
  t_apiCallStart : option Z;
  t_apiCallEnd : option Z;
  t_responseFormatStart : option Z;
  t_responseFormatEnd : option Z;
  t_responseSent : option Z
}.

(** [this.flow]. *)
Record flow : Type := {
  f_skill : option string;
  f_model : option string;
  f_modelExplanation : option string;
  f_complexityScore : option Z;
  f_confidence : option Q;
  f_agent : string;
  f_subAgents : list string;
  f_hasError : bool;
  f_errorMessage : option string
}.

Record collector : Type := {
  messageId : key;
  userMessage : string;
  c_timings : timings;
  c_flow : flow
}.

(** [this.timings[event]] for a key of the object. *)
Definition getTiming (t : timings) (event : checkpoint) : option Z :=
  match event with
  | receivedAt => t_receivedAt t
  | fastPathCheck => t_fastPathCheck t
  | acknowledgmentSent => t_acknowledgmentSent t
  | orchestratorStart => t_orchestratorStart t
  | orchestratorEnd => t_orchestratorEnd t
  | skillDetection => t_skillDetection t
  | modelSelection => t_modelSelection t
  | promptBuilding => t_promptBuilding t
  | apiCallStart => t_apiCallStart t
  | apiCallEnd => t_apiCallEnd t
  | responseFormatStart => t_responseFormatStart t
  | responseFormatEnd => t_responseFormatEnd t
  | responseSent => t_responseSent t
  end.

(** [this.timings[event] = v]. *)
Definition setTiming (t : timings) (event : checkpoint) (v : option Z) : timings :=
  {| t_receivedAt := if event is receivedAt then v else t_receivedAt t;
     t_fastPathCheck := if event is fastPathCheck then v else t_fastPathCheck t;
     t_acknowledgmentSent :=
       if event is acknowledgmentSent then v else t_acknowledgmentSent t;
     t_orchestratorStart :=
       if event is orchestratorStart then v else t_orchestratorStart t;
     t_orchestratorEnd := if event is orchestratorEnd then v else t_orchestratorEnd t;
     t_skillDetection := if event is skillDetection then v else t_skillDetection t;
     t_modelSelection := if event is modelSelection then v else t_modelSelection t;
     t_promptBuilding := if event is promptBuilding then v else t_promptBuilding t;
     t_apiCallStart := if event is apiCallStart then v else t_apiCallStart t;
     t_apiCallEnd := if event is apiCallEnd then v else t_apiCallEnd t;
     t_responseFormatStart :=
       if event is responseFormatStart then v else t_responseFormatStart t;
     t_responseFormatEnd :=
       if event is responseFormatEnd then v else t_responseFormatEnd t;
     t_responseSent := if event is responseSent then v else t_responseSent t |}.

(** The key named by a string, if [this.timings.hasOwnProperty] it. *)
Definition checkpointOfString (event : string) : option checkpoint :=
  if String.eqb event "receivedAt" then Some receivedAt
  else if String.eqb event "fastPathCheck" then Some fastPathCheck
  else if String.eqb event "acknowledgmentSent" then Some acknowledgmentSent
  else if String.eqb event "orchestratorStart" then Some orchestratorStart
  else if String.eqb event "orchestratorEnd" then Some orchestratorEnd
  else if String.eqb event "skillDetection" then Some skillDetection
  else if String.eqb event "modelSelection" then Some modelSelection
  else if String.eqb event "promptBuilding" then Some promptBuilding
  else if String.eqb event "apiCallStart" then Some apiCallStart
  else if String.eqb event "apiCallEnd" then Some apiCallEnd
  else if String.eqb event "responseFormatStart" then Some responseFormatStart
  else if String.eqb event "responseFormatEnd" then Some responseFormatEnd
  else if String.eqb event "responseSent" then Some responseSent
  else None.

(** [mark(event)] at clock reading [now]; an unknown name only logs a
    warning. *)
Definition mark (event : string) (now : Z) (c : collector) : collector :=
  match checkpointOfString event with
  | Some cp =>
      {| messageId := messageId c; userMessage := userMessage c;
         c_timings := setTiming (c_timings c) cp (Some now);
         c_flow := c_flow c |}
  | None => c
  end.

(** [new MetricsCollector(messageId, userMessage)] at clock reading
    [now]. *)
Definition newCollector (messageId : key) (userMessage : string) (now : Z)
  : collector :=
  mark "receivedAt" now
    {| messageId := messageId; userMessage := userMessage;
       c_timings :=
         {| t_receivedAt := None; t_fastPathCheck := None;
            t_acknowledgmentSent := None; t_orchestratorStart := None;
            t_orchestratorEnd := None; t_skillDetection := None;
            t_modelSelection := None; t_promptBuilding := None;
            t_apiCallStart := None; t_apiCallEnd := None;
            t_responseFormatStart := None; t_responseFormatEnd := None;
            t_responseSent := None |};
       c_flow :=
         {| f_skill := None; f_model := None; f_modelExplanation := None;
            f_complexityScore := None; f_confidence := None;
            f_agent := "orchestrator"; f_subAgents := [];
            f_hasError := false; f_errorMessage := None |} |}.

(** The number that [null] or a timestamp denotes in a subtraction. *)
Definition toNumber (v : option Z) : Z :=
  match v with Some n => n | None => 0 end.

(** [getDuration(startEvent, endEvent)]:
    [if (!start || !end) return null; return end - start;] *)
Definition getDuration (c : collector) (startEvent endEvent : checkpoint)
  : option Z :=
  let start := getTiming (c_timings c) startEvent in
  let end_ := getTiming (c_timings c) endEvent in
  if negb (truthyOptNum start) || negb (truthyOptNum end_) then None
  else Some (toNumber end_ - toNumber start).

(** The object returned by [getBreakdown]. *)
Record breakdown : Type := {
  timestamps : timings;
  b_fastPathCheck : option Z;
  b_acknowledgment : option Z;
  b_preOrchestrator : option Z;
  b_skillDetection : option Z;
  b_modelSelection : option Z;
  b_promptBuilding : option Z;
  b_apiCall : option Z;
  b_formatting : option Z;
  b_postProcessing : option Z;
  b_orchestrator : option Z;
  b_total : Z;
  b_flow : flow
}.

(** [getBreakdown()] with [const now = Date.now()] as argument.  No
    step can throw: property reads on the two objects and arithmetic
    on numbers and [null]. *)
Definition getBreakdown (c : collector) (now : Z) : breakdown :=
  let fastPathDuration := getDuration c receivedAt fastPathCheck in
  let acknowledgmentDuration := getDuration c fastPathCheck acknowledgmentSent in
  let preOrchestratorDuration := getDuration c acknowledgmentSent orchestratorStart in
  let skillDetectionDuration := getDuration c orchestratorStart skillDetection in
  let modelSelectionDuration := getDuration c skillDetection modelSelection in
  let promptBuildingDuration := getDuration c modelSelection promptBuilding in
  let apiCallDuration := getDuration c apiCallStart apiCallEnd in
  let formattingDuration := getDuration c responseFormatStart responseFormatEnd in
  let postProcessingDuration := getDuration c responseFormatEnd responseSent in
  let totalTime :=
    if truthyOptNum (t_responseSent (c_timings c))
    then toNumber (t_responseSent (c_timings c)) - toNumber (t_receivedAt (c_timings c))
    else now - toNumber (t_receivedAt (c_timings c)) in
  let orchestratorTime :=
    if truthyOptNum (t_apiCallEnd (c_timings c))
    then Some (toNumber (t_apiCallEnd (c_timings c))
               - toNumber (t_orchestratorStart (c_timings c)))
    else None in
  {| timestamps := c_timings c;
     b_fastPathCheck := fastPathDuration;
     b_acknowledgment := acknowledgmentDuration;
     b_preOrchestrator := preOrchestratorDuration;
     b_skillDetection := skillDetectionDuration;
     b_modelSelection := modelSelectionDuration;
     b_promptBuilding := promptBuildingDuration;
     b_apiCall := apiCallDuration;
     b_formatting := formattingDuration;
     b_postProcessing := postProcessingDuration;
     b_orchestrator := orchestratorTime;
     b_total := totalTime;
     b_flow := c_flow c |}.

(** The segments of [getBreakdown]: the two checkpoints each one
    spans and the field of the result that holds it. *)
Definition segments : list (checkpoint * checkpoint * (breakdown → option Z)) :=
  [ (receivedAt, fastPathCheck, b_fastPathCheck);
    (fastPathCheck, acknowledgmentSent, b_acknowledgment);
    (acknowledgmentSent, orchestratorStart, b_preOrchestrator);
    (orchestratorStart, skillDetection, b_skillDetection);
    (skillDetection, modelSelection, b_modelSelection);
    (modelSelection, promptBuilding, b_promptBuilding);
    (apiCallStart, apiCallEnd, b_apiCall);
    (responseFormatStart, responseFormatEnd, b_formatting);
    (responseFormatEnd, responseSent, b_postProcessing) ].

(** What every collector built by [new MetricsCollector] and [mark]
    satisfies when the clock reads positive times: the first
    checkpoint is marked and no marked checkpoint holds 0. *)
Definition wellFormed (c : collector) : Prop :=
  is_Some (t_receivedAt (c_timings c))
  ∧ ∀ event, getTiming (c_timings c) event ≠ Some 0.

(** The duration between two checkpoints in the words of the
    specification: defined when both were marked. *)
Definition durationBetween (c : collector) (startEvent endEvent : checkpoint)
  : option Z :=
  match getTiming (c_timings c) startEvent, getTiming (c_timings c) endEvent with
  | Some s, Some e => Some (e - s)
  | _, _ => None
  end.

(** [isComplete()]: [!!this.timings.responseSent] *)
Definition isComplete (c : collector) : bool :=
  truthyOptNum (t_responseSent (c_timings c)).

End Metrics.

(* ===================================================================== *)
(** * Emoji constants (bot/emoji-mappings.js)                            *)
(* ===================================================================== *)

Module EmojiMappings.
Import Js.

(** [EMOJI.MODEL] *)
Definition MODEL_HA : string := "⚡".
Definition MODEL_SONNET : string := "🧠".
Definition MODEL_OPUS : string := "👑".
Definition MODEL_DEFAULT : string := "🤖".

(** [EMOJI.VERBOSITY] *)
Definition VERBOSITY_MINIMAL : string := "🔇".
Definition VERBOSITY_MEDIUM : string := "🔉".
Definition VERBOSITY_FULL : string := "🔊".

(** [EMOJI.ACTION] *)
Definition ACTION_RETRY_SMART : string := "🧠".
Definition ACTION_EXPLAIN : string := "🤔".
Definition ACTION_METRICS : string := "📊".
Definition ACTION_YES : string := "👍".
Definition ACTION_NO : string := "👎".
Definition ACTION_REFRESH : string := "🔄".

Definition getModelEmoji (modelName : option string) : string :=
  match modelName with
  | None => MODEL_DEFAULT
  | Some modelName =>
      if negb (truthyStr modelName) then MODEL_DEFAULT
      else
        let lower := toLowerCase modelName in
        if includes lower "haiku" || includes lower "fast" || includes lower "glm-4"
        then MODEL_HA
        else if includes lower "sonnet" || includes lower "smart"
        then MODEL_SONNET
        else if includes lower "opus" || includes lower "premium"
        then MODEL_OPUS
        else MODEL_DEFAULT
  end.

(** [getReactionsForVerbosity]: the emoji of each offered reaction
    (every entry has [type: 'emoji']). *)
Definition getReactionsForVerbosity (currentVerbosity : string) : list string :=
  (if negb (String.eqb currentVerbosity "minimal") then [VERBOSITY_MINIMAL] else [])
  ++ (if negb (String.eqb currentVerbosity "medium") then [VERBOSITY_MEDIUM] else [])
  ++ (if negb (String.eqb currentVerbosity "full") then [VERBOSITY_FULL] else []).

(** [Object.values(EMOJI.VERBOSITY).includes(emoji)] *)
Definition isVerbosityEmoji (emoji : string) : bool :=
  existsb (String.eqb emoji) [VERBOSITY_MINIMAL; VERBOSITY_MEDIUM; VERBOSITY_FULL].

Definition getVerbosityFromEmoji (emoji : string) : option string :=
  if String.eqb emoji VERBOSITY_MINIMAL then Some "minimal"
  else if String.eqb emoji VERBOSITY_MEDIUM then Some "medium"
  else if String.eqb emoji VERBOSITY_FULL then Some "full"
  else None.

(** [getModelNameFromEmoji]; the cases are tried in order. *)
Definition getModelNameFromEmoji (emoji : string) : option string :=
  if String.eqb emoji MODEL_HA then Some "Haiku (Fast)"
  else if String.eqb emoji MODEL_SONNET then Some "Sonnet (Smart)"
  else if String.eqb emoji MODEL_OPUS then Some "Opus (Premium)"
  else None.

(** [Object.values(EMOJI.ACTION).includes(emoji)] *)
Definition isActionEmoji (emoji : string) : bool :=
  existsb (String.eqb emoji)
    [ ACTION_RETRY_SMART; ACTION_EXPLAIN; ACTION_METRICS; ACTION_YES; ACTION_NO;
      ACTION_REFRESH ].

End EmojiMappings.

(* ===================================================================== *)
(** * Message metadata store (bot/message-metadata-store)                *)
(* ===================================================================== *)

Module MetadataStore.
Import Js.
Local Open Scope Z_scope.

(** [modelExplanation], as built by [explainChoice]. *)
Record explanation : Type := {
  chosen : option string;
  complexity : option Z;
  reason : option string
}.

(** One option of an interactive prompt. *)
Record promptOption : Type := {
  label : string;
  emoji : string;
  action : string;
  description : option string
}.

(** A metadata object; [None] is an absent field.  The same shape
    serves for the argument of [store], the stored record and the
    partial object given to [update]. *)
Record metadata : Type := {
  chatId : option Z;
  originalMessage : option string;
  originalResponse : option string;
  responseText : option string;
  skill : option string;
  model : option string;
  metrics : option Metrics.breakdown;
  modelExplanation : option explanation;
  complexityScore : option Z;
  verbosity : option string;
  type_ : option string;
  retentionMs : option Z;
  createdAt : option Z;
  expiresAt : option Z;
  pendingRetry : option bool;
  forceModel : option string;
  userFeedback : option string;
  promptAnswered : option bool;
  selectedOption : option promptOption
}.

Definition noFields : metadata :=
  {| chatId := None; originalMessage := None; originalResponse := None;
     responseText := None; skill := None; model := None; metrics := None;
     modelExplanation := None; complexityScore := None; verbosity := None;
     type_ := None; retentionMs := None; createdAt := None; expiresAt := None;
     pendingRetry := None; forceModel := None; userFeedback := None;
     promptAnswered := None; selectedOption := None |}.

(** A field of [{...a, ...b}]: the one of [b] when [b] has it. *)
Definition spreadField {A : Type} (a b : option A) : option A :=
  match b with Some v => Some v | None => a end.

(** [{...a, ...b}] *)
Definition spread (a b : metadata) : metadata :=
  {| chatId := spreadField (chatId a) (chatId b);
     originalMessage := spreadField (originalMessage a) (originalMessage b);
     originalResponse := spreadField (originalResponse a) (originalResponse b);
     responseText := spreadField (responseText a) (responseText b);
     skill := spreadField (skill a) (skill b);
     model := spreadField (model a) (model b);
     metrics := spreadField (metrics a) (metrics b);
     modelExplanation := spreadField (modelExplanation a) (modelExplanation b);
     complexityScore := spreadField (complexityScore a) (complexityScore b);
     verbosity := spreadField (verbosity a) (verbosity b);
     type_ := spreadField (type_ a) (type_ b);
     retentionMs := spreadField (retentionMs a) (retentionMs b);
     createdAt := spreadField (createdAt a) (createdAt b);
     expiresAt := spreadField (expiresAt a) (expiresAt b);
     pendingRetry := spreadField (pendingRetry a) (pendingRetry b);
     forceModel := spreadField (forceModel a) (forceModel b);
     userFeedback := spreadField (userFeedback a) (userFeedback b);
     promptAnswered := spreadField (promptAnswered a) (promptAnswered b);
     selectedOption := spreadField (selectedOption a) (selectedOption b) |}.

(** [{...m, createdAt: c, expiresAt: e}] *)
Definition withTimestamps (m : metadata) (c e : option Z) : metadata :=
  {| chatId := chatId m; originalMessage := originalMessage m;
     originalResponse := originalResponse m; responseText := responseText m;
     skill := skill m; model := model m; metrics := metrics m;
     modelExplanation := modelExplanation m;
     complexityScore := complexityScore m; verbosity := verbosity m;
     type_ := type_ m; retentionMs := retentionMs m;
     createdAt := c; expiresAt := e;
     pendingRetry := pendingRetry m; forceModel := forceModel m;
     userFeedback := userFeedback m; promptAnswered := promptAnswered m;
     selectedOption := selectedOption m |}.

Definition defaultRetentionMs : Z := 3600000.

(** [metadata.retentionMs || this.defaultRetentionMs] *)
Definition retentionOf (m : metadata) : Z :=
  match retentionMs m with
  | Some r => if truthyNum r then r else defaultRetentionMs
  | None => defaultRetentionMs
  end.

(** [store(messageId, metadata)]; [createdNow] and [expiresNow] are
    the two successive readings of [Date.now()]. *)
Definition store (messageId : key) (md : metadata) (createdNow expiresNow : Z)
    (messages : gmap string metadata) : bool * gmap string metadata :=
  if negb (truthyKey messageId) then (false, messages)
  else
    let record :=
      withTimestamps md (Some createdNow) (Some (expiresNow + retentionOf md)) in
    (true, <[keyToString messageId := record]> messages).

(** [Date.now() > record.expiresAt] *)
Definition expiredAt (now : Z) (record : metadata) : bool :=
  match expiresAt record with
  | Some e => e <? now
  | None => false
  end.

(** [get(messageId)] at clock reading [now]. *)
Definition get (messageId : key) (now : Z) (messages : gmap string metadata)
  : option metadata * gmap string metadata :=
  match messages !! keyToString messageId with
  | None => (None, messages)
  | Some record =>
      if expiredAt now record
      then (None, delete (keyToString messageId) messages)
      else (Some record, messages)
  end.

(** [update(messageId, updates)] *)
Definition update (messageId : key) (updates : metadata)
    (messages : gmap string metadata) : bool * gmap string metadata :=
  match messages !! keyToString messageId with
  | None => (false, messages)
  | Some record =>
      (true,
       <[keyToString messageId :=
           withTimestamps (spread record updates) (createdAt record) (expiresAt record)]>
         messages)
  end.

(** [now - record.createdAt > threshold || now > record.expiresAt] *)
Definition stale (now threshold : Z) (record : metadata) : bool :=
  match createdAt record with
  | Some c => threshold <? now - c
  | None => false
  end
  || expiredAt now record.

(** [cleanup(olderThanMs)] at clock reading [now]: the number of
    entries removed and the remaining map. *)
Definition cleanup (olderThanMs : option Z) (now : Z)
    (messages : gmap string metadata) : nat * gmap string metadata :=
  let threshold :=
    match olderThanMs with
    | Some t => if truthyNum t then t else defaultRetentionMs
    | None => defaultRetentionMs
    end in
  let kept := filter (fun kv => stale now threshold kv.2 = false) messages in
  ((size messages - size kept)%nat, kept).

(** The partial objects passed to [update] by the handlers. *)

(** [{ verbosity: newVerbosity }] *)
Definition verbosityUpdate (newVerbosity : string) : metadata :=
  {| chatId := None; originalMessage := None; originalResponse := None;
     responseText := None; skill := None; model := None; metrics := None;
     modelExplanation := None; complexityScore := None;
     verbosity := Some newVerbosity; type_ := None; retentionMs := None;
     createdAt := None; expiresAt := None; pendingRetry := None;
     forceModel := None; userFeedback := None; promptAnswered := None;
     selectedOption := None |}.

(** [{ pendingRetry: true, forceModel: 'smart' }] *)
Definition retryUpdate : metadata :=
  {| chatId := None; originalMessage := None; originalResponse := None;
     responseText := None; skill := None; model := None; metrics := None;
     modelExplanation := None; complexityScore := None; verbosity := None;
     type_ := None; retentionMs := None; createdAt := None;
     expiresAt := None; pendingRetry := Some true;
     forceModel := Some "smart"; userFeedback := None;
     promptAnswered := None; selectedOption := None |}.

(** [{ userFeedback: emoji }] *)
Definition feedbackUpdate (emoji : string) : metadata :=
  {| chatId := None; originalMessage := None; originalResponse := None;
     responseText := None; skill := None; model := None; metrics := None;
     modelExplanation := None; complexityScore := None; verbosity := None;
     type_ := None; retentionMs := None; createdAt := None;
     expiresAt := None; pendingRetry := None; forceModel := None;
     userFeedback := Some emoji; promptAnswered := None;
     selectedOption := None |}.

(** [{ promptAnswered: true, selectedOption }] *)
Definition answeredUpdate (selectedOption : promptOption) : metadata :=
  {| chatId := None; originalMessage := None; originalResponse := None;
     responseText := None; skill := None; model := None; metrics := None;
     modelExplanation := None; complexityScore := None; verbosity := None;
     type_ := None; retentionMs := None; createdAt := None;
     expiresAt := None; pendingRetry := None; forceModel := None;
     userFeedback := None; promptAnswered := Some true;
     selectedOption := Some selectedOption |}.

(** [delete(messageId)]: whether an entry was removed, and the map
    afterwards. *)
Definition delete_ (messageId : key) (messages : gmap string metadata)
  : bool * gmap string metadata :=
  (bool_decide (is_Some (messages !! keyToString messageId)),
   delete (keyToString messageId) messages).

(** The object returned by [getStats]. *)
Record stats : Type := {
  total : nat;
  active : nat;
  expired : nat
}.

(** [getStats()] at clock reading [now]: one pass over the values,
    counting each as expired or active. *)
Definition getStats (now : Z) (messages : gmap string metadata) : stats :=
  let counts :=
    map_fold
      (fun (_ : string) record (counts : nat * nat) =>
         if expiredAt now record
         then (counts.1, S counts.2)
         else (S counts.1, counts.2))
      (0%nat, 0%nat) messages in
  {| total := size messages; active := counts.1; expired := counts.2 |}.

(** [clear()] *)
Definition clear (messages : gmap string metadata) : gmap string metadata := ∅.

End MetadataStore.

(* ===================================================================== *)
(** * Reaction controller (bot/reaction-handler.js)                      *)
(* ===================================================================== *)

Module ReactionHandler.
Import Js EmojiMappings MetadataStore.
Local Open Scope Z_scope.

(** The calls made on the transport, in the order they are issued.
    The transport is taken to accept every call. *)
Inductive botOp : Type :=
| SendMessage (chatId : option Z) (text : string) (parseMode : option string)
| EditMessageText (chatId : option Z) (messageId : key) (text : string)
| SetMessageReaction (chatId : option Z) (messageId : key) (reactions : list string).

(** [new_reaction]: [{type, emoji}]. *)
Record reactionType : Type := {
  rt_type : string;
  rt_emoji : string
}.

(** The event given to [handleReaction]. *)
Record reaction : Type := {
  message_id : key;
  user : option Z;
  old_reaction : option reactionType;
  new_reaction : option reactionType
}.

(** A value inside a template literal or after [+=]. *)
Definition render (v : option string) : string :=
  match v with Some s => s | None => "undefined" end.

(** [a || b] on two optional strings. *)
Definition orElse (a b : option string) : option string :=
  if truthyOptStr a then a else b.

(** One line of the segment list:
    [`${prefix} ${label}: ${value}ms\n`]. *)
Definition segmentLine (prefix : string) (s : string * Z) : string :=
  prefix +:+ " " +:+ s.1 +:+ ": " +:+ numToString s.2 +:+ "ms" +:+ nl.

(** [segments.filter(s => metricsData[s.key])], each entry with its
    value. *)
Definition segmentsWithValues (metricsData : Metrics.breakdown)
  : list (string * Z) :=
  omap (fun s : string * option Z =>
          match s.2 with
          | Some v => if truthyNum v then Some (s.1, v) else None
          | None => None
          end)
    [ ("Fast Path Check", Metrics.b_fastPathCheck metricsData);
      ("Acknowledgment", Metrics.b_acknowledgment metricsData);
      ("Skill Detection", Metrics.b_skillDetection metricsData);
      ("Model Selection", Metrics.b_modelSelection metricsData);
      ("Prompt Building", Metrics.b_promptBuilding metricsData);
      ("API Call", Metrics.b_apiCall metricsData);
      ("Formatting", Metrics.b_formatting metricsData) ].

Definition formatMetricsDetails (metricsData : Metrics.breakdown) : string :=
  let text := "⏱️ **Timing Breakdown**" +:+ nl in
  let text :=
    if truthyNum (Metrics.b_total metricsData)
    then text +:+ "Total: " +:+ numToString (Metrics.b_total metricsData)
              +:+ "ms" +:+ nl
    else text in
  match segmentsWithValues metricsData with
  | [] => text
  | first :: rest =>
      let text := text +:+ segmentLine "├─" first in
      (* for (let i = 1; i < length - 1; i++) *)
      let text :=
        fold_left (fun text s => text +:+ segmentLine "├─" s) (removelast rest) text in
      (* if (length > 1) *)
      match last rest with
      | Some final => text +:+ segmentLine "└─" final
      | None => text
      end
  end.

Definition reactionsHint : string :=
  nl +:+ nl +:+
  "💡 *Reactions*: 🔇🔉🔊 verbosity | 🧠 retry smart | 🤔 explain | 📊 metrics".

Definition formatResponseWithVerbosity
    (responseText : string) (skill model : option string)
    (metricsData : option Metrics.breakdown)
    (modelExplanation : option explanation) (complexityScore : option Z)
    (verbosity : string) : string :=
  let output := "" in
  (* Add header based on verbosity *)
  let output :=
    if String.eqb verbosity "full" && truthyOptStr skill && truthyOptStr model
    then output +:+ getModelEmoji model +:+ " **" +:+ render model
                +:+ "** | 🎯 **" +:+ render skill +:+ "**" +:+ nl +:+ nl
    else if String.eqb verbosity "medium" && truthyOptStr model
    then
      let output := output +:+ getModelEmoji model +:+ " " +:+ render model in
      let output :=
        if truthyOptStr skill then output +:+ " | " +:+ render skill else output in
      output +:+ nl +:+ nl
    else output in
  (* Add metrics if available *)
  let output :=
    match metricsData with
    | Some m =>
        if String.eqb verbosity "full"
        then output +:+ formatMetricsDetails m +:+ nl +:+ nl
        else if String.eqb verbosity "medium"
        then output +:+ "⏱️ " +:+ numToString (Metrics.b_total m)
                    +:+ "ms" +:+ nl +:+ nl
        else output
    | None => output
    end in
  (* Add main response *)
  let output := output +:+ responseText in
  (* Add hint for reactions in full mode *)
  if String.eqb verbosity "full" then output +:+ reactionsHint else output.

Definition changeVerbosity (messageId : key) (emoji : string) (md : metadata)
    (messages : gmap string metadata) : gmap string metadata * list botOp :=
  match getVerbosityFromEmoji emoji with
  | None => (messages, [])
  | Some newVerbosity =>
      (* Reformat the response with new verbosity *)
      let newText :=
        formatResponseWithVerbosity
          (render (orElse (originalResponse md) (responseText md)))
          (skill md) (model md) (metrics md) (modelExplanation md)
          (complexityScore md) newVerbosity in
      (* Edit the message with new content *)
      let edit := EditMessageText (chatId md) messageId newText in
      (* Update metadata with new verbosity *)
      let messages :=
        (update messageId (verbosityUpdate newVerbosity) messages).2 in
      (* Update reactions to show current state *)
      let verbReactions := getReactionsForVerbosity newVerbosity in
      (messages, [edit; SetMessageReaction (chatId md) messageId verbReactions])
  end.

(** [retryWithSmartModel] *)
Definition retryWithSmartModel (messageId : key) (md : metadata)
    (messages : gmap string metadata) : gmap string metadata * list botOp :=
  (* Check if already using smart model *)
  if truthyOptStr (model md) && includes (toLowerCase (render (model md))) "sonnet"
  then
    (messages,
     [SendMessage (chatId md)
        ("🧠 Already using the smart model (" +:+ render (model md) +:+ ").") None])
  else
    (* Send processing indicator *)
    let processing := SendMessage (chatId md) "🔄 Retrying with smart model..." None in
    (* Store retry request so orchestrator can pick it up *)
    let messages := (update messageId retryUpdate messages).2 in
    (* For now, just inform the user *)
    let note :=
      SendMessage (chatId md)
        ("💡 *Note*: Full retry support requires orchestrator integration."
         +:+ nl +:+ nl +:+ "Please send your message again with " +:+ dq
         +:+ "smart model" +:+ dq +:+ " hint if needed.")
        (Some "Markdown") in
    (messages, [processing; note]).

(** [explainReasoning] *)
Definition explainReasoning (messageId : key) (md : metadata)
    (messages : gmap string metadata) : gmap string metadata * list botOp :=
  let explanation := "🤔 **Why this response?**" +:+ nl +:+ nl in
  let explanation :=
    if truthyOptStr (skill md)
    then explanation +:+ "🎯 **Skill**: " +:+ render (skill md) +:+ nl
    else explanation in
  let explanation :=
    if truthyOptStr (model md)
    then explanation +:+ getModelEmoji (model md) +:+ " **Model**: "
                     +:+ render (model md) +:+ nl
    else explanation in
  let explanation :=
    match complexityScore md with
    | Some score =>
        explanation +:+ "📊 **Complexity Score**: " +:+ numToString score
                    +:+ "/3" +:+ nl
    | None => explanation
    end in
  let explanation :=
    match modelExplanation md with
    | Some e =>
        explanation +:+ nl +:+ "💭 **Reasoning**: "
                    +:+ render (orElse (reason e) (Some "N/A")) +:+ nl
    | None => explanation
    end in
  let explanation :=
    explanation +:+ nl +:+ "React with 📊 for detailed timing metrics." in
  (messages, [SendMessage (chatId md) explanation (Some "Markdown")]).

(** [showFullMetrics] *)
Definition showFullMetrics (messageId : key) (md : metadata)
    (messages : gmap string metadata) : gmap string metadata * list botOp :=
  let message := "📊 **Detailed Metrics**" +:+ nl +:+ nl in
  let message :=
    if truthyOptStr (skill md)
    then message +:+ "🎯 Skill: " +:+ render (skill md) +:+ nl
    else message in
  let message :=
    if truthyOptStr (model md)
    then message +:+ getModelEmoji (model md) +:+ " Model: "
                 +:+ render (model md) +:+ nl
    else message in
  let message := message +:+ nl in
  let message :=
    match metrics md with
    | Some m => message +:+ formatMetricsDetails m
    | None => message +:+ "No detailed metrics available for this message."
    end in
  (messages, [SendMessage (chatId md) message (Some "Markdown")]).

(** [handleUserFeedback] *)
Definition handleUserFeedback (emoji : string) (messageId : key) (md : metadata)
    (messages : gmap string metadata) : gmap string metadata * list botOp :=
  let thanks :=
    if String.eqb emoji ACTION_YES
    then SendMessage (chatId md) "✅ Thanks for the feedback!" None
    else SendMessage (chatId md)
           "📝 Thanks for the feedback! You can react with 🧠 to retry with a smarter model."
           None in
  (* Store feedback in metadata *)
  let messages := (update messageId (feedbackUpdate emoji) messages).2 in
  (messages, [thanks]).

(** [handleReaction(reaction, metadataStore, bot)] at clock reading
    [now]: the store afterwards and the calls issued. *)
Definition handleReaction (reaction : reaction) (now : Z)
    (messages : gmap string metadata) : gmap string metadata * list botOp :=
  (* Get the emoji from the reaction *)
  let emoji :=
    match new_reaction reaction with
    | Some r => if String.eqb (rt_type r) "emoji" then Some (rt_emoji r) else None
    | None => None
    end in
  if negb (truthyOptStr emoji) then (messages, [])
  else
    let emoji := render emoji in
    (* Get metadata for this message *)
    let '(found, messages) := get (message_id reaction) now messages in
    match found with
    | None => (messages, [])
    | Some md =>
        if isVerbosityEmoji emoji
        then changeVerbosity (message_id reaction) emoji md messages
        else if String.eqb emoji ACTION_RETRY_SMART
        then retryWithSmartModel (message_id reaction) md messages
        else if String.eqb emoji ACTION_EXPLAIN
        then explainReasoning (message_id reaction) md messages
        else if String.eqb emoji ACTION_METRICS
        then showFullMetrics (message_id reaction) md messages
        else if String.eqb emoji ACTION_YES || String.eqb emoji ACTION_NO
        then handleUserFeedback emoji (message_id reaction) md messages
        else (messages, [])
    end.

(** The text shown for a message after a run of transport calls: the
    text of the last edit of that message, or the text it had. *)
Definition shownText (messageId : key) (before : string) (ops : list botOp)
  : string :=
  fold_left
    (fun text op =>
       match op with
       | EditMessageText _ target newText =>
           if String.eqb (keyToString target) (keyToString messageId)
           then newText else text
       | _ => text
       end)
    ops before.

(** The record left by a verbosity change. *)
Definition withVerbosity (md : metadata) (v : string) : metadata :=
  withTimestamps (spread md (verbosityUpdate v)) (createdAt md) (expiresAt md).

(** The text rendered by a verbosity change. *)
Definition renderedAt (md : metadata) (v : string) : string :=
  formatResponseWithVerbosity
    (render (orElse (originalResponse md) (responseText md)))
    (skill md) (model md) (metrics md) (modelExplanation md)
    (complexityScore md) v.

(** The chat a transport call addresses. *)
Definition opChat (op : botOp) : option Z :=
  match op with
  | SendMessage chat _ _ => chat
  | EditMessageText chat _ _ => chat
  | SetMessageReaction chat _ _ => chat
  end.

(** Whether a transport call edits a message that was already sent. *)
Definition isEdit (op : botOp) : bool :=
  match op with
  | EditMessageText _ _ _ => true
  | _ => false
  end.

(** The fields of a record that no reaction may change. *)
Definition sameContent (before after : metadata) : Prop :=
  chatId after = chatId before
  ∧ originalMessage after = originalMessage before
  ∧ originalResponse after = originalResponse before
  ∧ responseText after = responseText before
  ∧ skill after = skill before
  ∧ model after = model before
  ∧ metrics after = metrics before
  ∧ createdAt after = createdAt before
  ∧ expiresAt after = expiresAt before.

(** The five branches, as one function of the symbol. *)
Definition dispatch (emoji : string) (messageId : key) (md : metadata)
    (messages : gmap string metadata) : gmap string metadata * list botOp :=
  if isVerbosityEmoji emoji then changeVerbosity messageId emoji md messages
  else if String.eqb emoji ACTION_RETRY_SMART
  then retryWithSmartModel messageId md messages
  else if String.eqb emoji ACTION_EXPLAIN then explainReasoning messageId md messages
  else if String.eqb emoji ACTION_METRICS then showFullMetrics messageId md messages
  else if String.eqb emoji ACTION_YES || String.eqb emoji ACTION_NO
  then handleUserFeedback emoji messageId md messages
  else (messages, []).

End ReactionHandler.

(* ===================================================================== *)
(** * Pending prompts (bot/user-prompt-handler.js)                       *)
(* ===================================================================== *)

Module UserPromptHandler.
Import Js MetadataStore.
Local Open Scope Z_scope.

(** The [context] object given to [promptUser]. *)
Record promptContext : Type := {
  timeout : option Z;
  payload : list (string * string)
}.

(** A value of [this.pendingPrompts]. *)
Record promptData : Type := {
  p_chatId : option Z;
  question : string;
  options : list promptOption;
  p_createdAt : Z;
  p_expiresAt : Z;
  context : promptContext
}.

(** The handler: [this.pendingPrompts] and the map of
    [this.metadataStore]. *)
Record handler : Type := {
  pendingPrompts : gmap string promptData;
  metadataStore : gmap string metadata
}.

(** The object returned by [handleResponse] on a selection. *)
Record selection : Type := {
  s_question : string;
  answer : string;
  s_action : string;
  s_context : promptContext
}.

Definition defaultTimeout : Z := 300000.

(** [handleResponse(messageId, emoji)] at clock reading [now];
    [None] is the [null] result. *)
Definition handleResponse (messageId : key) (emoji_ : string) (now : Z)
    (h : handler) : option selection * handler :=
  match pendingPrompts h !! keyToString messageId with
  | None => (None, h)
  | Some promptData =>
      (* Check if expired *)
      if p_expiresAt promptData <? now
      then
        (None,
         {| pendingPrompts := delete (keyToString messageId) (pendingPrompts h);
            metadataStore := metadataStore h |})
      else
        (* Find the matching option *)
        match find (fun opt => String.eqb (emoji opt) emoji_) (options promptData) with
        | None => (None, h)
        | Some selectedOption =>
            (* Remove from pending (user has responded) *)
            let pending := delete (keyToString messageId) (pendingPrompts h) in
            (* Mark the message as answered in metadata store *)
            let store :=
              (update messageId (answeredUpdate selectedOption) (metadataStore h)).2 in
            (Some {| s_question := question promptData;
                     answer := label selectedOption;
                     s_action := action selectedOption;
                     s_context := context promptData |},
             {| pendingPrompts := pending; metadataStore := store |})
        end
  end.

(** [isPendingPrompt(messageId)] *)
Definition isPendingPrompt (messageId : key) (h : handler) : bool :=
  bool_decide (is_Some (pendingPrompts h !! keyToString messageId)).

(** [cancelPrompt(messageId)] *)
Definition cancelPrompt (messageId : key) (h : handler) : bool * handler :=
  match pendingPrompts h !! keyToString messageId with
  | Some _ =>
      (true,
       {| pendingPrompts := delete (keyToString messageId) (pendingPrompts h);
          metadataStore := metadataStore h |})
  | None => (false, h)
  end.

(** [cleanup()] at clock reading [now]: the number of prompts removed
    and the handler afterwards. *)
Definition cleanup (now : Z) (h : handler) : nat * handler :=
  let kept :=
    filter (fun kv : string * promptData => (p_expiresAt kv.2 <? now) = false)
      (pendingPrompts h) in
  ((size (pendingPrompts h) - size kept)%nat,
   {| pendingPrompts := kept; metadataStore := metadataStore h |}).

(** [getPromptData(messageId)] *)
Definition getPromptData (messageId : key) (h : handler) : option promptData :=
  pendingPrompts h !! keyToString messageId.

(** [cancelAllForChat(chatId)]: the number of prompts removed and the
    handler afterwards ([promptData.chatId === chatId]). *)
Definition cancelAllForChat (chatId : option Z) (h : handler) : nat * handler :=
  let kept :=
    filter (fun kv : string * promptData => p_chatId kv.2 ≠ chatId)
      (pendingPrompts h) in
  ((size (pendingPrompts h) - size kept)%nat,
   {| pendingPrompts := kept; metadataStore := metadataStore h |}).

End UserPromptHandler.

(* ===================================================================== *)
(** * Session persistence (storage/session-store)                        *)
(* ===================================================================== *)

Module SessionStore.
Import Js.
Local Open Scope Z_scope.

(** One entry of a session's history. *)
Record turn : Type := {
  role : string;
  content : string;
  timestamp : string
}.

Record sessionContext : Type := {
  lastSkill : option string
}.

(** A value of [sessionsCache], as built by [ChatSession.getState]. *)
Record sessionData : Type := {
  history : list turn;
  context : sessionContext;
  turnCount : Z;
  lastActive : string
}.

(** [sessionsCache]: a [Map] whose keys are the user ids handed to
    [setSession], listed in insertion order. *)
Definition sessionMap : Type := list (key * sessionData).

(** [map.get(k)] *)
Fixpoint mapGet (k : key) (m : sessionMap) : option sessionData :=
  match m with
  | [] => None
  | (k', v) :: m' => if keyEqb k' k then Some v else mapGet k m'
  end.

(** [map.set(k, v)]: an existing key keeps its place. *)
Fixpoint mapSet (k : key) (v : sessionData) (m : sessionMap) : sessionMap :=
  match m with
  | [] => [(k, v)]
  | (k', v') :: m' =>
      if keyEqb k' k then (k', v) :: m' else (k', v') :: mapSet k v m'
  end.

(** A session object read back from the JSON document: any field
    may be missing. *)
Record jsonSession : Type := {
  j_history : option (list turn);
  j_context : option sessionContext;
  j_turnCount : option Z;
  j_lastActive : option string
}.

(** The own properties of a plain object, in the order in which
    [Object.entries] and [JSON.stringify] list them: the names that are
    array indices first, in ascending numeric order, then the other
    names in the order of their creation. *)
Definition jsonObject : Type := list (string * jsonSession).

(** The members of a JSON document, in the order of the text. *)
Definition jsonMembers : Type := list (string * jsonSession).

Definition digitOf (c : ascii) : option N :=
  let n := N_of_ascii c in
  if ((48 <=? n) && (n <=? 57))%N then Some (n - 48)%N else None.

Fixpoint parseDigits (s : string) (acc : N) : option N :=
  match s with
  | EmptyString => Some acc
  | String c s' =>
      match digitOf c with
      | Some d => parseDigits s' (10 * acc + d)%N
      | None => None
      end
  end.

(** The array index that a property name denotes, if any: a decimal
    numeral without leading zero, at most 2^32 - 2. *)
Definition arrayIndex (name : string) : option N :=
  match name with
  | EmptyString => None
  | String "0"%char EmptyString => Some 0%N
  | String "0"%char _ => None
  | _ =>
      match parseDigits name 0 with
      | Some n => if (n <? 4294967295)%N then Some n else None
      | None => None
      end
  end.

(** Whether a new property [name] is listed before the property [n]. *)
Definition listedBefore (name n : string) : bool :=
  match arrayIndex name, arrayIndex n with
  | Some i, Some j => (i <? j)%N
  | Some _, None => true
  | None, _ => false
  end.

(** Add a property that the object does not have yet. *)
Fixpoint insertNew (name : string) (v : jsonSession) (obj : jsonObject)
  : jsonObject :=
  match obj with
  | [] => [(name, v)]
  | (n, w) :: rest =>
      if listedBefore name n then (name, v) :: (n, w) :: rest
      else (n, w) :: insertNew name v rest
  end.

(** Create the own property [name] or overwrite its value, keeping its
    place: what [JSON.parse] does for a member, and what an assignment
    does for a name that has no inherited setter. *)
Definition defineOwn (name : string) (v : jsonSession) (obj : jsonObject)
  : jsonObject :=
  if existsb (fun e => String.eqb e.1 name) obj
  then map (fun e => if String.eqb e.1 name then (e.1, v) else e) obj
  else insertNew name v obj.

(** [obj[name] = v] on an object created by [{}], for an object [v]:
    the name ['__proto__'] reaches the setter inherited from
    [Object.prototype], which replaces the prototype and creates no
    own property. *)
Definition objSet (name : string) (v : jsonSession) (obj : jsonObject) : jsonObject :=
  if String.eqb name "__proto__" then obj else defineOwn name v obj.

(** [JSON.parse] of a document: of two members with one name the later
    value is kept, at the place of the first. *)
Definition parseObject (members : jsonMembers) : jsonObject :=
  fold_left (fun obj member => defineOwn member.1 member.2 obj) members [].

(** The value of the own property [name]. *)
Definition objGet (name : string) (obj : jsonObject) : option jsonSession :=
  snd <$> find (fun e => String.eqb e.1 name) obj.

(** What [JSON.parse(JSON.stringify(s))] yields for a session: the
    strings, the integer counter and the history array come back as
    written. *)
Definition toJson (s : sessionData) : jsonSession :=
  {| j_history := Some (history s);
     j_context := Some (context s);
     j_turnCount := Some (turnCount s);
     j_lastActive := Some (lastActive s) |}.

(** The two files, each a JSON document; [None] is a missing file. *)
Record disk : Type := {
  sessionFile : option jsonMembers;
  backupFile : option jsonMembers
}.

(** [saveSessions()]: copy the current file to the backup (a missing
    file is tolerated), then write every entry of the map under
    [plainObject[userId]]; the document lists the own properties of
    [plainObject]. *)
Definition saveSessions (sessionsCache : sessionMap) (d : disk) : disk :=
  let backup :=
    match sessionFile d with
    | Some current => Some current
    | None => backupFile d
    end in
  let plainObject :=
    fold_left
      (fun plainObject entry =>
         objSet (keyToString entry.1) (toJson entry.2) plainObject)
      sessionsCache [] in
  {| sessionFile := Some plainObject; backupFile := backup |}.

(** The object stored by [loadSessions] for one parsed entry;
    [nowIso] is [new Date().toISOString()]. *)
Definition restore (nowIso : string) (parsed : jsonSession) : sessionData :=
  {| history := match j_history parsed with Some h => h | None => [] end;
     context :=
       match j_context parsed with
       | Some c => c
       | None => {| lastSkill := None |}
       end;
     turnCount :=
       match j_turnCount parsed with
       | Some n => if truthyNum n then n else 0
       | None => 0
       end;
     lastActive :=
       match j_lastActive parsed with
       | Some t => if truthyStr t then t else nowIso
       | None => nowIso
       end |}.

(** [loadSessions()]: a fresh map filled from [Object.entries(parsed)];
    a missing file gives the empty map. *)
Definition loadSessions (nowIso : string) (d : disk) : sessionMap :=
  match sessionFile d with
  | None => []
  | Some data =>
      let parsed := parseObject data in
      fold_left
        (fun sessionsCache entry =>
           mapSet (KStr entry.1) (restore nowIso entry.2) sessionsCache)
        parsed []
  end.

(** [getSession(userId)] *)
Definition getSession (userId : key) (sessionsCache : sessionMap)
  : option sessionData :=
  mapGet userId sessionsCache.

(** [setSession(userId, sessionData)] *)
Definition setSession (userId : key) (s : sessionData) (nowIso : string)
    (sessionsCache : sessionMap) : sessionMap :=
  mapSet userId
    {| history := history s; context := context s; turnCount := turnCount s;
       lastActive := nowIso |}
    sessionsCache.

(** Every key of the map is a string. *)
Definition stringKeys (m : sessionMap) : Prop :=
  Forall (fun e : key * sessionData => ∃ s, e.1 = KStr s) m.

(** [map.delete(k)]: whether an entry was removed, and the map
    afterwards. *)
Fixpoint mapDelete (k : key) (m : sessionMap) : bool * sessionMap :=
  match m with
  | [] => (false, [])
  | (k', v) :: m' =>
      if keyEqb k' k then (true, m')
      else let r := mapDelete k m' in (r.1, (k', v) :: r.2)
  end.

(** [deleteSession(userId)] *)
Definition deleteSession (userId : key) (sessionsCache : sessionMap)
  : bool * sessionMap :=
  mapDelete userId sessionsCache.

(** [clearAllSessions()]: the number of sessions dropped and the
    empty map. *)
Definition clearAllSessions (sessionsCache : sessionMap) : nat * sessionMap :=
  (length sessionsCache, []).

(** [getSessionCount()] *)
Definition getSessionCount (sessionsCache : sessionMap) : nat :=
  length sessionsCache.

End SessionStore.

(* ===================================================================== *)
(** * Orchestrator (orchestrator/main.js)                                *)
(* ===================================================================== *)

Module Orchestrator.
Import Js.
Local Open Scope Z_scope.

(** [array.slice(start)] for an integer [start]: a negative [start]
    counts from the end. *)
Definition slice {A : Type} (start : Z) (l : list A) : list A :=
  let len := Z.of_nat (length l) in
  let k := if start <? 0 then Z.max (len + start) 0 else Z.min start len in
  drop (Z.to_nat k) l.

(** An entry of the [messages] array sent to the model backend. *)
Record message : Type := {
  m_role : string;
  m_content : string
}.

(** [formatConversationHistory(history, maxTurns)]; [None] is a
    missing history. *)
Definition formatConversationHistory
    (history : option (list SessionStore.turn)) (maxTurns : Z) : list message :=
  match history with
  | None => []
  | Some history =>
      if (length history =? 0)%nat then []
      else
        (* Get last maxTurns*2 messages (user + assistant pairs) *)
        let recentHistory := slice (- maxTurns * 2) history in
        map (fun msg => {| m_role := SessionStore.role msg;
                           m_content := SessionStore.content msg |})
          recentHistory
  end.

(** The deadline chosen by [executeClaude] from [modelConfig.name]. *)
Definition executeClaudeTimeout (modelName : string) : Z :=
  let modelTier := toLowerCase modelName in
  if includes modelTier "haiku" || includes modelTier "flash" then 30000
  else if includes modelTier "sonnet" || includes modelTier "pro" then 60000
  else if includes modelTier "opus" then 90000
  else 60000.

(** [response.result.result] as [ChatSession.sendMessage] reads it: a
    string, or an object whose [output] may be a string. *)
Inductive innerResult : Type :=
| InnerString (text : string)
| InnerObject (output : option string).

(** [response.result]: a string, or an object whose [output] may be a
    string and whose [result] may be present.  A field that holds no
    string is absent. *)
Inductive resultValue : Type :=
| ResultString (text : string)
| ResultObject (output : option string) (result : option innerResult).

(** The fields of the object returned by [orchestrate] that
    [sendMessage] reads. *)
Record response : Type := {
  r_skill : option string;
  r_result : option resultValue;
  r_error : option string
}.

(** The text that [sendMessage] extracts from a response for the
    history. *)
Definition responseTextOf (response : response) : string :=
  let responseText := "" in
  let responseText :=
    match r_result response with
    | Some (ResultString text) => if truthyStr text then text else responseText
    | Some (ResultObject output result) =>
        if truthyOptStr output
        then match output with Some o => o | None => responseText end
        else
          match result with
          | Some (InnerString text) =>
              if truthyStr text then text else responseText
          | Some (InnerObject inner) =>
              if truthyOptStr inner
              then match inner with Some o => o | None => responseText end
              else responseText
          | None => responseText
          end
    | None => responseText
    end in
  (* Fall back to error message if no content *)
  if negb (truthyStr responseText) && truthyOptStr (r_error response)
  then "Error: " +:+ match r_error response with Some e => e | None => "" end
  else responseText.

(** A [ChatSession]. *)
Record chatSession : Type := {
  userId : key;
  history : list SessionStore.turn;
  context : SessionStore.sessionContext;
  turnCount : Z
}.

(** [new ChatSession(userId, initialData)] *)
Definition newChatSession (userId : key)
    (initialData : option SessionStore.sessionData) : chatSession :=
  match initialData with
  | Some data =>
      {| userId := userId;
         history := SessionStore.history data;
         context := SessionStore.context data;
         turnCount :=
           if truthyNum (SessionStore.turnCount data)
           then SessionStore.turnCount data else 0 |}
  | None =>
      {| userId := userId; history := [];
         context := {| SessionStore.lastSkill := None |}; turnCount := 0 |}
  end.

(** [createSession(userId)] *)
Definition createSession (userId : key) (sessionsCache : SessionStore.sessionMap)
  : chatSession :=
  newChatSession userId (SessionStore.getSession userId sessionsCache).

(** [getState()]; [nowIso] is [new Date().toISOString()]. *)
Definition getState (session : chatSession) (nowIso : string)
  : SessionStore.sessionData :=
  {| SessionStore.history := history session;
     SessionStore.context := context session;
     SessionStore.turnCount := turnCount session;
     SessionStore.lastActive := nowIso |}.

(** [sendMessage(message)] up to [await orchestrate(...)]: the turn is
    counted and the user entry is pushed.  Other callbacks, among them
    further calls on the same session, can run before the call goes
    on. *)
Definition sendMessageStart (message_ userStamp : string)
    (session : chatSession) : chatSession :=
  let turnCount := turnCount session + 1 in
  (* Add to history *)
  let history :=
    history session
    ++ [ {| SessionStore.role := "user"; SessionStore.content := message_;
            SessionStore.timestamp := userStamp |} ] in
  {| userId := userId session; history := history; context := context session;
     turnCount := turnCount |}.

(** What [sendMessage] does to the session once [orchestrate] has
    answered with [response]. *)
Definition receiveResponse (response : response) (assistantStamp : string)
    (session : chatSession) : chatSession :=
  let responseText := responseTextOf response in
  (* Add response to history (must be a string for API) *)
  let history :=
    history session
    ++ [ {| SessionStore.role := "assistant"; SessionStore.content := responseText;
            SessionStore.timestamp := assistantStamp |} ] in
  (* Update context based on response *)
  let context :=
    if truthyOptStr (r_skill response)
    then {| SessionStore.lastSkill := r_skill response |}
    else context session in
  {| userId := userId session; history := history; context := context;
     turnCount := turnCount session |}.

(** [sendMessage] from the answer of [orchestrate] on: the session, the
    session map after [setSession], and the files as [saveSessions]
    leaves them when nothing else changes the map before it writes (a
    failed write is only logged). *)
Definition sendMessageFinish (response : response)
    (assistantStamp stateStamp storeStamp : string)
    (session : chatSession) (sessionsCache : SessionStore.sessionMap)
    (files : SessionStore.disk)
  : chatSession * SessionStore.sessionMap * SessionStore.disk :=
  let session := receiveResponse response assistantStamp session in
  (* Save to session store *)
  let sessionsCache :=
    SessionStore.setSession (userId session) (getState session stateStamp)
      storeStamp sessionsCache in
  (session, sessionsCache, SessionStore.saveSessions sessionsCache files).

(** [sendMessage(message)] when nothing else touches the session or the
    session map while the call waits: the answer of [orchestrate] is
    [response], and the four clock readings come in the order they are
    taken. *)
Definition sendMessage (message_ : string) (response : response)
    (userStamp assistantStamp stateStamp storeStamp : string)
    (session : chatSession) (sessionsCache : SessionStore.sessionMap)
    (files : SessionStore.disk)
  : chatSession * SessionStore.sessionMap * SessionStore.disk :=
  sendMessageFinish response assistantStamp stateStamp storeStamp
    (sendMessageStart message_ userStamp session) sessionsCache files.

(** One step of a session on which several calls of [sendMessage] may
    be waiting: a call starts, or a waiting call receives its answer. *)
Inductive callStep : Type :=
| CallStart (message_ userStamp : string)
| CallFinish (response : response) (assistantStamp : string).

Definition sessionStep (session : chatSession) (step : callStep) : chatSession :=
  match step with
  | CallStart message_ userStamp => sendMessageStart message_ userStamp session
  | CallFinish response assistantStamp =>
      receiveResponse response assistantStamp session
  end.

(** The history entry that a step pushes. *)
Definition stepEntry (step : callStep) : SessionStore.turn :=
  match step with
  | CallStart message_ userStamp =>
      {| SessionStore.role := "user"; SessionStore.content := message_;
         SessionStore.timestamp := userStamp |}
  | CallFinish response assistantStamp =>
      {| SessionStore.role := "assistant";
         SessionStore.content := responseTextOf response;
         SessionStore.timestamp := assistantStamp |}
  end.

Definition isStart (step : callStep) : bool :=
  match step with CallStart _ _ => true | CallFinish _ _ => false end.

(** [clearHistory()] *)
Definition clearHistory (stateStamp storeStamp : string)
    (session : chatSession) (sessionsCache : SessionStore.sessionMap)
    (files : SessionStore.disk)
  : chatSession * SessionStore.sessionMap * SessionStore.disk :=
  let session :=
    {| userId := userId session; history := []; context := context session;
       turnCount := 0 |} in
  let sessionsCache :=
    SessionStore.setSession (userId session) (getState session stateStamp)
      storeStamp sessionsCache in
  (session, sessionsCache, SessionStore.saveSessions sessionsCache files).

(** The preamble that [executeClaude] puts before every prompt. *)
Definition clawdbotContext (modelName : string) : string :=
  "IMPORTANT: You are Clawdbot v4.0, an AI assistant on Telegram with 9 specialized skills."
  +:+ nl
  +:+ "Skills: general, web-search, pr-review, code-exec, docker-mgr, file-ops, organize, tts, web-scrape."
  +:+ nl
  +:+ "Models: Haiku (Fast) or Sonnet (Smart). Currently: " +:+ modelName +:+ "."
  +:+ nl
  +:+ "When asked about skills/capabilities: You have exactly 9 skills. List them all."
  +:+ nl
  +:+ "---".

(** The [messages] array that [executeClaude] sends: the formatted
    [context.history] (window of the default 10 turns), then the prompt
    as a user message. *)
Definition requestMessages (prompt modelName : string)
    (history : option (list SessionStore.turn)) : list message :=
  let history := match history with Some h => h | None => [] end in
  let formattedHistory := formatConversationHistory (Some history) 10 in
  formattedHistory
  ++ [ {| m_role := "user"; m_content := clawdbotContext modelName +:+ prompt |} ].

End Orchestrator.

(* ===================================================================== *)
(** * Code execution skill (skills/code-exec)                            *)
(* ===================================================================== *)

Module CodeExec.
Import Js.

Definition detectLanguage (code : string) : string :=
  if includes code "def " || includes code "import " then "python"
  else if includes code "function " || includes code "const " || includes code "let "
  then "javascript"
  else if includes code "#!/bin/bash" || includes code "echo " then "bash"
  else if includes code "public class" || includes code "public static void main"
  then "java"
  else if includes code "package main" || includes code "func " then "go"
  else if includes code "fn main()" || includes code "let mut " then "rust"
  else "python".

(** The table [images]. *)
Definition images : list (string * string) :=
  [ ("python", "python:3.11-slim");
    ("javascript", "node:20-slim");
    ("bash", "bash:latest");
    ("java", "openjdk:21-slim");
    ("go", "golang:1.21-alpine");
    ("rust", "rust:1.75-alpine") ].

(** What [getDockerImage] returns: an image name of the table, or the
    member of [Object.prototype] that the language names. *)
Inductive imageRef : Type :=
| Image (imageName : string)
| PrototypeMember (property : string).

(** [getDockerImage(language)]: [images[language] || images.python] *)
Definition getDockerImage (language : string) : imageRef :=
  match find (fun e => String.eqb e.1 language) images with
  | Some e => Image e.2
  | None =>
      match protoMember language with
      | Some _ => PrototypeMember language
      | None => Image "python:3.11-slim"
      end
  end.

End CodeExec.

(* ===================================================================== *)
(** * Sample data                                                        *)
(* ===================================================================== *)

Module Samples.

(** A yes/no prompt under message id 99, created at 1000 and expiring
    at 301000. *)
Definition yesNoPrompt : UserPromptHandler.handler :=
  {| UserPromptHandler.pendingPrompts :=
       {[ "99" :=
            {| UserPromptHandler.p_chatId := Some 5%Z;
               UserPromptHandler.question := "Deploy?";
               UserPromptHandler.options :=
                 [ {| MetadataStore.label := "Yes";
                      MetadataStore.emoji := EmojiMappings.ACTION_YES;
                      MetadataStore.action := "yes";
                      MetadataStore.description := None |};
                   {| MetadataStore.label := "No";
                      MetadataStore.emoji := EmojiMappings.ACTION_NO;
                      MetadataStore.action := "no";
                      MetadataStore.description := None |} ];
               UserPromptHandler.p_createdAt := 1000;
               UserPromptHandler.p_expiresAt := 301000;
               UserPromptHandler.context :=
                 {| UserPromptHandler.timeout := None;
                    UserPromptHandler.payload := [] |} |} ]};
     UserPromptHandler.metadataStore := ∅ |}.

(** The record stored for a sent answer, as the message handler
    stores it: created at 1000, expiring at 3601000, verbosity
    medium. *)
Definition answerRecord : MetadataStore.metadata :=
  {| MetadataStore.chatId := Some 5%Z;
     MetadataStore.originalMessage := Some "what is 2+2";
     MetadataStore.originalResponse := None;
     MetadataStore.responseText := Some "4";
     MetadataStore.skill := Some "general";
     MetadataStore.model := Some "claude-haiku-4-20250514";
     MetadataStore.metrics := None;
     MetadataStore.modelExplanation := None;
     MetadataStore.complexityScore := Some 0%Z;
     MetadataStore.verbosity := Some "medium";
     MetadataStore.type_ := Some "bot-response";
     MetadataStore.retentionMs := None;
     MetadataStore.createdAt := Some 1000%Z;
     MetadataStore.expiresAt := Some 3601000%Z;
     MetadataStore.pendingRetry := None;
     MetadataStore.forceModel := None;
     MetadataStore.userFeedback := None;
     MetadataStore.promptAnswered := None;
     MetadataStore.selectedOption := None |}.

(** The store holding that record under message id 55. *)
Definition answerStore : gmap string MetadataStore.metadata :=
  {[ "55" := answerRecord ]}.

(** A reaction with the given symbol on message 55. *)
Definition reactionOn55 (symbol : string) : ReactionHandler.reaction :=
  {| ReactionHandler.message_id := Js.KNum 55;
     ReactionHandler.user := Some 5%Z;
     ReactionHandler.old_reaction := None;
     ReactionHandler.new_reaction :=
       Some {| ReactionHandler.rt_type := "emoji";
               ReactionHandler.rt_emoji := symbol |} |}.

(** A model name of 80 characters. *)
Definition longModelName : string :=
  "anthropic/claude-sonnet-4-20250514-extended-thinking-long-context-window-preview".

(** A session with one exchange. *)
Definition oneExchange : SessionStore.sessionData :=
  {| SessionStore.history :=
       [ {| SessionStore.role := "user"; SessionStore.content := "hi";
            SessionStore.timestamp := "2026-01-01T00:00:00.000Z" |};
         {| SessionStore.role := "assistant"; SessionStore.content := "hello";
            SessionStore.timestamp := "2026-01-01T00:00:01.000Z" |} ];
     SessionStore.context := {| SessionStore.lastSkill := Some "general" |};
     SessionStore.turnCount := 1;
     SessionStore.lastActive := "2026-01-01T00:00:01.000Z" |}.

Definition emptyDisk : SessionStore.disk :=
  {| SessionStore.sessionFile := None; SessionStore.backupFile := None |}.

(** A record asking to be kept for two hours. *)
Definition longRetention : MetadataStore.metadata :=
  {| MetadataStore.chatId := Some 5%Z;
     MetadataStore.originalMessage := None;
     MetadataStore.originalResponse := None;
     MetadataStore.responseText := Some "4";
     MetadataStore.skill := None;
     MetadataStore.model := None;
     MetadataStore.metrics := None;
     MetadataStore.modelExplanation := None;
     MetadataStore.complexityScore := None;
     MetadataStore.verbosity := None;
     MetadataStore.type_ := None;
     MetadataStore.retentionMs := Some 7200000%Z;
     MetadataStore.createdAt := None;
     MetadataStore.expiresAt := None;
     MetadataStore.pendingRetry := None;
     MetadataStore.forceModel := None;
     MetadataStore.userFeedback := None;
     MetadataStore.promptAnswered := None;
     MetadataStore.selectedOption := None |}.


(** The session map holding one session under the string id "42". *)
Definition oneStringUser : SessionStore.sessionMap :=
  [(Js.KStr "42", oneExchange)].

End Samples.

(* ===================================================================== *)
(** * Properties                                                         *)
(* ===================================================================== *)

(** ** Strings *)

Section StringFacts.
Import Js.

Example includes_samples :
  includes "hello world" "o w" = true
  ∧ includes "hello" "" = true
  ∧ includes "hello" "help" = false
  ∧ toLowerCase "Pull Request #12" = "pull request #12"
  ∧ keyToString (KNum (-5)) = "-5"
  ∧ jsLength "⏱️ " = 3%nat
  ∧ jsLength ReactionHandler.reactionsHint = 77%nat.
Proof. repeat split. Qed.

Example toLowerCase_samples :
  toLowerCase ("doc" +:+ kelvinSign +:+ "ER") = "docker"
  ∧ toLowerCase (dottedCapitalI +:+ "S") = String "i" (String "204" (String "135" "s"))
  ∧ toLowerCase "Show Me" = "show me"
  ∧ includes (toLowerCase "DOCKER PS") "docker" = true
  ∧ includes (toLowerCase "FİX") "fix" = false.
Proof. repeat split. Qed.

(** [toLowerCase] by cases on how the text begins. *)
Lemma toLowerCase_eq s :
  toLowerCase s
  = if startsWith s kelvinSign then String "k" (toLowerCase (dropStr 3 s))
    else if startsWith s dottedCapitalI
    then String "i" (String "204" (String "135" (toLowerCase (dropStr 2 s))))
    else match s with
         | EmptyString => EmptyString
         | String c s' => String (lowerChar c) (toLowerCase s')
         end.
Proof.
  destruct s as [|c s]; [done|].
  destruct c as [[] [] [] [] [] [] [] []]; try reflexivity;
    (destruct s as [|c1 s]; [done|]);
    destruct c1 as [[] [] [] [] [] [] [] []]; try reflexivity;
    (destruct s as [|c2 s]; [done|]);
    destruct c2 as [[] [] [] [] [] [] [] []]; reflexivity.
Qed.

Lemma eqb_ascii_split c d :
  (128 <=? N_of_ascii c)%N = true → (N_of_ascii d <? 128)%N = true →
  Ascii.eqb c d = false.
Proof.
  intros Hc Hd. destruct (Ascii.eqb_spec c d) as [-> |]; [|done].
  apply N.leb_le in Hc. apply N.ltb_lt in Hd. lia.
Qed.

(** A phrase outside ASCII cannot reach into a text that begins with
    an ASCII character. *)
Lemma startsWith_app_ascii w p : asciiStart w = true → nonAscii p = true →
  ∀ a, startsWith (a +:+ w) p = startsWith a p.
Proof.
  intros Hw. induction p as [|c p IH]; intros Hp a; [done|].
  unfold nonAscii in Hp. simpl in Hp. apply andb_true_iff in Hp as [Hc Hp].
  destruct a as [|x a].
  - destruct w as [|d w]; [done|]. simpl in *. by rewrite eqb_ascii_split.
  - change (String x a +:+ w) with (String x (a +:+ w)). simpl.
    destruct (Ascii.eqb c x); [by apply IH | done].
Qed.

Lemma startsWith_length s p :
  startsWith s p = true → String.length p <= String.length s.
Proof.
  revert s. induction p as [|c p IH]; intros [|d s]; simpl; try done; try lia.
  destruct (Ascii.eqb c d); [|done]. intros H. apply IH in H. lia.
Qed.

Lemma dropStr_app k a w :
  k <= String.length a → dropStr k (a +:+ w) = dropStr k a +:+ w.
Proof.
  revert a. induction k as [|k IH]; intros a Hk; [done|].
  destruct a as [|c a]; simpl in *; [lia|]. apply IH. lia.
Qed.

Lemma dropStr_length k a : String.length (dropStr k a) <= String.length a.
Proof.
  revert a. induction k as [|k IH]; intros [|c a]; simpl; try lia.
  specialize (IH a). lia.
Qed.

(** Lowering distributes over appending a text that begins with an
    ASCII character. *)
Lemma toLowerCase_app_ascii a w :
  asciiStart w = true →
  toLowerCase (a +:+ w) = toLowerCase a +:+ toLowerCase w.
Proof.
  intros Hw. remember (String.length a) as n eqn:Hn.
  revert a Hn. induction (lt_wf n) as [n _ IH]. intros a ->.
  destruct a as [|c a]; [done|].
  rewrite (toLowerCase_eq (String c a +:+ w)), (toLowerCase_eq (String c a)).
  rewrite !(startsWith_app_ascii w) by done.
  destruct (startsWith (String c a) kelvinSign) eqn:Hk.
  { apply startsWith_length in Hk. rewrite dropStr_app by done.
    change (String "k" ?x +:+ ?y) with (String "k" (x +:+ y)). f_equal.
    eapply IH; [|reflexivity].
    pose proof (dropStr_length 2 a). simpl in *. lia. }
  destruct (startsWith (String c a) dottedCapitalI) eqn:Hi.
  { apply startsWith_length in Hi. rewrite dropStr_app by done.
    change (String "i" (String "204" (String "135" ?x)) +:+ ?y)
      with (String "i" (String "204" (String "135" (x +:+ y)))). do 3 f_equal.
    eapply IH; [|reflexivity].
    pose proof (dropStr_length 1 a). simpl in *. lia. }
  change (String c a +:+ w) with (String c (a +:+ w)).
  change (String (lowerChar c) (toLowerCase a) +:+ toLowerCase w)
    with (String (lowerChar c) (toLowerCase a +:+ toLowerCase w)).
  f_equal. eapply IH; [|reflexivity]. simpl. lia.
Qed.

Lemma jsLength_app a b : jsLength (a +:+ b) = jsLength a + jsLength b.
Proof. induction a as [|c a IH]; simpl; [done | rewrite IH; lia]. Qed.

Lemma startsWith_app_l p : ∀ s t,
  startsWith s p = true → startsWith (s +:+ t) p = true.
Proof.
  induction p as [|c p IH]; intros [|d s] t; simpl; try done.
  destruct (Ascii.eqb c d); [apply IH | done].
Qed.

Lemma startsWith_includes s p : startsWith s p = true → includes s p = true.
Proof. intros H. destruct s; simpl in *; by rewrite H. Qed.

Lemma includes_app_l p t : ∀ s,
  includes s p = true → includes (s +:+ t) p = true.
Proof.
  induction s as [|d s IH]; intros H.
  - simpl in H. rewrite orb_false_r in H.
    by apply startsWith_includes, (startsWith_app_l p "" t).
  - change (startsWith (String d s +:+ t) p || includes (s +:+ t) p = true).
    change (startsWith (String d s) p || includes s p = true) in H.
    apply orb_true_iff in H as [H | H]; apply orb_true_iff;
      [left; by apply startsWith_app_l | right; by apply IH].
Qed.

Lemma startsWith_app_inv w : ∀ s p,
  startsWith (s +:+ w) p = true →
  startsWith s p = true
  ∨ (String.length s < String.length p
     ∧ startsWith w (dropStr (String.length s) p) = true).
Proof.
  induction s as [|d s IH]; intros [|c p]; simpl; intros H; try by left.
  - right. split; [lia | done].
  - destruct (Ascii.eqb c d); [|done].
    destruct (IH p H) as [Hl | [Hlen Hr]]; [by left | right].
    split; [lia | done].
Qed.

Lemma includes_app_inv w p : ∀ s,
  includes (s +:+ w) p = true →
  includes s p = true ∨ includes w p = true
  ∨ ∃ k, 0 < k < String.length p ∧ startsWith w (dropStr k p) = true.
Proof.
  induction s as [|d s IH]; intros H; [by right; left|].
  change (startsWith (String d s +:+ w) p || includes (s +:+ w) p = true) in H.
  apply orb_true_iff in H as [H | H].
  - apply startsWith_app_inv in H as [H | [Hlen H]].
    + left. by apply startsWith_includes.
    + right. right. exists (String.length (String d s)). simpl in *.
      split; [lia | done].
  - destruct (IH H) as [Hs | Hrest]; [|by right].
    left. simpl. rewrite Hs. apply orb_true_r.
Qed.

Lemma cannotComplete_sound p w s :
  cannotComplete p w = true →
  includes (s +:+ w) p = true → includes s p = true.
Proof.
  unfold cannotComplete. intros Hc H.
  apply andb_true_iff in Hc as [Hin Hcross].
  apply includes_app_inv in H as [H | [H | (k & Hk & H)]]; [done | |].
  - by rewrite H in Hin.
  - rewrite forallb_forall in Hcross.
    assert (Hseq : In k (seq 1 (String.length p - 1))) by (apply in_seq; lia).
    apply Hcross in Hseq. by rewrite H in Hseq.
Qed.

End StringFacts.

Section SkillRouterFacts.
Import Js SkillRouter.
Local Open Scope Q_scope.

Lemma keywordStep_nondecreasing lower score k :
  score <= keywordStep lower score k.
Proof.
  unfold keywordStep.
  destruct (includes lower k); [|apply Qle_refl].
  destruct (includes lower (toLowerCase k)).
  - rewrite <- Qplus_assoc. rewrite <- (Qplus_0_r score) at 1.
    apply Qplus_le_compat; [apply Qle_refl | discriminate].
  - rewrite <- (Qplus_0_r score) at 1.
    apply Qplus_le_compat; [apply Qle_refl | discriminate].
Qed.

Lemma fold_keywordStep_ge lower kws : ∀ score,
  score <= fold_left (keywordStep lower) kws score.
Proof.
  induction kws as [|k kws IH]; intros score; simpl; [apply Qle_refl|].
  eapply Qle_trans; [apply keywordStep_nondecreasing | apply IH].
Qed.

Lemma skillScore_nonneg lower kws : 0 <= skillScore lower kws.
Proof. apply fold_keywordStep_ge. Qed.

Lemma bestInvariant_step scores best entry :
  bestInvariant scores best →
  bestInvariant (scores ++ [entry]) (bestStep best entry).
Proof.
  intros Hinv. unfold bestStep.
  assert (Hge : ∀ j e, scores !! j = Some e → e.2 <= best.2).
  { destruct Hinv as [[-> Hall] | (i & id & _ & _ & _ & Hmax & _)]; [|exact Hmax].
    intros j e Hj. apply Hall. eapply list_elem_of_lookup_2, Hj. }
  assert (Hpos : 0 <= best.2).
  { destruct Hinv as [[-> _] | (i & id & _ & _ & Hlt & _)];
      [apply Qle_refl | apply Qlt_le_weak, Hlt]. }
  destruct (Qlt_le_dec best.2 entry.2) as [Hlt | Hle].
  - right. exists (length scores), entry.1. simpl.
    split; [rewrite lookup_app_r, Nat.sub_diag by lia; by destruct entry|].
    split; [done|]. split; [eapply Qle_lt_trans; eauto|]. split.
    + intros j e Hj. apply lookup_app_Some in Hj as [Hj | [_ Hj]].
      * eapply Qle_trans; [eapply Hge, Hj | apply Qlt_le_weak, Hlt].
      * apply list_lookup_singleton_Some in Hj as [_ <-]. apply Qle_refl.
    + intros j e Hji Hj. rewrite lookup_app_l in Hj by done.
      eapply Qle_lt_trans; [eapply Hge, Hj | exact Hlt].
  - destruct Hinv as [[-> Hall] | (i & id & Hi & Hid & Hlt & Hmax & Hearly)].
    + left. split; [done|]. intros e He.
      apply elem_of_app in He as [He | He]; [by apply Hall|].
      apply list_elem_of_singleton in He as ->. exact Hle.
    + right. exists i, id. split; [by apply lookup_app_l_Some|].
      split; [done|]. split; [done|]. split.
      * intros j e Hj. apply lookup_app_Some in Hj as [Hj | [_ Hj]]; [eauto|].
        apply list_lookup_singleton_Some in Hj as [_ <-]. exact Hle.
      * intros j e Hji Hj. apply lookup_lt_Some in Hi.
        rewrite lookup_app_l in Hj by lia. eauto.
Qed.

Lemma fold_bestStep_invariant more : ∀ scores best,
  bestInvariant scores best →
  bestInvariant (scores ++ more) (fold_left bestStep more best).
Proof.
  induction more as [|entry more IH]; intros scores best Hinv; simpl.
  - by rewrite app_nil_r.
  - replace (scores ++ entry :: more) with ((scores ++ [entry]) ++ more)
      by (by rewrite <- app_assoc).
    apply IH, bestInvariant_step, Hinv.
Qed.

Lemma findBest_invariant scores : bestInvariant scores (findBest scores).
Proof.
  apply (fold_bestStep_invariant scores [] (None, 0)).
  left. split; [done|]. intros e He. by apply elem_of_nil in He.
Qed.

Lemma scoreTable_nonneg table lower e :
  e ∈ scoreTable table lower → 0 <= e.2.
Proof.
  unfold scoreTable. intros He. apply list_elem_of_fmap in He as (x & -> & _).
  apply skillScore_nonneg.
Qed.

(** [detectSkill] over any registration table: default on all-zero
    scores, otherwise the earliest entry with the highest score. *)
Lemma detectSkillIn_highest table message :
  ((∀ e, e ∈ scoreTable table (toLowerCase message) → e.2 == 0)
   ∧ detectSkillIn table message = {| skill := Some "general"; confidence := 0 |})
  ∨ ∃ i id s,
      scoreTable table (toLowerCase message) !! i = Some (id, s)
      ∧ detectSkillIn table message = {| skill := Some id; confidence := s |}
      ∧ 0 < s
      ∧ (∀ j e, scoreTable table (toLowerCase message) !! j = Some e → e.2 <= s)
      ∧ (∀ j e, (j < i)%nat →
           scoreTable table (toLowerCase message) !! j = Some e → e.2 < s).
Proof.
  unfold detectSkillIn.
  destruct (findBest_invariant (scoreTable table (toLowerCase message)))
    as [[Hbest Hall] | (i & id & Hi & Hid & Hlt & Hmax & Hearly)].
  - left. rewrite Hbest. simpl. split; [|done].
    intros e He. apply Qle_antisym; [by apply Hall|].
    eapply scoreTable_nonneg, He.
  - right. exists i, id, (findBest (scoreTable table (toLowerCase message))).2.
    split; [done|]. split; [|done].
    destruct (Qlt_le_dec 0 _) as [_ | Hle].
    + by rewrite Hid.
    + exfalso. eapply Qlt_not_le; eauto.
Qed.

(** Every keyword of the table is already in lower case, so the
    inner test [lower.includes(keyword.toLowerCase())] repeats the
    outer one. *)
Lemma skills_keywords_lowercase :
  Forall (fun e => Forall (fun k => toLowerCase k = k) (keywords e.2)) skills.
Proof. repeat constructor. Qed.

(** The identifiers of the table are pairwise distinct: looking an
    entry up by its identifier finds that entry. *)
Lemma skills_keywordsOf :
  Forall (fun e => keywordsOf e.1 = keywords e.2) skills.
Proof. repeat constructor. Qed.

Lemma keywordStep_lowercase lower score k :
  toLowerCase k = k →
  keywordStep lower score k
  = if includes lower k then score + 1 + (1 # 2) else score.
Proof. intros Hk. unfold keywordStep. rewrite Hk. by destruct (includes lower k). Qed.

Lemma matchCount_cons lower k kws :
  matchCount lower (k :: kws)
  = ((if includes lower k then 1 else 0) + matchCount lower kws)%nat.
Proof.
  unfold matchCount. rewrite filter_cons.
  destruct (decide (includes lower k = true)) as [-> | Hk]; [done|].
  by apply not_true_is_false in Hk as ->.
Qed.

Lemma fold_keywordStep_count lower kws : ∀ score,
  Forall (fun k => toLowerCase k = k) kws →
  fold_left (keywordStep lower) kws score
  == score + (3 # 2) * inject_Z (Z.of_nat (matchCount lower kws)).
Proof.
  induction kws as [|k kws IH]; intros score Hlow; simpl.
  - unfold matchCount. simpl. ring.
  - apply Forall_cons in Hlow as [Hk Hlow].
    rewrite IH by done. rewrite keywordStep_lowercase by done.
    rewrite matchCount_cons. destruct (includes lower k).
    + rewrite Nat2Z.inj_add, inject_Z_plus. simpl (Z.of_nat 1).
      change (inject_Z 1) with 1. ring.
    + simpl. ring.
Qed.

Lemma skillScore_count lower kws :
  Forall (fun k => toLowerCase k = k) kws →
  skillScore lower kws == (3 # 2) * inject_Z (Z.of_nat (matchCount lower kws)).
Proof.
  intros Hlow. unfold skillScore. rewrite fold_keywordStep_count by done. ring.
Qed.

Lemma three_halves_not_count (n : nat) :
  (0 < n)%nat →
  ¬ (3 # 2) * inject_Z (Z.of_nat n) == inject_Z (Z.of_nat n).
Proof.
  intros Hn Heq. unfold Qeq, Qmult, inject_Z in Heq. simpl in Heq. lia.
Qed.

End SkillRouterFacts.

(** ** Tier selector *)

Section ModelPickerFacts.
Import Js ModelPicker.
Local Open Scope Z_scope.

Lemma addIf_weight b w x : addIf b w x = x + weight b w.
Proof. destruct b; simpl; lia. Qed.

Lemma subIf_weight b w x : subIf b w x = x - weight b w.
Proof. destruct b; simpl; lia. Qed.

Lemma analyzeTaskComplexity_additive message context :
  analyzeTaskComplexity message context = Z.max 0 (additiveScore message context).
Proof.
  unfold analyzeTaskComplexity, additiveScore. cbv zeta.
  rewrite !addIf_weight, !subIf_weight. f_equal.
Qed.

Lemma fast_ne_smart : fast ≠ smart.
Proof. discriminate. Qed.

Lemma weight_mono b b' w :
  0 <= w → (b = true → b' = true) → weight b w <= weight b' w.
Proof. intros Hw Hb. destruct b, b'; simpl; try lia; by specialize (Hb eq_refl). Qed.

Lemma orb_mono a a' b b' :
  (a = true → a' = true) → (b = true → b' = true) → a || b = true → a' || b' = true.
Proof. destruct a, b, a', b'; simpl; auto. Qed.

Lemma extends_refl m : extends m m.
Proof. repeat split; auto. Qed.

Lemma extends_trans m1 m2 m3 : extends m1 m2 → extends m2 m3 → extends m1 m3.
Proof.
  intros (Hp1 & Hn1 & Hl1) (Hp2 & Hn2 & Hl2). repeat split; [auto | auto | lia].
Qed.

Lemma analyzeTaskComplexity_extends m m' context :
  extends m m' →
  analyzeTaskComplexity m context <= analyzeTaskComplexity m' context.
Proof.
  intros (Hpos & Hneg & Hlen).
  rewrite !analyzeTaskComplexity_additive. apply Z.max_le_compat_l.
  unfold additiveScore. cbv zeta.
  assert (Hlow : ∀ p q, p ∈ lowComplexityIndicators → q ∈ lowComplexityIndicators →
    weight (includes (toLowerCase m') p || includes (toLowerCase m') q) 1
    <= weight (includes (toLowerCase m) p || includes (toLowerCase m) q) 1).
  { intros p q Hp Hq. apply weight_mono; [lia|]. apply orb_mono; auto. }
  pose proof (Hlow "what is" "define") as Hlow1.
  pose proof (Hlow "list" "show me") as Hlow2.
  unfold lowComplexityIndicators in Hlow1, Hlow2.
  specialize (Hlow1 ltac:(set_solver) ltac:(set_solver)).
  specialize (Hlow2 ltac:(set_solver) ltac:(set_solver)).
  assert (Hshort : weight (Z.of_nat (jsLength m') <? 50) 1
                   <= weight (Z.of_nat (jsLength m) <? 50) 1).
  { apply weight_mono; [lia|]. rewrite !Z.ltb_lt. lia. }
  assert (H200 : weight (200 <? Z.of_nat (jsLength m)) 1
                 <= weight (200 <? Z.of_nat (jsLength m')) 1).
  { apply weight_mono; [lia|]. rewrite !Z.ltb_lt. lia. }
  assert (H500 : weight (500 <? Z.of_nat (jsLength m)) 2
                 <= weight (500 <? Z.of_nat (jsLength m')) 2).
  { apply weight_mono; [lia|]. rewrite !Z.ltb_lt. lia. }
  assert (H2 : ∀ p q w, 0 <= w →
    weight (includes (toLowerCase m) p || includes (toLowerCase m) q) w
    <= weight (includes (toLowerCase m') p || includes (toLowerCase m') q) w).
  { intros p q w Hw. apply weight_mono; [done|]. apply orb_mono; auto. }
  assert (H1 : ∀ p w, 0 <= w →
    weight (includes (toLowerCase m) p) w <= weight (includes (toLowerCase m') p) w).
  { intros p w Hw. apply weight_mono; auto. }
  assert (H3 : ∀ p q r w, 0 <= w →
    weight (includes (toLowerCase m) p || includes (toLowerCase m) q
            || includes (toLowerCase m) r) w
    <= weight (includes (toLowerCase m') p || includes (toLowerCase m') q
               || includes (toLowerCase m') r) w).
  { intros p q r w Hw. apply weight_mono; [done|].
    apply orb_mono; [apply orb_mono|]; auto. }
  pose proof (H2 "analyze" "analysis" 2 ltac:(lia)).
  pose proof (H2 "review" "audit" 2 ltac:(lia)).
  pose proof (H2 "implement" "create" 2 ltac:(lia)).
  pose proof (H2 "debug" "fix" 2 ltac:(lia)).
  pose proof (H2 "optimize" "improve" 2 ltac:(lia)).
  pose proof (H2 "architecture" "design" 3 ltac:(lia)).
  pose proof (H3 "code" "function" "class" 1 ltac:(lia)).
  pose proof (H2 "pr" "pull request" 2 ltac:(lia)).
  pose proof (H1 "refactor" 2 ltac:(lia)).
  lia.
Qed.

Lemma indicatorExtensions_safe :
  Forall (fun w => toLowerCase w = w
                   ∧ asciiStart w = true
                   ∧ Forall (fun p => cannotComplete p w = true)
                       lowComplexityIndicators)
    indicatorExtensions.
Proof. repeat constructor. Qed.

Lemma extends_append m w : w ∈ indicatorExtensions → extends m (m +:+ w).
Proof.
  intros Hw. pose proof indicatorExtensions_safe as Hsafe.
  rewrite Forall_forall in Hsafe. destruct (Hsafe w Hw) as (Hlow & Hascii & Hcannot).
  rewrite Forall_forall in Hcannot.
  unfold extends. rewrite toLowerCase_app_ascii, Hlow, jsLength_app by done.
  split; [|split; [|lia]].
  - intros p. apply includes_app_l.
  - intros p Hp. apply cannotComplete_sound. by apply Hcannot.
Qed.

Lemma extends_append_all phrases : ∀ m,
  Forall (fun w => w ∈ indicatorExtensions) phrases →
  extends m (fold_left String.append phrases m).
Proof.
  induction phrases as [|w phrases IH]; intros m Hall; simpl.
  - apply extends_refl.
  - apply Forall_cons in Hall as [Hw Hall].
    eapply extends_trans; [by apply extends_append | by apply IH].
Qed.

End ModelPickerFacts.

(** ** Metrics collector *)

Section MetricsFacts.
Import Js Metrics.
Local Open Scope Z_scope.

Lemma getTiming_setTiming_eq t event v :
  getTiming (setTiming t event v) event = v.
Proof. by destruct event. Qed.

Lemma getTiming_setTiming_ne t event event' v :
  event ≠ event' → getTiming (setTiming t event v) event' = getTiming t event'.
Proof. intros Hne. by destruct event, event'. Qed.

(** The construction and every [mark] keep a collector well formed
    as long as the clock reads a positive time. *)
Lemma mark_wellFormed event now c :
  0 < now → wellFormed c → wellFormed (mark event now c).
Proof.
  intros Hnow [Hfirst Hnonzero]. unfold mark.
  destruct (checkpointOfString event) as [cp|]; [|done].
  split; simpl.
  - destruct cp; simpl; eauto.
  - intros event'. destruct (decide (cp = event')) as [<- | Hne].
    + rewrite getTiming_setTiming_eq. intros [= ->]. lia.
    + rewrite getTiming_setTiming_ne by done. apply Hnonzero.
Qed.

Lemma newCollector_wellFormed messageId userMessage now :
  0 < now → wellFormed (newCollector messageId userMessage now).
Proof.
  intros Hnow. split; simpl; [eauto|].
  intros event. destruct event; simpl; try done. intros [= ->]. lia.
Qed.

(** On a well-formed collector the falsy test of [getDuration] is the
    test for an unmarked checkpoint. *)
Lemma getDuration_wellFormed c startEvent endEvent :
  wellFormed c →
  getDuration c startEvent endEvent = durationBetween c startEvent endEvent.
Proof.
  intros [_ Hnonzero]. unfold getDuration, durationBetween.
  pose proof (Hnonzero startEvent) as Hs. pose proof (Hnonzero endEvent) as He.
  destruct (getTiming (c_timings c) startEvent) as [s|],
           (getTiming (c_timings c) endEvent) as [e|]; simpl; try done.
  - assert (s ≠ 0) by congruence. assert (e ≠ 0) by congruence.
    unfold truthyNum.
    destruct (Z.eqb_spec s 0), (Z.eqb_spec e 0); simpl; congruence.
  - unfold truthyNum. by destruct (s =? 0).
Qed.

End MetricsFacts.

(** ** Message metadata store *)

Section MetadataStoreFacts.
Import Js MetadataStore.
Local Open Scope Z_scope.

Lemma expiresAt_withTimestamps m c e : expiresAt (withTimestamps m c e) = e.
Proof. done. Qed.

(** The guard of [store]: a falsy id is refused. *)
Lemma store_falsy_id messageId md createdNow expiresNow
    (messages : gmap string metadata) :
  truthyKey messageId = false →
  store messageId md createdNow expiresNow messages = (false, messages).
Proof. intros H. unfold store. by rewrite H. Qed.

Lemma get_absent messageId now (messages : gmap string metadata) :
  messages !! keyToString messageId = None →
  get messageId now messages = (None, messages).
Proof. intros H. unfold get. by rewrite H. Qed.

Lemma get_live messageId now (messages : gmap string metadata) record :
  messages !! keyToString messageId = Some record →
  expiredAt now record = false →
  get messageId now messages = (Some record, messages).
Proof. intros H Hlive. unfold get. by rewrite H, Hlive. Qed.

Lemma get_expired messageId now (messages : gmap string metadata) record :
  messages !! keyToString messageId = Some record →
  expiredAt now record = true →
  get messageId now messages = (None, delete (keyToString messageId) messages).
Proof. intros H Hdead. unfold get. by rewrite H, Hdead. Qed.

(** Whatever [get] does, a later [get] never finds more than was
    there. *)
Lemma get_after_absent messageId now now' (messages : gmap string metadata) :
  (get messageId now messages).1 = None →
  get messageId now' (get messageId now messages).2
  = (None, (get messageId now messages).2).
Proof.
  unfold get. destruct (messages !! keyToString messageId) as [record|] eqn:H.
  - destruct (expiredAt now record); [|done]. intros _. simpl.
    by rewrite lookup_delete_eq.
  - intros _. simpl. by rewrite H.
Qed.

End MetadataStoreFacts.

(** ** Pending prompts *)

Section UserPromptHandlerFacts.
Import Js MetadataStore UserPromptHandler.
Local Open Scope Z_scope.

(** No pending record: [handleResponse] answers [null] and touches
    neither map. *)
Lemma handleResponse_absent messageId emoji_ now h :
  pendingPrompts h !! keyToString messageId = None →
  handleResponse messageId emoji_ now h = (None, h).
Proof. intros H. unfold handleResponse. by rewrite H. Qed.

Lemma handleResponse_selected messageId emoji_ now h p opt :
  pendingPrompts h !! keyToString messageId = Some p →
  now <= p_expiresAt p →
  find (fun o => String.eqb (MetadataStore.emoji o) emoji_) (options p) = Some opt →
  handleResponse messageId emoji_ now h
  = (Some {| s_question := question p; answer := label opt;
             s_action := action opt; s_context := context p |},
     {| pendingPrompts := delete (keyToString messageId) (pendingPrompts h);
        metadataStore :=
          (update messageId (answeredUpdate opt) (metadataStore h)).2 |}).
Proof.
  intros Hp Hlive Hopt. unfold handleResponse. rewrite Hp.
  destruct (Z.ltb_spec (p_expiresAt p) now); [lia|]. by rewrite Hopt.
Qed.

Lemma handleResponse_expired messageId emoji_ now h p :
  pendingPrompts h !! keyToString messageId = Some p →
  p_expiresAt p < now →
  handleResponse messageId emoji_ now h
  = (None,
     {| pendingPrompts := delete (keyToString messageId) (pendingPrompts h);
        metadataStore := metadataStore h |}).
Proof.
  intros Hp Hdead. unfold handleResponse. rewrite Hp.
  destruct (Z.ltb_spec (p_expiresAt p) now); [done | lia].
Qed.

Lemma cleanup_lookup now h k :
  pendingPrompts (cleanup now h).2 !! k
  = match pendingPrompts h !! k with
    | Some p => if p_expiresAt p <? now then None else Some p
    | None => None
    end.
Proof.
  unfold cleanup. simpl. rewrite map_lookup_filter.
  destruct (pendingPrompts h !! k) as [p|]; simpl; [|done].
  destruct (p_expiresAt p <? now); by case_guard.
Qed.

End UserPromptHandlerFacts.

(** ** Reaction controller *)

Section ReactionHandlerFacts.
Import Js EmojiMappings MetadataStore ReactionHandler.
Local Open Scope Z_scope.

Lemma verbosity_emoji_cases e :
  isVerbosityEmoji e = true →
  (e = VERBOSITY_MINIMAL ∧ getVerbosityFromEmoji e = Some "minimal")
  ∨ (e = VERBOSITY_MEDIUM ∧ getVerbosityFromEmoji e = Some "medium")
  ∨ (e = VERBOSITY_FULL ∧ getVerbosityFromEmoji e = Some "full").
Proof.
  unfold isVerbosityEmoji. simpl. rewrite orb_false_r. intros H.
  apply orb_true_iff in H as [H | H]; [|apply orb_true_iff in H as [H | H]];
    apply String.eqb_eq in H as ->; auto.
Qed.

Lemma withVerbosity_idem md v : withVerbosity (withVerbosity md v) v = withVerbosity md v.
Proof. done. Qed.

Lemma renderedAt_withVerbosity md v w :
  renderedAt (withVerbosity md v) w = renderedAt md w.
Proof. done. Qed.

Lemma expiredAt_withVerbosity now md v :
  expiredAt now (withVerbosity md v) = expiredAt now md.
Proof. done. Qed.

(** What [handleReaction] does with a verbosity event. *)
Lemma handleReaction_verbosity r e t (messages : gmap string metadata) :
  new_reaction r = Some {| rt_type := "emoji"; rt_emoji := e |} →
  isVerbosityEmoji e = true →
  ∃ v, getVerbosityFromEmoji e = Some v ∧
  handleReaction r t messages
  = match messages !! keyToString (message_id r) with
    | None => (messages, [])
    | Some md =>
        if expiredAt t md
        then (delete (keyToString (message_id r)) messages, [])
        else (<[keyToString (message_id r) := withVerbosity md v]> messages,
              [ EditMessageText (chatId md) (message_id r) (renderedAt md v);
                SetMessageReaction (chatId md) (message_id r)
                  (getReactionsForVerbosity v) ])
    end.
Proof.
  intros Hnew He.
  destruct (verbosity_emoji_cases e He) as [[-> Hv] | [[-> Hv] | [-> Hv]]];
    (eexists; split; [exact Hv|]);
    unfold handleReaction; rewrite Hnew; simpl; unfold get;
    (destruct (messages !! keyToString (message_id r)) as [md|] eqn:Hmd; [|done]);
    (destruct (expiredAt t md); [done|]);
    unfold changeVerbosity; simpl; unfold update; by rewrite Hmd.
Qed.

(** Without a record every event is ignored. *)
Lemma handleReaction_absent r t (messages : gmap string metadata) :
  messages !! keyToString (message_id r) = None →
  handleReaction r t messages = (messages, []).
Proof.
  intros Hnone. unfold handleReaction.
  destruct (negb _); [done|]. by rewrite (get_absent _ _ _ Hnone).
Qed.

Lemma shownText_edit_twice messageId before chat text reactions :
  shownText messageId before
    ([ EditMessageText chat messageId text;
       SetMessageReaction chat messageId reactions ]
     ++ [ EditMessageText chat messageId text;
          SetMessageReaction chat messageId reactions ])
  = shownText messageId before
      [ EditMessageText chat messageId text;
        SetMessageReaction chat messageId reactions ].
Proof. unfold shownText. simpl. by rewrite String.eqb_refl. Qed.

End ReactionHandlerFacts.

(** ** Rendering at a verbosity *)

Section RenderingFacts.
Import Js EmojiMappings MetadataStore ReactionHandler.

(** Replace the length of every literal by its value. *)
Ltac literal_lengths :=
  unfold reactionsHint, nl;
  rewrite ?jsLength_app;
  repeat match goal with
  | |- context [jsLength (String ?c ?s)] =>
      let n := eval vm_compute in (jsLength (String c s)) in
      change (jsLength (String c s)) with n
  end;
  change (jsLength "") with 0%nat.

Lemma getModelEmoji_length modelName : (jsLength (getModelEmoji modelName) <= 2)%nat.
Proof.
  unfold getModelEmoji. destruct modelName as [m|]; [|vm_compute; lia].
  repeat match goal with |- context [if ?b then _ else _] => destruct b end;
    vm_compute; lia.
Qed.

Lemma numToString_falsy n : truthyNum n = false → jsLength (numToString n) = 1%nat.
Proof.
  unfold truthyNum. intros H. apply negb_false_iff, Z.eqb_eq in H as ->. done.
Qed.

Lemma fold_segmentLine_length prefix rest : ∀ text,
  (jsLength text
   <= jsLength (fold_left (fun text s => text +:+ segmentLine prefix s) rest text))%nat.
Proof.
  induction rest as [|s rest IH]; intros text; simpl; [lia|].
  etrans; [|apply IH]. rewrite jsLength_app. lia.
Qed.

(** The timing block of the full rendering is longer than the timing
    line of the medium rendering. *)
Lemma formatMetricsDetails_length m :
  (jsLength (numToString (Metrics.b_total m)) + 5
   <= jsLength (formatMetricsDetails m))%nat.
Proof.
  unfold formatMetricsDetails.
  set (text := if truthyNum (Metrics.b_total m) then _ else _).
  assert (Htext : (jsLength (numToString (Metrics.b_total m)) + 5 <= jsLength text)%nat).
  { subst text. destruct (truthyNum (Metrics.b_total m)) eqn:Htotal.
    - literal_lengths. lia.
    - rewrite (numToString_falsy _ Htotal). literal_lengths. lia. }
  destruct (segmentsWithValues m) as [|first rest]; [done|].
  pose proof (fold_segmentLine_length "├─" (removelast rest)
                (text +:+ segmentLine "├─" first)) as Hfold.
  rewrite jsLength_app in Hfold.
  destruct (last rest); [rewrite jsLength_app|]; lia.
Qed.

(** For every response, skill, model, metrics snapshot, explanation
    and score, the rendering at minimal is no longer than the rendering
    at medium or at full; and the rendering at medium is no longer than
    the rendering at full whenever the skill is present (truthy) or the
    model name has at most 72 code units. *)
Theorem verbosity_length_monotone
    (responseText : string) (skill model : option string)
    (metricsData : option Metrics.breakdown)
    (explanation : option MetadataStore.explanation) (score : option Z) :
  (jsLength (formatResponseWithVerbosity responseText skill model metricsData
               explanation score "minimal")
   <= jsLength (formatResponseWithVerbosity responseText skill model metricsData
                  explanation score "medium"))%nat
  ∧ (jsLength (formatResponseWithVerbosity responseText skill model metricsData
                 explanation score "minimal")
     <= jsLength (formatResponseWithVerbosity responseText skill model metricsData
                    explanation score "full"))%nat
  ∧ (truthyOptStr skill = true ∨ (jsLength (render model) <= 72)%nat →
     (jsLength (formatResponseWithVerbosity responseText skill model metricsData
                  explanation score "medium")
      <= jsLength (formatResponseWithVerbosity responseText skill model metricsData
                     explanation score "full"))%nat).
Proof.
  unfold formatResponseWithVerbosity.
  change (String.eqb "minimal" "full") with false.
  change (String.eqb "minimal" "medium") with false.
  change (String.eqb "medium" "full") with false.
  change (String.eqb "medium" "medium") with true.
  change (String.eqb "full" "full") with true.
  change (String.eqb "full" "medium") with false.
  cbv zeta.
  pose proof (getModelEmoji_length model) as Hemoji.
  assert (Hmetrics : ∀ m : Metrics.breakdown,
    (jsLength (numToString (Metrics.b_total m)) + 5
     <= jsLength (formatMetricsDetails m))%nat) by apply formatMetricsDetails_length.
  destruct (truthyOptStr skill), (truthyOptStr model),
    metricsData as [m|]; try specialize (Hmetrics m);
    (split; [|split]); try intros [Hcond | Hcond]; try discriminate;
    cbn [andb String.append]; literal_lengths; lia.
Qed.

End RenderingFacts.

(** ** Session persistence *)

Section SessionStoreFacts.
Import Js SessionStore.
Local Open Scope Z_scope.

Lemma mapSet_stringKeys name v m :
  stringKeys m → stringKeys (mapSet (KStr name) v m).
Proof.
  unfold stringKeys. induction m as [|[k w] m IH]; intros Hm; simpl.
  - repeat constructor. by exists name.
  - apply Forall_cons in Hm as [Hk Hm].
    destruct (keyEqb k (KStr name)); constructor; auto.
Qed.

Lemma fold_mapSet_stringKeys nowIso parsed : ∀ m,
  stringKeys m →
  stringKeys
    (fold_left
       (fun cache (entry : string * jsonSession) =>
          mapSet (KStr entry.1) (restore nowIso entry.2) cache)
       parsed m).
Proof.
  induction parsed as [|entry parsed IH]; intros m Hm; simpl; [done|].
  by apply IH, mapSet_stringKeys.
Qed.

(** [loadSessions] fills the map with string keys only. *)
Lemma loadSessions_stringKeys nowIso d : stringKeys (loadSessions nowIso d).
Proof.
  unfold loadSessions. destruct (sessionFile d) as [data|]; [|constructor].
  apply fold_mapSet_stringKeys. constructor.
Qed.

Lemma mapGet_number_stringKeys n m : stringKeys m → mapGet (KNum n) m = None.
Proof.
  unfold stringKeys. induction m as [|[k v] m IH]; intros Hm; simpl; [done|].
  apply Forall_cons in Hm as [[s Hk] Hm]. simpl in Hk. subst k. simpl. by apply IH.
Qed.

(** After a reload no session is found under a numeric user id,
    whatever was saved. *)
Lemma getSession_number_after_reload n nowIso cache d :
  getSession (KNum n) (loadSessions nowIso (saveSessions cache d)) = None.
Proof. apply mapGet_number_stringKeys, loadSessions_stringKeys. Qed.

(** Own properties of an object after an assignment. *)
Lemma existsb_names name (obj : jsonObject) :
  existsb (fun e => String.eqb e.1 name) obj = true ↔ name ∈ obj.*1.
Proof.
  induction obj as [|[n w] obj IH]; simpl.
  - split; [done | by intros ?%elem_of_nil].
  - rewrite orb_true_iff, IH, elem_of_cons.
    split; (intros [H | H]; [left | by right]).
    + by apply String.eqb_eq in H.
    + by apply String.eqb_eq.
Qed.

Lemma objGet_None name obj : objGet name obj = None ↔ name ∉ obj.*1.
Proof.
  unfold objGet. induction obj as [|[n w] obj IH]; simpl.
  - split; [intros _; apply not_elem_of_nil | done].
  - rewrite not_elem_of_cons.
    destruct (String.eqb_spec n name) as [-> | Hne]; simpl.
    + split; [done | by intros [? _]].
    + rewrite IH. split; [by intros ? | by intros [_ ?]].
Qed.

Lemma insertNew_perm name v obj : insertNew name v obj ≡ₚ (name, v) :: obj.
Proof.
  induction obj as [|[n w] obj IH]; simpl; [done|].
  destruct (listedBefore name n); [done|].
  rewrite IH. apply Permutation_swap.
Qed.

Lemma objGet_insertNew name v obj name' :
  name ∉ obj.*1 →
  objGet name' (insertNew name v obj)
  = if String.eqb name name' then Some v else objGet name' obj.
Proof.
  unfold objGet. induction obj as [|[n w] obj IH]; intros Hfresh; simpl.
  - by destruct (String.eqb name name').
  - apply not_elem_of_cons in Hfresh as [Hne Hfresh]. simpl in Hne.
    destruct (listedBefore name n); simpl.
    + by destruct (String.eqb name name').
    + destruct (String.eqb_spec n name') as [-> | Hn]; simpl.
      * by destruct (String.eqb_spec name name').
      * by apply IH.
Qed.

Lemma objGet_replace name v (obj : jsonObject) name' :
  name ∈ obj.*1 →
  objGet name'
    (map (fun e : string * jsonSession =>
            if String.eqb e.1 name then (e.1, v) else e) obj)
  = if String.eqb name name' then Some v else objGet name' obj.
Proof.
  unfold objGet. induction obj as [|[n w] obj IH]; intros Hin; simpl.
  - by apply elem_of_nil in Hin.
  - destruct (String.eqb_spec n name) as [-> | Hn]; simpl.
    + destruct (String.eqb_spec name name') as [-> | Hne]; simpl; [done|].
      clear IH Hin. induction obj as [|[n w'] obj IH]; simpl; [done|].
      destruct (String.eqb_spec n name) as [-> | Hn]; simpl.
      * destruct (String.eqb_spec name name'); [done | apply IH].
      * destruct (String.eqb n name'); [done | apply IH].
    + apply elem_of_cons in Hin as [Hin | Hin]; [done|].
      destruct (String.eqb_spec n name') as [-> | Hn']; simpl.
      * by destruct (String.eqb_spec name name').
      * by apply IH.
Qed.

Lemma objGet_defineOwn name v obj name' :
  objGet name' (defineOwn name v obj)
  = if String.eqb name name' then Some v else objGet name' obj.
Proof.
  unfold defineOwn.
  destruct (existsb (fun e => String.eqb e.1 name) obj) eqn:Hex.
  - apply objGet_replace. by apply existsb_names.
  - apply objGet_insertNew. intros Hin. apply existsb_names in Hin. congruence.
Qed.

Lemma defineOwn_names name v obj :
  (defineOwn name v obj).*1
  ≡ₚ if existsb (fun e => String.eqb e.1 name) obj then obj.*1 else name :: obj.*1.
Proof.
  unfold defineOwn.
  destruct (existsb (fun e => String.eqb e.1 name) obj) eqn:Hex.
  - assert (Heq : (map (fun e : string * jsonSession =>
                          if String.eqb e.1 name then (e.1, v) else e) obj).*1
                  = obj.*1); [|by rewrite Heq].
    clear Hex. induction obj as [|[n w] obj IH]; simpl; [done|].
    f_equal; [by destruct (String.eqb n name) | apply IH].
  - by rewrite insertNew_perm.
Qed.

Lemma defineOwn_NoDup name v obj : NoDup obj.*1 → NoDup (defineOwn name v obj).*1.
Proof.
  intros Hobj. rewrite defineOwn_names.
  destruct (existsb (fun e => String.eqb e.1 name) obj) eqn:Hex; [done|].
  apply NoDup_cons. split; [|done].
  intros Hin. apply existsb_names in Hin. congruence.
Qed.

Lemma objSet_NoDup name v obj : NoDup obj.*1 → NoDup (objSet name v obj).*1.
Proof.
  unfold objSet. destruct (String.eqb name "__proto__"); [done|].
  apply defineOwn_NoDup.
Qed.

Lemma objGet_objSet name v obj name' :
  objGet name' (objSet name v obj)
  = if String.eqb name name' && negb (String.eqb name "__proto__")
    then Some v else objGet name' obj.
Proof.
  unfold objSet. destruct (String.eqb name "__proto__"); simpl.
  - by rewrite andb_false_r.
  - rewrite andb_true_r. apply objGet_defineOwn.
Qed.

(** An object built from a document without repeated names has the
    members of the document. *)
Lemma fold_defineOwn_NoDup (members : jsonMembers) : ∀ obj,
  NoDup obj.*1 →
  NoDup (fold_left (fun obj member => defineOwn member.1 member.2 obj) members obj).*1.
Proof.
  induction members as [|e members IH]; intros obj Hobj; simpl; [done|].
  by apply IH, defineOwn_NoDup.
Qed.

Lemma objGet_cons name n v (obj : jsonObject) :
  objGet name ((n, v) :: obj) = if String.eqb n name then Some v else objGet name obj.
Proof. unfold objGet. simpl. by destruct (String.eqb n name). Qed.

Lemma fold_defineOwn_get (members : jsonMembers) name : ∀ obj,
  NoDup members.*1 →
  objGet name (fold_left (fun obj member => defineOwn member.1 member.2 obj) members obj)
  = match objGet name members with
    | Some v => Some v
    | None => objGet name obj
    end.
Proof.
  induction members as [|[n v] members IH]; intros obj Hnodup; [done|].
  apply NoDup_cons in Hnodup as [Hn Hnodup]. simpl in Hn. simpl.
  rewrite IH by done. rewrite objGet_cons, objGet_defineOwn.
  destruct (String.eqb_spec n name) as [-> | Hne].
  - apply objGet_None in Hn. by rewrite Hn.
  - by destruct (objGet name members).
Qed.

Lemma fold_defineOwn_length (members : jsonMembers) : ∀ obj,
  NoDup (obj.*1 ++ members.*1) →
  length (fold_left (fun obj member => defineOwn member.1 member.2 obj) members obj)
  = (length obj + length members)%nat.
Proof.
  induction members as [|[n v] members IH]; intros obj Hnodup; simpl; [lia|].
  rewrite IH.
  - rewrite <- !(length_fmap fst), defineOwn_names.
    destruct (existsb (fun e => String.eqb e.1 n) obj) eqn:Hex; [|simpl; lia].
    apply existsb_names in Hex. apply NoDup_app in Hnodup as (_ & Hdis & _).
    exfalso. apply (Hdis n Hex). left.
  - rewrite defineOwn_names.
    destruct (existsb (fun e => String.eqb e.1 n) obj) eqn:Hex.
    + apply existsb_names in Hex. apply NoDup_app in Hnodup as (_ & Hdis & _).
      exfalso. apply (Hdis n Hex). left.
    + simpl in Hnodup. simpl.
      eapply NoDup_Permutation_proper; [|exact Hnodup].
      rewrite (Permutation_middle (obj.*1) (members.*1) n). done.
Qed.

(** The document written by [saveSessions]. *)
Lemma fold_objSet_NoDup (cache : sessionMap) : ∀ obj,
  NoDup obj.*1 →
  NoDup (fold_left
           (fun plainObject (entry : key * sessionData) =>
              objSet (keyToString entry.1) (toJson entry.2) plainObject)
           cache obj).*1.
Proof.
  induction cache as [|e cache IH]; intros obj Hobj; simpl; [done|].
  by apply IH, objSet_NoDup.
Qed.

Lemma stringKeys_find (cache : sessionMap) name :
  stringKeys cache →
  find (fun e : key * sessionData => String.eqb (keyToString e.1) name) cache
  = (fun v => (KStr name, v)) <$> mapGet (KStr name) cache.
Proof.
  unfold stringKeys. induction 1 as [|[k v] cache [s Hs] _ IH]; [done|].
  simpl in Hs. subst k. simpl.
  destruct (String.eqb_spec s name) as [-> | Hne]; [done | apply IH].
Qed.

Lemma stringKeys_names (cache : sessionMap) :
  stringKeys cache → NoDup cache.*1 →
  NoDup ((fun e : key * sessionData => keyToString e.1) <$> cache).
Proof.
  unfold stringKeys. induction 1 as [|[k v] cache [s Hs] Hrest IH]; [constructor|].
  simpl in Hs. subst k. rewrite !fmap_cons. simpl.
  intros Hnodup. apply NoDup_cons in Hnodup as [Hs Hnodup].
  apply NoDup_cons. split; [|by apply IH].
  intros Hin. apply Hs. apply list_elem_of_fmap in Hin as ([k v'] & Hk & Hin).
  simpl in Hk. rewrite Forall_forall in Hrest. destruct (Hrest _ Hin) as [s' Hs'].
  simpl in Hs'. subst k. simpl in Hk. subst s'.
  apply list_elem_of_fmap. by exists (KStr s, v').
Qed.

Lemma not_elem_of_cons_inv_keys name (cache : sessionMap) :
  KStr name ∉ cache.*1 → mapGet (KStr name) cache = None.
Proof.
  induction cache as [|[k w] cache IH]; [done|].
  intros Hs. apply not_elem_of_cons in Hs as [Hk Hs]. simpl in *.
  destruct (keyEqb k (KStr name)) eqn:Heq; [|by apply IH].
  destruct k as [x|x]; [done|]. simpl in Heq.
  apply String.eqb_eq in Heq. by subst.
Qed.

Lemma fold_objSet_get (cache : sessionMap) name : ∀ obj,
  stringKeys cache → NoDup cache.*1 →
  objGet name
    (fold_left
       (fun plainObject (entry : key * sessionData) =>
          objSet (keyToString entry.1) (toJson entry.2) plainObject)
       cache obj)
  = if String.eqb name "__proto__" then objGet name obj
    else match mapGet (KStr name) cache with
         | Some v => Some (toJson v)
         | None => objGet name obj
         end.
Proof.
  intros obj Hkeys. revert obj. unfold stringKeys in Hkeys.
  induction Hkeys as [|[k v] cache [s Hs] Hrest IH]; intros obj Hnodup.
  { simpl. by destruct (String.eqb name "__proto__"). }
  simpl in Hs. subst k. apply NoDup_cons in Hnodup as [Hs Hnodup].
  simpl. rewrite IH by done. rewrite objGet_objSet.
  destruct (String.eqb_spec name "__proto__") as [-> | Hproto].
  { by destruct (String.eqb s "__proto__"). }
  destruct (String.eqb_spec s name) as [-> | Hne]; simpl.
  - rewrite (proj2 (String.eqb_neq name "__proto__") Hproto). simpl.
    apply (not_elem_of_cons_inv_keys name) in Hs as Hnone. by rewrite Hnone.
  - done.
Qed.

Lemma fold_objSet_defineOwn (cache : sessionMap) : ∀ obj,
  Forall (fun e : key * sessionData => keyToString e.1 ≠ "__proto__") cache →
  fold_left
    (fun plainObject (entry : key * sessionData) =>
       objSet (keyToString entry.1) (toJson entry.2) plainObject)
    cache obj
  = fold_left (fun obj member => defineOwn member.1 member.2 obj)
      ((fun e : key * sessionData => (keyToString e.1, toJson e.2)) <$> cache) obj.
Proof.
  induction cache as [|e cache IH]; intros obj Hall; [done|].
  apply Forall_cons in Hall as [He Hall]. simpl. rewrite IH by done.
  unfold objSet. by rewrite (proj2 (String.eqb_neq _ _) He).
Qed.

Lemma mapSet_fresh name v m :
  KStr name ∉ m.*1 → mapSet (KStr name) v m = m ++ [(KStr name, v)].
Proof.
  induction m as [|[k w] m IH]; intros Hfresh; simpl; [done|].
  rewrite fmap_cons in Hfresh. apply not_elem_of_cons in Hfresh as [Hne Hfresh].
  simpl in Hne. rewrite IH by done.
  destruct k as [x|s]; simpl; [done|].
  destruct (String.eqb_spec s name); [congruence | done].
Qed.

Lemma fold_mapSet_fresh nowIso parsed : ∀ m,
  NoDup (m.*1 ++ ((fun e : string * jsonSession => KStr e.1) <$> parsed)) →
  fold_left
    (fun cache (entry : string * jsonSession) =>
       mapSet (KStr entry.1) (restore nowIso entry.2) cache)
    parsed m
  = m ++ ((fun e : string * jsonSession => (KStr e.1, restore nowIso e.2))
            <$> parsed).
Proof.
  induction parsed as [|e parsed IH]; intros m Hnodup; simpl.
  - by rewrite app_nil_r.
  - rewrite fmap_cons in Hnodup.
    rewrite mapSet_fresh.
    + rewrite IH; [by rewrite <- app_assoc|].
      rewrite fmap_app, <- app_assoc. done.
    + apply NoDup_app in Hnodup as (_ & Hdisjoint & _).
      intros Hin. apply (Hdisjoint _ Hin). left.
Qed.

Lemma mapGet_fmap (f : sessionData → sessionData) k m :
  mapGet k ((fun e : key * sessionData => (e.1, f e.2)) <$> m) = f <$> mapGet k m.
Proof.
  induction m as [|[k' v] m IH]; simpl; [done|].
  by destruct (keyEqb k' k).
Qed.

Lemma mapGet_of_object (f : jsonSession → sessionData) name (obj : jsonObject) :
  mapGet (KStr name) ((fun e : string * jsonSession => (KStr e.1, f e.2)) <$> obj)
  = f <$> objGet name obj.
Proof.
  induction obj as [|[n v] obj IH]; [done|].
  rewrite objGet_cons. simpl. destruct (String.eqb n name); [done | apply IH].
Qed.

(** What [loadSessions] makes of a document. *)
Lemma loadSessions_parsed nowIso d data :
  sessionFile d = Some data →
  loadSessions nowIso d
  = (fun e : string * jsonSession => (KStr e.1, restore nowIso e.2))
      <$> parseObject data.
Proof.
  intros Hdata. unfold loadSessions. rewrite Hdata. cbv zeta.
  rewrite fold_mapSet_fresh; [done|]. simpl.
  assert (Hnames : NoDup (parseObject data).*1)
    by (apply fold_defineOwn_NoDup; constructor).
  change ((fun e : string * jsonSession => KStr e.1) <$> parseObject data)
    with ((KStr ∘ fst) <$> parseObject data).
  rewrite list_fmap_compose. apply NoDup_fmap_2; [|done].
  by intros x y [= ->].
Qed.

(** A session found after saving and loading, under a string id. *)
Lemma reload_getSession nowIso cache d name :
  stringKeys cache → NoDup cache.*1 →
  getSession (KStr name) (loadSessions nowIso (saveSessions cache d))
  = if String.eqb name "__proto__" then None
    else (fun v => restore nowIso (toJson v)) <$> mapGet (KStr name) cache.
Proof.
  intros Hkeys Hnodup. unfold getSession.
  rewrite (loadSessions_parsed nowIso (saveSessions cache d) _ eq_refl).
  rewrite mapGet_of_object. unfold parseObject.
  rewrite fold_defineOwn_get by (apply fold_objSet_NoDup; constructor).
  rewrite fold_objSet_get by done.
  destruct (String.eqb name "__proto__"); [done|].
  by destruct (mapGet (KStr name) cache).
Qed.

(** The number of sessions after saving and loading. *)
Lemma reload_count nowIso cache d :
  stringKeys cache → NoDup cache.*1 → KStr "__proto__" ∉ cache.*1 →
  length (loadSessions nowIso (saveSessions cache d)) = length cache.
Proof.
  intros Hkeys Hnodup Hproto.
  rewrite (loadSessions_parsed nowIso (saveSessions cache d) _ eq_refl), length_fmap.
  unfold parseObject.
  rewrite fold_defineOwn_length
    by (simpl; apply fold_objSet_NoDup; constructor).
  simpl. rewrite fold_objSet_defineOwn.
  - rewrite fold_defineOwn_length, length_fmap; [done|]. simpl.
    rewrite <- list_fmap_compose. by apply stringKeys_names.
  - unfold stringKeys in Hkeys. rewrite Forall_forall in Hkeys |- *.
    intros [k v] He Heq. destruct (Hkeys _ He) as [s Hs]. simpl in Hs. subst k.
    simpl in Heq. subst s.
    apply Hproto, list_elem_of_fmap. by exists (KStr "__proto__", v).
Qed.

(** The document lists array indices first, in numeric order, then
    the other names as they were created; a session under ['__proto__']
    is not written. *)
Example saveSessions_listing :
  fst <$> default []
            (sessionFile
               (saveSessions
                  [ (KStr "bob", Samples.oneExchange);
                    (KNum 10, Samples.oneExchange);
                    (KStr "__proto__", Samples.oneExchange);
                    (KStr "9", Samples.oneExchange);
                    (KNum (-100), Samples.oneExchange);
                    (KStr "007", Samples.oneExchange);
                    (KNum 5000000000, Samples.oneExchange) ]
                  Samples.emptyDisk))
  = ["9"; "10"; "bob"; "-100"; "007"; "5000000000"].
Proof. reflexivity. Qed.

(** Under string user ids other than ['__proto__'] the round trip keeps
    the history and the turn counter of every session. *)
Lemma session_roundtrip_string_ids nowIso cache d name :
  stringKeys cache → NoDup cache.*1 → name ≠ "__proto__" →
  history <$> getSession (KStr name) (loadSessions nowIso (saveSessions cache d))
    = history <$> getSession (KStr name) cache
  ∧ turnCount <$> getSession (KStr name) (loadSessions nowIso (saveSessions cache d))
    = turnCount <$> getSession (KStr name) cache.
Proof.
  intros Hkeys Hnodup Hname. rewrite reload_getSession by done.
  rewrite (proj2 (String.eqb_neq _ _) Hname). unfold getSession.
  destruct (mapGet (KStr name) cache) as [s|]; simpl; [|done].
  split; [done|]. f_equal. unfold truthyNum.
  by destruct (Z.eqb_spec (turnCount s) 0) as [-> |].
Qed.

End SessionStoreFacts.

(** C1.  For every text, [detectSkill] either finds every skill's score
    equal to 0 and answers the default skill 'general' with confidence 0,
    or answers the skill at some position [i] of the registration table
    together with its score [s] as confidence, where [s] is positive, no
    skill scores more than [s], and every skill registered before
    position [i] scores strictly less than [s] (the earliest of the
    highest-scoring skills wins). *)
Theorem detectSkill_highest_score (message : string) :
  ((∀ e, e ∈ SkillRouter.scoreTable SkillRouter.skills (Js.toLowerCase message) →
         (e.2 == 0)%Q)
   ∧ SkillRouter.detectSkill message
     = {| SkillRouter.skill := Some "general"; SkillRouter.confidence := 0%Q |})
  ∨ ∃ i id s,
      SkillRouter.scoreTable SkillRouter.skills (Js.toLowerCase message) !! i
        = Some (id, s)
      ∧ SkillRouter.detectSkill message
        = {| SkillRouter.skill := Some id; SkillRouter.confidence := s |}
      ∧ (0 < s)%Q
      ∧ (∀ j e, SkillRouter.scoreTable SkillRouter.skills (Js.toLowerCase message) !! j
                = Some e → (e.2 <= s)%Q)
      ∧ (∀ j e, (j < i)%nat →
           SkillRouter.scoreTable SkillRouter.skills (Js.toLowerCase message) !! j
             = Some e → (e.2 < s)%Q).
Proof. apply detectSkillIn_highest. Qed.

(** C10.  For every text, with the count of a skill being the number
    of its keywords that occur in the lower-cased text: for every
    keyword of the table the bonus branch is taken whenever the keyword
    matches (the keyword is already in lower case); the confidence
    returned by [detectSkill] is at least 1.5 times the count of every
    skill of the table; and either every count is 0 and the answer is
    ['general'] with confidence 0, or the answer is a skill of the
    table whose count is positive and larger than the count of every
    skill registered before it, and the confidence is 1.5 times that
    count, which differs from the count itself. *)
Theorem detectSkill_confidence_three_halves (message : string) :
  (∀ e k lower score,
     e ∈ SkillRouter.skills → k ∈ SkillRouter.keywords e.2 →
     SkillRouter.keywordStep lower score k
     = if Js.includes lower k then (score + 1 + (1 # 2))%Q else score)
  ∧ (∀ e, e ∈ SkillRouter.skills →
       ((3 # 2) * inject_Z (Z.of_nat
          (SkillRouter.matchCount (Js.toLowerCase message)
             (SkillRouter.keywords e.2)))
        <= SkillRouter.confidence (SkillRouter.detectSkill message))%Q)
  ∧ (((∀ e, e ∈ SkillRouter.skills →
         SkillRouter.matchCount (Js.toLowerCase message)
           (SkillRouter.keywords e.2) = 0%nat)
      ∧ SkillRouter.detectSkill message
        = {| SkillRouter.skill := Some "general";
             SkillRouter.confidence := 0%Q |})
     ∨ ∃ i e,
         SkillRouter.skills !! i = Some e
         ∧ SkillRouter.skill (SkillRouter.detectSkill message) = Some e.1
         ∧ (SkillRouter.confidence (SkillRouter.detectSkill message)
            == (3 # 2) * inject_Z (Z.of_nat
                 (SkillRouter.matchCount (Js.toLowerCase message)
                    (SkillRouter.keywords e.2))))%Q
         ∧ (0 < SkillRouter.matchCount (Js.toLowerCase message)
                  (SkillRouter.keywords e.2))%nat
         ∧ ¬ (SkillRouter.confidence (SkillRouter.detectSkill message)
              == inject_Z (Z.of_nat
                   (SkillRouter.matchCount (Js.toLowerCase message)
                      (SkillRouter.keywords e.2))))%Q
         ∧ ∀ j e', (j < i)%nat → SkillRouter.skills !! j = Some e' →
             (SkillRouter.matchCount (Js.toLowerCase message)
                (SkillRouter.keywords e'.2)
              < SkillRouter.matchCount (Js.toLowerCase message)
                  (SkillRouter.keywords e.2))%nat).
Proof.
  set (lower := Js.toLowerCase message).
  assert (Hscore : ∀ e, e ∈ SkillRouter.skills →
    (SkillRouter.skillScore lower (SkillRouter.keywords e.2)
     == (3 # 2) * inject_Z (Z.of_nat
          (SkillRouter.matchCount lower (SkillRouter.keywords e.2))))%Q).
  { intros e He. apply skillScore_count.
    pose proof skills_keywords_lowercase as Hlow.
    rewrite Forall_forall in Hlow. by apply Hlow. }
  assert (Hentry : ∀ j e, SkillRouter.skills !! j = Some e →
    SkillRouter.scoreTable SkillRouter.skills lower !! j
    = Some (e.1, SkillRouter.skillScore lower (SkillRouter.keywords e.2))).
  { intros j e He. unfold SkillRouter.scoreTable.
    rewrite list_lookup_fmap, He. done. }
  split.
  { intros e k lower' score He Hk. apply keywordStep_lowercase.
    pose proof skills_keywords_lowercase as Hlow.
    rewrite Forall_forall in Hlow. specialize (Hlow e He).
    rewrite Forall_forall in Hlow. by apply Hlow. }
  unfold SkillRouter.detectSkill.
  pose proof (detectSkillIn_highest SkillRouter.skills message) as Hbest.
  fold lower in Hbest.
  destruct Hbest as [[Hzero ->] | (i & id & s & Hi & -> & Hpos & Hmax & Hearly)];
    cbn [SkillRouter.skill SkillRouter.confidence].
  - assert (Hnone : ∀ e, e ∈ SkillRouter.skills →
      SkillRouter.matchCount lower (SkillRouter.keywords e.2) = 0%nat).
    { intros e He.
      apply list_elem_of_lookup_1 in He as [j Hj].
      pose proof (Hzero _ (list_elem_of_lookup_2 _ _ _ (Hentry _ _ Hj))) as Hz.
      simpl in Hz.
      rewrite (Hscore e (list_elem_of_lookup_2 _ _ _ Hj)) in Hz.
      unfold Qeq in Hz. simpl in Hz. lia. }
    split; [|by left].
    intros e He. rewrite (Hnone e He). by vm_compute.
  - unfold SkillRouter.scoreTable in Hi. rewrite list_lookup_fmap in Hi.
    destruct (SkillRouter.skills !! i) as [e|] eqn:He; [|done].
    simpl in Hi. injection Hi as <- <-.
    pose proof (list_elem_of_lookup_2 _ _ _ He) as Hin.
    pose proof (Hscore e Hin) as Hcount.
    assert (Hn : (0 < SkillRouter.matchCount lower (SkillRouter.keywords e.2))%nat).
    { destruct (SkillRouter.matchCount _ _) eqn:Hm; [|lia].
      rewrite Hcount in Hpos. unfold Qlt in Hpos. simpl in Hpos. lia. }
    split.
    { intros e' He'. rewrite <- (Hscore e' He').
      apply list_elem_of_lookup_1 in He' as [j Hj].
      exact (Hmax j _ (Hentry _ _ Hj)). }
    right. exists i, e. split; [done|]. split; [done|]. split; [exact Hcount|].
    split; [exact Hn|]. split; [rewrite Hcount; by apply three_halves_not_count|].
    intros j e' Hj He'.
    pose proof (Hearly j _ Hj (Hentry _ _ He')) as Hlt. simpl in Hlt.
    rewrite (Hscore e' (list_elem_of_lookup_2 _ _ _ He')), Hcount in Hlt.
    unfold Qlt in Hlt. simpl in Hlt. lia.
Qed.

(** The scenarios of the specification, evaluated. *)
Example detectSkill_what_is :
  SkillRouter.detectSkill "what is 2+2"
  = {| SkillRouter.skill := Some "general"; SkillRouter.confidence := 0%Q |}.
Proof. reflexivity. Qed.

Example detectSkill_review :
  SkillRouter.skill
    (SkillRouter.detectSkill "Review this pull request for the new architecture")
  = Some "pr-review".
Proof. reflexivity. Qed.

Example detectSkill_tie_earliest :
  SkillRouter.skill (SkillRouter.detectSkill "search and review") = Some "web-search"
  ∧ (SkillRouter.skillScore "search and review" (SkillRouter.keywordsOf "web-search")
     == 3 # 2)%Q
  ∧ (SkillRouter.skillScore "search and review" (SkillRouter.keywordsOf "pr-review")
     == 3 # 2)%Q.
Proof. split; [reflexivity|]. split; reflexivity. Qed.

(** C5.  For every text and context, the complexity score is the
    additive rule floored at zero; an override ['fast'] or ['smart'] in
    the context decides the tier whatever the text; without such an
    override the deep tier ([smart]) is chosen exactly when the score is
    at least the threshold 3, and the fast tier otherwise.  The selector
    is a function of the text and the context alone. *)
Theorem chooseModel_tier (message : string) (context : ModelPicker.context) :
  ModelPicker.analyzeTaskComplexity message context
    = Z.max 0 (ModelPicker.additiveScore message context)
  ∧ (0 <= ModelPicker.analyzeTaskComplexity message context)%Z
  ∧ (ModelPicker.forceModel context = Some "fast" →
       ModelPicker.chooseModel message context = ModelPicker.fast)
  ∧ (ModelPicker.forceModel context = Some "smart" →
       ModelPicker.chooseModel message context = ModelPicker.smart)
  ∧ (ModelPicker.forceModel context ≠ Some "fast" →
     ModelPicker.forceModel context ≠ Some "smart" →
       (ModelPicker.chooseModel message context = ModelPicker.smart
        ↔ (3 <= ModelPicker.analyzeTaskComplexity message context)%Z)
       ∧ (ModelPicker.chooseModel message context = ModelPicker.fast
          ↔ (ModelPicker.analyzeTaskComplexity message context < 3)%Z)).
Proof.
  split; [apply analyzeTaskComplexity_additive|].
  split; [unfold ModelPicker.analyzeTaskComplexity; apply Z.le_max_l|].
  unfold ModelPicker.chooseModel, ModelPicker.forced.
  split; [by intros ->|]. split; [by intros ->|].
  intros Hfast Hsmart.
  assert (Hf : match ModelPicker.forceModel context with
               | Some f => String.eqb f "fast" | None => false end = false).
  { destruct (ModelPicker.forceModel context) as [f|]; [|done].
    apply String.eqb_neq. congruence. }
  assert (Hs : match ModelPicker.forceModel context with
               | Some f => String.eqb f "smart" | None => false end = false).
  { destruct (ModelPicker.forceModel context) as [f|]; [|done].
    apply String.eqb_neq. congruence. }
  rewrite Hf, Hs. pose proof fast_ne_smart as Hne.
  destruct (Z.leb_spec 3 (ModelPicker.analyzeTaskComplexity message context));
    split; split; intros; try done; try lia; congruence.
Qed.

(** C6 (as amended).  For every text and context, appending any number
    of high-complexity indicator phrases (each alone or after a space)
    to the end of the text never decreases the complexity score. *)
Theorem analyzeTaskComplexity_monotone
    (message : string) (context : ModelPicker.context) (phrases : list string) :
  Forall (fun w => w ∈ ModelPicker.indicatorExtensions) phrases →
  (ModelPicker.analyzeTaskComplexity message context
   <= ModelPicker.analyzeTaskComplexity
        (fold_left String.append phrases message) context)%Z.
Proof. intros Hall. by apply analyzeTaskComplexity_extends, extends_append_all. Qed.

Lemma analyzeTaskComplexity_monotone_witness :
  Forall (fun w => w ∈ ModelPicker.indicatorExtensions) [" architecture"; " design"]
  ∧ (ModelPicker.analyzeTaskComplexity "please list the modules"
       {| ModelPicker.conversationTurns := Some 1%Z; ModelPicker.forceModel := None |}
     <= ModelPicker.analyzeTaskComplexity
          (fold_left String.append [" architecture"; " design"]
             "please list the modules")
          {| ModelPicker.conversationTurns := Some 1%Z;
             ModelPicker.forceModel := None |})%Z.
Proof.
  assert (H : Forall (fun w => w ∈ ModelPicker.indicatorExtensions) [" architecture"; " design"]).
  { repeat constructor; unfold ModelPicker.indicatorExtensions; simpl; set_solver. }
  split; [exact H|].
  apply (analyzeTaskComplexity_monotone "please list the modules" _ _ H).
Defined.

(** C6, the claim as stated, fails when the text is extended at its
    front: the indicator 'analysis' put before 'how me analysis' adds
    no new indicator class and completes the low-complexity phrase
    'show me', so the score drops from 1 to 0. *)
Lemma analyzeTaskComplexity_prepend_counterexample :
  "analysis" ∈ ModelPicker.highComplexityIndicators
  ∧ ModelPicker.analyzeTaskComplexity "how me analysis" ModelPicker.noContext = 1%Z
  ∧ ModelPicker.analyzeTaskComplexity ("analysis" +:+ "how me analysis")
      ModelPicker.noContext = 0%Z
  ∧ (ModelPicker.analyzeTaskComplexity ("analysis" +:+ "how me analysis")
       ModelPicker.noContext
     < ModelPicker.analyzeTaskComplexity "how me analysis" ModelPicker.noContext)%Z.
Proof.
  split; [unfold ModelPicker.highComplexityIndicators; set_solver|].
  split; [reflexivity|]. split; reflexivity.
Qed.

Example chooseModel_what_is :
  ModelPicker.chooseModel "what is 2+2"
    {| ModelPicker.conversationTurns := None; ModelPicker.forceModel := None |}
  = ModelPicker.fast.
Proof. reflexivity. Qed.

Example chooseModel_review_architecture :
  ModelPicker.chooseModel "review the architecture of this pull request"
    {| ModelPicker.conversationTurns := None; ModelPicker.forceModel := None |}
  = ModelPicker.smart.
Proof. reflexivity. Qed.

(** For every well-formed collector (the first checkpoint marked,
    no checkpoint holding 0, as [new MetricsCollector] and [mark]
    guarantee) and every clock reading, [getBreakdown] returns a result
    in which each of the nine segment fields holds the difference of its
    two checkpoints when both were marked and [null] otherwise, and in
    which the total is the last checkpoint minus the first, or the clock
    reading minus the first when the last checkpoint was not marked. *)
Theorem getBreakdown_segments_and_total (c : Metrics.collector) (now : Z) :
  Metrics.wellFormed c →
  Forall (fun seg : Metrics.checkpoint * Metrics.checkpoint
                    * (Metrics.breakdown → option Z) =>
            seg.2 (Metrics.getBreakdown c now)
            = Metrics.durationBetween c seg.1.1 seg.1.2)
    Metrics.segments
  ∧ ∃ start,
      Metrics.t_receivedAt (Metrics.c_timings c) = Some start
      ∧ Metrics.b_total (Metrics.getBreakdown c now)
        = match Metrics.t_responseSent (Metrics.c_timings c) with
          | Some finish => (finish - start)%Z
          | None => (now - start)%Z
          end.
Proof.
  intros Hwf. split.
  - unfold Metrics.segments.
    repeat constructor; simpl; by apply getDuration_wellFormed.
  - destruct Hwf as [[start Hstart] Hnonzero]. exists start. split; [done|].
    simpl. rewrite Hstart. simpl.
    pose proof (Hnonzero Metrics.responseSent) as Hsent. simpl in Hsent.
    destruct (Metrics.t_responseSent (Metrics.c_timings c)) as [finish|]; [|done].
    simpl. unfold Js.truthyNum. destruct (Z.eqb_spec finish 0); [congruence | done].
Qed.

Lemma getBreakdown_segments_and_total_witness :
  Metrics.wellFormed
    (Metrics.mark "apiCallStart" 1040
       (Metrics.mark "fastPathCheck" 1005 (Metrics.newCollector (Js.KNum 7) "hi" 1000)))
  ∧ Forall (fun seg : Metrics.checkpoint * Metrics.checkpoint
                      * (Metrics.breakdown → option Z) =>
              seg.2 (Metrics.getBreakdown
                       (Metrics.mark "apiCallStart" 1040
                          (Metrics.mark "fastPathCheck" 1005
                             (Metrics.newCollector (Js.KNum 7) "hi" 1000))) 1100)
              = Metrics.durationBetween
                  (Metrics.mark "apiCallStart" 1040
                     (Metrics.mark "fastPathCheck" 1005
                        (Metrics.newCollector (Js.KNum 7) "hi" 1000)))
                  seg.1.1 seg.1.2)
      Metrics.segments.
Proof.
  assert (Hwf : Metrics.wellFormed
    (Metrics.mark "apiCallStart" 1040
       (Metrics.mark "fastPathCheck" 1005 (Metrics.newCollector (Js.KNum 7) "hi" 1000)))).
  { split; [by eexists | intros event; destruct event; vm_compute; congruence]. }
  split; [exact Hwf|].
  exact (proj1 (getBreakdown_segments_and_total _ 1100%Z Hwf)).
Defined.

Example getBreakdown_partial :
  Metrics.b_fastPathCheck
    (Metrics.getBreakdown
       (Metrics.mark "apiCallStart" 1040
          (Metrics.mark "fastPathCheck" 1005
             (Metrics.newCollector (Js.KNum 7) "hi" 1000))) 1100)
  = Some 5%Z
  ∧ Metrics.b_apiCall
      (Metrics.getBreakdown
         (Metrics.mark "apiCallStart" 1040
            (Metrics.mark "fastPathCheck" 1005
               (Metrics.newCollector (Js.KNum 7) "hi" 1000))) 1100)
    = None
  ∧ Metrics.b_total
      (Metrics.getBreakdown
         (Metrics.mark "apiCallStart" 1040
            (Metrics.mark "fastPathCheck" 1005
               (Metrics.newCollector (Js.KNum 7) "hi" 1000))) 1100)
    = 100%Z.
Proof. repeat split. Qed.


(** C2.  For every message id under which [store] stores (an id that
    is not falsy, as every message id that is passed to it) and every
    metadata object: [store] inserts the record and returns true; a
    [get] at a time up to the expiry returns that record and leaves the
    store as it is; a [get] after the expiry returns absent and deletes
    the entry; and every [get] after that, at whatever time, returns
    absent and changes nothing. *)
Theorem store_get_ttl (messageId : Js.key) (md : MetadataStore.metadata)
    (createdNow expiresNow within after : Z)
    (messages : gmap string MetadataStore.metadata) :
  Js.truthyKey messageId = true →
  (within <= expiresNow + MetadataStore.retentionOf md)%Z →
  (expiresNow + MetadataStore.retentionOf md < after)%Z →
  (MetadataStore.store messageId md createdNow expiresNow messages).1 = true
  ∧ MetadataStore.get messageId within
      (MetadataStore.store messageId md createdNow expiresNow messages).2
    = (Some (MetadataStore.withTimestamps md (Some createdNow)
               (Some (expiresNow + MetadataStore.retentionOf md)%Z)),
       (MetadataStore.store messageId md createdNow expiresNow messages).2)
  ∧ MetadataStore.get messageId after
      (MetadataStore.store messageId md createdNow expiresNow messages).2
    = (None,
       delete (Js.keyToString messageId)
         (MetadataStore.store messageId md createdNow expiresNow messages).2)
  ∧ delete (Js.keyToString messageId)
      (MetadataStore.store messageId md createdNow expiresNow messages).2
    !! Js.keyToString messageId = None
  ∧ ∀ later,
      MetadataStore.get messageId later
        (MetadataStore.get messageId after
           (MetadataStore.store messageId md createdNow expiresNow messages).2).2
      = (None,
         (MetadataStore.get messageId after
            (MetadataStore.store messageId md createdNow expiresNow messages).2).2).
Proof.
  intros Hid Hwithin Hafter. unfold MetadataStore.store. rewrite Hid. simpl.
  set (record := MetadataStore.withTimestamps md (Some createdNow)
                   (Some (expiresNow + MetadataStore.retentionOf md)%Z)).
  assert (Hlook : <[Js.keyToString messageId := record]> messages
                  !! Js.keyToString messageId = Some record)
    by apply lookup_insert_eq.
  assert (Hdead : MetadataStore.get messageId after
                    (<[Js.keyToString messageId := record]> messages)
                  = (None, delete (Js.keyToString messageId)
                             (<[Js.keyToString messageId := record]> messages))).
  { apply (get_expired _ _ _ record Hlook). simpl. by apply Z.ltb_lt. }
  split; [done|]. split.
  { apply (get_live _ _ _ record Hlook). simpl. apply Z.ltb_ge. lia. }
  split; [exact Hdead|]. split; [apply lookup_delete_eq|].
  intros later. apply get_after_absent. by rewrite Hdead.
Qed.

Lemma store_get_ttl_witness :
  Js.truthyKey (Js.KNum 4711) = true
  ∧ (1000 <= 20 + MetadataStore.retentionOf MetadataStore.noFields)%Z
  ∧ (20 + MetadataStore.retentionOf MetadataStore.noFields < 3600021)%Z
  ∧ MetadataStore.get (Js.KNum 4711) 1000
      (MetadataStore.store (Js.KNum 4711) MetadataStore.noFields 10 20 ∅).2
    = (Some (MetadataStore.withTimestamps MetadataStore.noFields (Some 10%Z)
               (Some (20 + MetadataStore.retentionOf MetadataStore.noFields)%Z)),
       (MetadataStore.store (Js.KNum 4711) MetadataStore.noFields 10 20 ∅).2).
Proof.
  assert (H1 : Js.truthyKey (Js.KNum 4711) = true) by reflexivity.
  assert (H2 : (1000 <= 20 + MetadataStore.retentionOf MetadataStore.noFields)%Z)
    by (vm_compute; discriminate).
  assert (H3 : (20 + MetadataStore.retentionOf MetadataStore.noFields < 3600021)%Z)
    by reflexivity.
  split; [exact H1|]. split; [exact H2|]. split; [exact H3|].
  exact (proj1 (proj2
    (store_get_ttl (Js.KNum 4711) MetadataStore.noFields 10 20 1000 3600021 ∅
       H1 H2 H3))).
Defined.

(** [store] refuses a falsy id: nothing is stored, and there is no
    record for a later [get]. *)
Example store_refuses_falsy_id :
  MetadataStore.store (Js.KNum 0) MetadataStore.noFields 10 20 ∅ = (false, ∅)
  ∧ (MetadataStore.get (Js.KNum 0) 1000
       (MetadataStore.store (Js.KNum 0) MetadataStore.noFields 10 20 ∅).2).1
    = None.
Proof. split; reflexivity. Qed.

(** C8.  For every pending prompt stored under a message id:
    (1) an event that arrives up to the expiry and matches one of the
    options returns that option's selection and removes the record, and
    every later event for the id, whatever its symbol and time, returns
    null and leaves both maps as they are;
    (2) an event that arrives after the expiry returns null and removes
    the record, with the same consequence for every later event;
    (3) [cleanup] after the expiry removes the record too, and keeps it
    before the expiry. *)
Theorem pending_prompt_consumed_once
    (messageId : Js.key) (emoji : string) (now : Z)
    (h : UserPromptHandler.handler) (p : UserPromptHandler.promptData) :
  UserPromptHandler.pendingPrompts h !! Js.keyToString messageId = Some p →
  (∀ opt,
     (now <= UserPromptHandler.p_expiresAt p)%Z →
     find (fun o => String.eqb (MetadataStore.emoji o) emoji)
       (UserPromptHandler.options p) = Some opt →
     (UserPromptHandler.handleResponse messageId emoji now h).1
     = Some {| UserPromptHandler.s_question := UserPromptHandler.question p;
               UserPromptHandler.answer := MetadataStore.label opt;
               UserPromptHandler.s_action := MetadataStore.action opt;
               UserPromptHandler.s_context := UserPromptHandler.context p |}
     ∧ UserPromptHandler.pendingPrompts
         (UserPromptHandler.handleResponse messageId emoji now h).2
       = delete (Js.keyToString messageId) (UserPromptHandler.pendingPrompts h)
     ∧ ∀ emoji' now',
         UserPromptHandler.handleResponse messageId emoji' now'
           (UserPromptHandler.handleResponse messageId emoji now h).2
         = (None, (UserPromptHandler.handleResponse messageId emoji now h).2))
  ∧ ((UserPromptHandler.p_expiresAt p < now)%Z →
     UserPromptHandler.handleResponse messageId emoji now h
     = (None,
        {| UserPromptHandler.pendingPrompts :=
             delete (Js.keyToString messageId) (UserPromptHandler.pendingPrompts h);
           UserPromptHandler.metadataStore := UserPromptHandler.metadataStore h |})
     ∧ ∀ emoji' now',
         UserPromptHandler.handleResponse messageId emoji' now'
           (UserPromptHandler.handleResponse messageId emoji now h).2
         = (None, (UserPromptHandler.handleResponse messageId emoji now h).2))
  ∧ ((UserPromptHandler.p_expiresAt p < now)%Z →
     ∀ emoji' now',
       UserPromptHandler.handleResponse messageId emoji' now'
         (UserPromptHandler.cleanup now h).2
       = (None, (UserPromptHandler.cleanup now h).2))
  ∧ ((now <= UserPromptHandler.p_expiresAt p)%Z →
     UserPromptHandler.pendingPrompts (UserPromptHandler.cleanup now h).2
       !! Js.keyToString messageId = Some p).
Proof.
  intros Hp. split; [|split; [|split]].
  - intros opt Hlive Hopt.
    rewrite (handleResponse_selected _ _ _ _ _ _ Hp Hlive Hopt). simpl.
    split; [done|]. split; [done|]. intros emoji' now'.
    apply handleResponse_absent. simpl. apply lookup_delete_eq.
  - intros Hdead. rewrite (handleResponse_expired _ _ _ _ _ Hp Hdead).
    split; [done|]. intros emoji' now'.
    apply handleResponse_absent. simpl. apply lookup_delete_eq.
  - intros Hdead emoji' now'. apply handleResponse_absent.
    rewrite cleanup_lookup, Hp. by destruct (Z.ltb_spec (UserPromptHandler.p_expiresAt p) now); [|lia].
  - intros Hlive. rewrite cleanup_lookup, Hp.
    by destruct (Z.ltb_spec (UserPromptHandler.p_expiresAt p) now); [lia|].
Qed.

Lemma pending_prompt_consumed_once_witness :
  ∃ p,
    UserPromptHandler.pendingPrompts Samples.yesNoPrompt !! Js.keyToString (Js.KNum 99) = Some p
    ∧ (UserPromptHandler.handleResponse (Js.KNum 99) EmojiMappings.ACTION_NO 2000
         Samples.yesNoPrompt).1
      = Some {| UserPromptHandler.s_question := "Deploy?";
                UserPromptHandler.answer := "No";
                UserPromptHandler.s_action := "no";
                UserPromptHandler.s_context :=
                  {| UserPromptHandler.timeout := None;
                     UserPromptHandler.payload := [] |} |}
    ∧ ∀ emoji' now',
        UserPromptHandler.handleResponse (Js.KNum 99) emoji' now'
          (UserPromptHandler.handleResponse (Js.KNum 99) EmojiMappings.ACTION_NO 2000
             Samples.yesNoPrompt).2
        = (None,
           (UserPromptHandler.handleResponse (Js.KNum 99) EmojiMappings.ACTION_NO 2000
              Samples.yesNoPrompt).2).
Proof.
  eexists. split; [reflexivity|].
  pose proof (pending_prompt_consumed_once (Js.KNum 99) EmojiMappings.ACTION_NO 2000
                Samples.yesNoPrompt _ eq_refl) as (Hfirst & _).
  destruct (Hfirst _ ltac:(simpl; lia) eq_refl) as (Hsel & _ & Hlater).
  split; [exact Hsel | exact Hlater].
Defined.

(** C3.  For every store and every verbosity-change event, delivered
    at times [t1] and then [t2]:
    (1) the text shown for the message after both deliveries is the
    text shown after the first alone;
    (2) from the second delivery on, a lookup of the message finds the
    same record (hence the same stored verbosity) after both deliveries
    as after the first alone;
    (3) when the record is live at both deliveries, the second leaves
    the store exactly as the first left it and issues the same edit,
    the stored verbosity being the one the event names;
    (4) and every event, whatever its symbol, leaves the store unchanged
    and issues no call when no record exists for its message id. *)
Theorem verbosity_reaction_idempotent
    (r : ReactionHandler.reaction) (e : string) (t1 t2 : Z)
    (messages : gmap string MetadataStore.metadata) :
  ReactionHandler.new_reaction r
    = Some {| ReactionHandler.rt_type := "emoji"; ReactionHandler.rt_emoji := e |} →
  EmojiMappings.isVerbosityEmoji e = true →
  (∀ before,
     ReactionHandler.shownText (ReactionHandler.message_id r) before
       ((ReactionHandler.handleReaction r t1 messages).2
        ++ (ReactionHandler.handleReaction r t2
              (ReactionHandler.handleReaction r t1 messages).1).2)
     = ReactionHandler.shownText (ReactionHandler.message_id r) before
         (ReactionHandler.handleReaction r t1 messages).2)
  ∧ (∀ t3, (t2 <= t3)%Z →
       (MetadataStore.get (ReactionHandler.message_id r) t3
          (ReactionHandler.handleReaction r t2
             (ReactionHandler.handleReaction r t1 messages).1).1).1
       = (MetadataStore.get (ReactionHandler.message_id r) t3
            (ReactionHandler.handleReaction r t1 messages).1).1)
  ∧ (∀ md,
       messages !! Js.keyToString (ReactionHandler.message_id r) = Some md →
       MetadataStore.expiredAt t1 md = false →
       MetadataStore.expiredAt t2 md = false →
       ∃ v,
         EmojiMappings.getVerbosityFromEmoji e = Some v
         ∧ ReactionHandler.handleReaction r t2
             (ReactionHandler.handleReaction r t1 messages).1
           = ReactionHandler.handleReaction r t1 messages
         ∧ MetadataStore.verbosity
             <$> ((ReactionHandler.handleReaction r t1 messages).1
                    !! Js.keyToString (ReactionHandler.message_id r))
           = Some (Some v)
         ∧ (ReactionHandler.handleReaction r t1 messages).2
           = [ ReactionHandler.EditMessageText (MetadataStore.chatId md)
                 (ReactionHandler.message_id r) (ReactionHandler.renderedAt md v);
               ReactionHandler.SetMessageReaction (MetadataStore.chatId md)
                 (ReactionHandler.message_id r)
                 (EmojiMappings.getReactionsForVerbosity v) ])
  ∧ (∀ r' t (m : gmap string MetadataStore.metadata),
       m !! Js.keyToString (ReactionHandler.message_id r') = None →
       ReactionHandler.handleReaction r' t m = (m, [])).
Proof.
  intros Hnew He.
  destruct (handleReaction_verbosity r e t1 messages Hnew He) as (v & Hv & Hone).
  split; [|split; [|split]].
  - intros before. rewrite Hone.
    destruct (messages !! Js.keyToString (ReactionHandler.message_id r))
      as [md|] eqn:Hmd.
    + destruct (MetadataStore.expiredAt t1 md) eqn:Hlive1; cbn [fst snd].
      * rewrite handleReaction_absent by apply lookup_delete_eq. done.
      * destruct (handleReaction_verbosity r e t2
          (<[Js.keyToString (ReactionHandler.message_id r) := ReactionHandler.withVerbosity md v]>
             messages) Hnew He) as (v' & Hv' & ->).
        assert (v' = v) as -> by congruence.
        rewrite lookup_insert_eq, expiredAt_withVerbosity.
        destruct (MetadataStore.expiredAt t2 md); cbn [fst snd];
          [by rewrite app_nil_r|].
        rewrite renderedAt_withVerbosity. apply shownText_edit_twice.
    + simpl. rewrite handleReaction_absent by done. by rewrite ?app_nil_r.
  - intros t3 Ht3. rewrite Hone.
    destruct (messages !! Js.keyToString (ReactionHandler.message_id r))
      as [md|] eqn:Hmd.
    + destruct (MetadataStore.expiredAt t1 md) eqn:Hlive1; simpl.
      * by rewrite handleReaction_absent by apply lookup_delete_eq.
      * destruct (handleReaction_verbosity r e t2
          (<[Js.keyToString (ReactionHandler.message_id r) := ReactionHandler.withVerbosity md v]>
             messages) Hnew He) as (v' & Hv' & ->).
        assert (v' = v) as -> by congruence.
        rewrite lookup_insert_eq, expiredAt_withVerbosity.
        destruct (MetadataStore.expiredAt t2 md) eqn:Hlive2; simpl.
        -- rewrite (get_absent _ _ _ (lookup_delete_eq _ _)). simpl.
           erewrite get_expired; [done | apply lookup_insert_eq|].
           rewrite expiredAt_withVerbosity.
           unfold MetadataStore.expiredAt in *.
           destruct (MetadataStore.expiresAt md) as [expiry|]; [|done].
           apply Z.ltb_lt in Hlive2. apply Z.ltb_lt. lia.
        -- by rewrite withVerbosity_idem, insert_insert_eq.
    + simpl. by rewrite handleReaction_absent by done.
  - intros md Hmd Hlive1 Hlive2. exists v. split; [done|].
    rewrite Hone, Hmd, Hlive1. simpl.
    destruct (handleReaction_verbosity r e t2
      (<[Js.keyToString (ReactionHandler.message_id r) := ReactionHandler.withVerbosity md v]>
         messages) Hnew He) as (v' & Hv' & ->).
    assert (v' = v) as -> by congruence.
    rewrite lookup_insert_eq, expiredAt_withVerbosity, Hlive2.
    rewrite withVerbosity_idem, insert_insert_eq, renderedAt_withVerbosity.
    done.
  - intros r' t m. apply handleReaction_absent.
Qed.

(** C7.  For every stored response, skill, model and metrics
    snapshot, the rendering does not get shorter along minimal, medium,
    full.  A stored record carries a skill and a model together (an
    answer of the orchestrator) or neither of them (a failure, a
    prompt). *)
Theorem verbosity_length_stored
    (responseText : string) (skill model : option string)
    (metricsData : option Metrics.breakdown)
    (explanation : option MetadataStore.explanation) (score : option Z) :
  Js.truthyOptStr skill = Js.truthyOptStr model →
  (Js.jsLength
     (ReactionHandler.formatResponseWithVerbosity responseText skill model
        metricsData explanation score "minimal")
   <= Js.jsLength
        (ReactionHandler.formatResponseWithVerbosity responseText skill model
           metricsData explanation score "medium"))%nat
  ∧ (Js.jsLength
       (ReactionHandler.formatResponseWithVerbosity responseText skill model
          metricsData explanation score "medium")
     <= Js.jsLength
          (ReactionHandler.formatResponseWithVerbosity responseText skill model
             metricsData explanation score "full"))%nat.
Proof.
  intros Hboth.
  destruct (verbosity_length_monotone responseText skill model metricsData
              explanation score) as (Hmedium & _ & Hfull).
  split; [exact Hmedium|]. apply Hfull.
  destruct (Js.truthyOptStr skill) eqn:Hskill; [by left | right].
  destruct model as [m|]; [|vm_compute; lia].
  simpl in Hboth. unfold Js.truthyStr in Hboth.
  symmetry in Hboth. apply negb_false_iff, String.eqb_eq in Hboth as ->.
  vm_compute. lia.
Qed.

Lemma verbosity_length_stored_witness :
  Js.truthyOptStr (Some "general") = Js.truthyOptStr (Some "Haiku (Fast)")
  ∧ (Js.jsLength
       (ReactionHandler.formatResponseWithVerbosity "4" (Some "general")
          (Some "Haiku (Fast)") None None (Some 0%Z) "minimal")
     <= Js.jsLength
          (ReactionHandler.formatResponseWithVerbosity "4" (Some "general")
             (Some "Haiku (Fast)") None None (Some 0%Z) "medium"))%nat
  ∧ (Js.jsLength
       (ReactionHandler.formatResponseWithVerbosity "4" (Some "general")
          (Some "Haiku (Fast)") None None (Some 0%Z) "medium")
     <= Js.jsLength
          (ReactionHandler.formatResponseWithVerbosity "4" (Some "general")
             (Some "Haiku (Fast)") None None (Some 0%Z) "full"))%nat.
Proof.
  split; [reflexivity|].
  exact (verbosity_length_stored "4" (Some "general") (Some "Haiku (Fast)")
           None None (Some 0%Z) eq_refl).
Defined.

(** The function alone, outside the records that are stored: with a
    model and no skill the medium header is written and the full header
    is not, so a long model name makes the medium rendering the longer
    one. *)
Example verbosity_length_model_only :
  (Js.jsLength
     (ReactionHandler.formatResponseWithVerbosity "ok" None
        (Some Samples.longModelName) None None None "full")
   < Js.jsLength
       (ReactionHandler.formatResponseWithVerbosity "ok" None
          (Some Samples.longModelName) None None None "medium"))%nat.
Proof. apply Nat.ltb_lt. vm_compute. reflexivity. Qed.

Example verbosity_lengths_sample :
  map (fun v =>
         Js.jsLength
           (ReactionHandler.formatResponseWithVerbosity "4" (Some "general")
              (Some "claude-haiku-4-20250514") None None (Some 0%Z) v))
    ["minimal"; "medium"; "full"]
  = [1; 38; 126]%nat.
Proof. vm_compute. reflexivity. Qed.

Lemma verbosity_reaction_idempotent_witness :
  ReactionHandler.new_reaction (Samples.reactionOn55 EmojiMappings.VERBOSITY_MINIMAL)
    = Some {| ReactionHandler.rt_type := "emoji";
              ReactionHandler.rt_emoji := EmojiMappings.VERBOSITY_MINIMAL |}
  ∧ EmojiMappings.isVerbosityEmoji EmojiMappings.VERBOSITY_MINIMAL = true
  ∧ ∀ before,
      ReactionHandler.shownText (Js.KNum 55) before
        ((ReactionHandler.handleReaction
            (Samples.reactionOn55 EmojiMappings.VERBOSITY_MINIMAL) 2000
            Samples.answerStore).2
         ++ (ReactionHandler.handleReaction
               (Samples.reactionOn55 EmojiMappings.VERBOSITY_MINIMAL) 3000
               (ReactionHandler.handleReaction
                  (Samples.reactionOn55 EmojiMappings.VERBOSITY_MINIMAL) 2000
                  Samples.answerStore).1).2)
      = ReactionHandler.shownText (Js.KNum 55) before
          (ReactionHandler.handleReaction
             (Samples.reactionOn55 EmojiMappings.VERBOSITY_MINIMAL) 2000
             Samples.answerStore).2.
Proof.
  split; [reflexivity|]. split; [reflexivity|].
  exact (proj1 (verbosity_reaction_idempotent
    (Samples.reactionOn55 EmojiMappings.VERBOSITY_MINIMAL)
    EmojiMappings.VERBOSITY_MINIMAL 2000 3000 Samples.answerStore eq_refl eq_refl)).
Defined.

(** The scenario of the specification: a record at verbosity medium
    and a minimal-symbol event. *)
Example minimal_reaction_scenario :
  (ReactionHandler.handleReaction
     (Samples.reactionOn55 EmojiMappings.VERBOSITY_MINIMAL) 2000
     Samples.answerStore).2
  = [ ReactionHandler.EditMessageText (Some 5%Z) (Js.KNum 55) "4";
      ReactionHandler.SetMessageReaction (Some 5%Z) (Js.KNum 55)
        [EmojiMappings.VERBOSITY_MEDIUM; EmojiMappings.VERBOSITY_FULL] ]
  ∧ MetadataStore.verbosity
      <$> ((ReactionHandler.handleReaction
              (Samples.reactionOn55 EmojiMappings.VERBOSITY_MINIMAL) 2000
              Samples.answerStore).1 !! "55")
    = Some (Some "minimal").
Proof. split; vm_compute; reflexivity. Qed.

(** C4 at a numeric user id.  The map holds one session under the
    user id 42, a number, as [setSession] receives it from the message
    handler.  Saving writes it under the property name "42"; the reload
    files it under the string "42".  A lookup with the user id 42 finds
    the session before the round trip and nothing after it; the saved
    history and counter sit under the string key. *)
Theorem session_roundtrip_numeric_id :
  SessionStore.getSession (Js.KNum 42) [(Js.KNum 42, Samples.oneExchange)]
    = Some Samples.oneExchange
  ∧ SessionStore.getSession (Js.KNum 42)
      (SessionStore.loadSessions "2026-01-02T00:00:00.000Z"
         (SessionStore.saveSessions [(Js.KNum 42, Samples.oneExchange)]
            Samples.emptyDisk))
    = None
  ∧ SessionStore.getSession (Js.KStr "42")
      (SessionStore.loadSessions "2026-01-02T00:00:00.000Z"
         (SessionStore.saveSessions [(Js.KNum 42, Samples.oneExchange)]
            Samples.emptyDisk))
    = Some Samples.oneExchange.
Proof. repeat split. Qed.

(* ===================================================================== *)
(** * Further properties of the sources                                  *)
(* ===================================================================== *)

(** ** Intent classifier and prompt builder *)

Section RouterMoreFacts.
Import Js SkillRouter.
Local Open Scope Q_scope.

Lemma startsWith_refl s : startsWith s s = true.
Proof. induction s as [|c s IH]; simpl; [done|]. by rewrite Ascii.eqb_refl. Qed.

Lemma includes_refl s : includes s s = true.
Proof. apply startsWith_includes, startsWith_refl. Qed.

Lemma includes_app_r p s : ∀ t, includes t p = true → includes (t +:+ s) p = true.
Proof. intros t. apply includes_app_l. Qed.

Lemma includes_app_after p t : ∀ s, includes t p = true → includes (s +:+ t) p = true.
Proof.
  induction s as [|c s IH]; intros H; [done|].
  change (startsWith (String c s +:+ t) p || includes (s +:+ t) p = true).
  rewrite (IH H). apply orb_true_r.
Qed.

Lemma append_assoc (a b c : string) : (a +:+ b) +:+ c = a +:+ (b +:+ c).
Proof.
  induction a as [|x a IH]; [done|].
  change (String x ((a +:+ b) +:+ c) = String x (a +:+ (b +:+ c))). by rewrite IH.
Qed.

Lemma startsWith_app_cancel a x y : startsWith (a +:+ x) (a +:+ y) = startsWith x y.
Proof.
  induction a as [|c a IH]; [done|].
  change (startsWith (String c (a +:+ x)) (String c (a +:+ y)) = startsWith x y).
  simpl. by rewrite Ascii.eqb_refl.
Qed.

Lemma matchCount_le lower kws : (matchCount lower kws <= length kws)%nat.
Proof. unfold matchCount. apply length_filter. Qed.

Lemma skills_keyword_counts :
  Forall (fun e => (length (keywords e.2) <= 6)%nat) skills.
Proof. repeat constructor. Qed.

(** X1.  [detectSkill] always answers with a skill identifier: the
    default ['general'] or an identifier of the registration table, and
    a confidence between 0 and 9. *)
Theorem detectSkill_result_domain (message : string) :
  ∃ id,
    skill (detectSkill message) = Some id
    ∧ (id = "general" ∨ id ∈ skills.*1)
    ∧ 0 <= confidence (detectSkill message)
    ∧ confidence (detectSkill message) <= 9.
Proof.
  unfold detectSkill.
  destruct (detectSkillIn_highest skills message)
    as [[_ ->] | (i & id & s & Hi & -> & Hpos & _)]; simpl.
  - exists "general". repeat split; [by left | done | done].
  - exists id. split; [done|].
    unfold scoreTable in Hi. rewrite list_lookup_fmap in Hi.
    destruct (skills !! i) as [e|] eqn:He; [|done].
    simpl in Hi. injection Hi as <- <-.
    apply list_elem_of_lookup_2 in He.
    split; [right; change (e.1 ∈ fst <$> skills); apply list_elem_of_fmap; eauto|].
    split; [apply skillScore_nonneg|].
    pose proof skills_keywords_lowercase as Hlow.
    rewrite Forall_forall in Hlow. specialize (Hlow e He).
    pose proof skills_keyword_counts as Hlen.
    rewrite Forall_forall in Hlen. specialize (Hlen e He). simpl in Hlen.
    rewrite (skillScore_count _ _ Hlow).
    pose proof (matchCount_le (toLowerCase message) (keywords e.2)) as Hcount.
    unfold Qle, Qmult, inject_Z. simpl. lia.
Qed.

Lemma lookupSkill_registered :
  Forall (fun e => lookupSkill e.1 = OwnSkill e.2) skills.
Proof. repeat constructor. Qed.

Lemma lookupSkill_general : lookupSkill "general" = NoSkill.
Proof. reflexivity. Qed.

(** The prompt built for a registered skill opens with the skill's
    role statement and the task line. *)
Lemma buildSkillPrompt_own skillId userMessage config :
  lookupSkill skillId = OwnSkill config →
  startsWith (buildSkillPrompt skillId userMessage)
    ("You are a " +:+ name config +:+ " specialist." +:+ nl +:+ nl
     +:+ "Task: " +:+ userMessage) = true.
Proof.
  intros Hown. unfold buildSkillPrompt. rewrite Hown.
  rewrite !append_assoc, !startsWith_app_cancel.
  apply startsWith_app_l, startsWith_refl.
Qed.

(** X2.  The prompt builder never drops the request: whatever the
    skill identifier, the prompt contains the user's text; and for an
    identifier that names neither a registered skill nor an inherited
    member the prompt is the text itself. *)
Theorem buildSkillPrompt_keeps_message (skillId userMessage : string) :
  includes (buildSkillPrompt skillId userMessage) userMessage = true
  ∧ match lookupSkill skillId with
    | NoSkill => buildSkillPrompt skillId userMessage = userMessage
    | OwnSkill config =>
        startsWith (buildSkillPrompt skillId userMessage)
          ("You are a " +:+ name config +:+ " specialist." +:+ nl +:+ nl
           +:+ "Task: " +:+ userMessage) = true
    | InheritedMember _ => True
    end.
Proof.
  assert (Hwrap : ∀ role tail1 tail2,
    includes ((((("You are a " +:+ role +:+ " specialist." +:+ nl +:+ nl)
                 +:+ "Task: " +:+ userMessage +:+ nl +:+ nl) +:+ tail1) +:+ tail2))
      userMessage = true).
  { intros role tail1 tail2. apply includes_app_l, includes_app_l.
    apply includes_app_after, includes_app_after.
    apply includes_app_l, includes_refl. }
  unfold buildSkillPrompt. destruct (lookupSkill skillId) as [config|member|].
  - split; [apply Hwrap|].
    rewrite !append_assoc, !startsWith_app_cancel.
    apply startsWith_app_l, startsWith_refl.
  - split; [apply Hwrap | done].
  - split; [apply includes_refl | done].
Qed.

End RouterMoreFacts.

Section RouterCompositionFacts.
Import Js SkillRouter.
Local Open Scope Q_scope.

(** X3.  The classifier feeds the prompt builder safely: a request
    without any keyword match is handed on unchanged, and a request
    with a match is wrapped in the role statement of a registered
    skill. *)
Theorem detectSkill_buildSkillPrompt (message : string) :
  ∃ id,
    skill (detectSkill message) = Some id
    ∧ (confidence (detectSkill message) == 0 →
       buildSkillPrompt id message = message)
    ∧ (¬ confidence (detectSkill message) == 0 →
       ∃ config,
         (id, config) ∈ skills
         ∧ startsWith (buildSkillPrompt id message)
             ("You are a " +:+ name config +:+ " specialist." +:+ nl +:+ nl
              +:+ "Task: " +:+ message) = true).
Proof.
  unfold detectSkill.
  destruct (detectSkillIn_highest skills message)
    as [[_ ->] | (i & id & s & Hi & -> & Hpos & _)]; simpl.
  - exists "general". split; [done|]. split; [done|]. intros Hne. by destruct Hne.
  - exists id. split; [done|].
    split; [intros Hzero; rewrite Hzero in Hpos; by apply Qlt_irrefl in Hpos|].
    intros _.
    unfold scoreTable in Hi. rewrite list_lookup_fmap in Hi.
    destruct (skills !! i) as [[id' config]|] eqn:He; [|done].
    simpl in Hi. injection Hi as <- _.
    apply list_elem_of_lookup_2 in He. exists config. split; [done|].
    pose proof lookupSkill_registered as Hreg.
    rewrite Forall_forall in Hreg. specialize (Hreg _ He). simpl in Hreg.
    by apply buildSkillPrompt_own.
Qed.

(** [getModelPreference]: a truthy override is returned as it is;
    without one, a registered skill gets a model of its own list, an
    unknown task gets ['fast'], and a task named like a member of
    [Object.prototype] raises a [TypeError]. *)
Theorem getModelPreference_cases (task : string) (forceModel : option string) :
  (truthyOptStr forceModel = true →
   ∃ f, forceModel = Some f ∧ getModelPreference task forceModel = Returned f)
  ∧ (truthyOptStr forceModel = false →
     match lookupSkill task with
     | OwnSkill config =>
         ∃ m, getModelPreference task forceModel = Returned m ∧ m ∈ models config
     | InheritedMember _ => getModelPreference task forceModel = TypeError
     | NoSkill => getModelPreference task forceModel = Returned "fast"
     end).
Proof.
  unfold getModelPreference. split.
  - intros Hforce. rewrite Hforce. destruct forceModel as [f|]; [eauto | done].
  - intros Hforce. rewrite Hforce. unfold lookupSkill. unfold skills.
    cbn [find fst snd].
    repeat match goal with
    | |- context [String.eqb ?a task] =>
        destruct (String.eqb_spec a task) as [<- | ?];
          [simpl; eexists; split; [reflexivity | set_solver] |]
    end.
    destruct (protoMember task); [done|].
    repeat match goal with
    | H : ?a ≠ task |- context [String.eqb task ?a] =>
        rewrite (proj2 (String.eqb_neq task a)) by congruence
    end.
    done.
Qed.

End RouterCompositionFacts.

(** ** Tier selector *)

Section PickerMoreFacts.
Import Js ModelPicker.
Local Open Scope Z_scope.

Lemma weight_bounds b w : 0 <= w → 0 <= weight b w <= w.
Proof. intros Hw. destruct b; simpl; lia. Qed.

(** X4.  The complexity score of every text lies between 0 and 22. *)
Theorem analyzeTaskComplexity_bounds (message : string) (context : context) :
  0 <= analyzeTaskComplexity message context <= 22.
Proof.
  rewrite analyzeTaskComplexity_additive. unfold additiveScore. cbv zeta.
  repeat match goal with
  | |- context [weight ?b ?w] =>
      let H := fresh "Hw" in
      pose proof (weight_bounds b w ltac:(lia)) as H;
      generalize dependent (weight b w); intros
  end.
  lia.
Qed.

(** X5.  Without an override, appending high-complexity indicator
    phrases never moves a request from the deep tier back to the fast
    tier. *)
Theorem chooseModel_never_downgraded
    (message : string) (context : context) (phrases : list string) :
  forceModel context = None →
  Forall (fun w => w ∈ indicatorExtensions) phrases →
  chooseModel message context = smart →
  chooseModel (fold_left String.append phrases message) context = smart.
Proof.
  intros Hnone Hall. unfold chooseModel, forced. rewrite Hnone.
  pose proof (analyzeTaskComplexity_extends message _ context
                (extends_append_all phrases message Hall)) as Hmono.
  destruct (Z.leb_spec 3 (analyzeTaskComplexity message context)); [|discriminate].
  intros _.
  destruct (Z.leb_spec 3 (analyzeTaskComplexity
                            (fold_left String.append phrases message) context));
    [done | lia].
Qed.

Lemma analyzeTaskComplexity_shallow message context :
  deepConversation context = false →
  analyzeTaskComplexity message context = analyzeTaskComplexity message noContext.
Proof.
  intros Hshallow. rewrite !analyzeTaskComplexity_additive. unfold additiveScore.
  cbv zeta. by rewrite Hshallow.
Qed.

(** X6.  When the context carries no override and no more than three
    turns, the reason reported by [explainChoice] agrees with the tier
    [chooseModel] picked and the reported complexity is the score that
    decided it.  The explanation built from a model name, as
    [orchestrate] builds it, has no [chosen] entry. *)
Theorem explainChoice_agrees
    (message : string) (context : context) (chosen : chosenModel) :
  forceModel context = None →
  deepConversation context = false →
  e_complexity (explainChoice message chosen) = analyzeTaskComplexity message context
  ∧ (e_reason (explainChoice message chosen)
       = "Task requires deep analysis and reasoning"
     ↔ chooseModel message context = smart)
  ∧ (e_reason (explainChoice message chosen)
       = "Quick response sufficient for this task"
     ↔ chooseModel message context = fast)
  ∧ ∀ modelName, e_chosen (explainChoice message (ChosenName modelName)) = None.
Proof.
  intros Hnone Hshallow. unfold explainChoice, chooseModel, forced. simpl.
  rewrite Hnone, (analyzeTaskComplexity_shallow _ _ Hshallow).
  split; [done|]. pose proof fast_ne_smart as Hne.
  destruct (3 <=? analyzeTaskComplexity message noContext);
    repeat split; intros; try done; congruence.
Qed.

End PickerMoreFacts.

(** ** Metrics collector *)

Section MetricsMoreFacts.
Import Js Metrics.
Local Open Scope Z_scope.

Lemma setTiming_setTiming_eq t event v w :
  setTiming (setTiming t event v) event w = setTiming t event w.
Proof. by destruct event. Qed.

Lemma setTiming_commute t event event' v w :
  event ≠ event' →
  setTiming (setTiming t event v) event' w = setTiming (setTiming t event' w) event v.
Proof. intros Hne. by destruct event, event'. Qed.

(** [mark] records the reading under the named checkpoint and
    leaves every other checkpoint alone; marking again overwrites;
    marks of different checkpoints can be swapped; and a name that is
    not a checkpoint changes nothing. *)
Theorem mark_records (event : string) (now later : Z) (c : collector) :
  match checkpointOfString event with
  | Some cp =>
      getTiming (c_timings (mark event now c)) cp = Some now
      ∧ (∀ cp', cp' ≠ cp →
           getTiming (c_timings (mark event now c)) cp' = getTiming (c_timings c) cp')
      ∧ mark event later (mark event now c) = mark event later c
      ∧ (∀ event', checkpointOfString event' ≠ Some cp →
           mark event' later (mark event now c) = mark event now (mark event' later c))
  | None => mark event now c = c
  end.
Proof.
  unfold mark. destruct (checkpointOfString event) as [cp|] eqn:Hcp; [|done].
  simpl. split; [apply getTiming_setTiming_eq|].
  split; [intros cp' Hne; by apply getTiming_setTiming_ne|].
  split; [by rewrite setTiming_setTiming_eq|].
  intros event' Hne. destruct (checkpointOfString event') as [cp'|]; simpl; [|done].
  rewrite (setTiming_commute _ cp cp'); [done | congruence].
Qed.

(** X7.  Every collector obtained from [new MetricsCollector] by any
    sequence of [mark] calls is well formed when the clock reads
    positive times: the first checkpoint is marked and no checkpoint
    holds 0. *)
Theorem collector_always_wellFormed
    (messageId : key) (userMessage : string) (start : Z) (marks : list (string * Z)) :
  0 < start →
  Forall (fun m => 0 < m.2) marks →
  wellFormed
    (fold_left (fun c m => mark m.1 m.2 c) marks
       (newCollector messageId userMessage start)).
Proof.
  intros Hstart Hmarks.
  pose proof (newCollector_wellFormed messageId userMessage start Hstart) as Hwf.
  revert Hwf. generalize (newCollector messageId userMessage start).
  induction Hmarks as [|m marks Hm _ IH]; intros c Hwf; simpl; [done|].
  by apply IH, mark_wellFormed.
Qed.

(** X8.  The aggregate [orchestrator] of a well-formed collector is
    absent when [apiCallEnd] was not marked, the span from
    [orchestratorStart] to [apiCallEnd] when both were marked, and the
    [apiCallEnd] timestamp itself when only [orchestratorStart] is
    missing. *)
Theorem getBreakdown_orchestrator (c : collector) (now : Z) :
  wellFormed c →
  b_orchestrator (getBreakdown c now)
  = match t_apiCallEnd (c_timings c), t_orchestratorStart (c_timings c) with
    | None, _ => None
    | Some finish, Some begin => Some (finish - begin)
    | Some finish, None => Some finish
    end.
Proof.
  intros [_ Hnonzero]. simpl.
  pose proof (Hnonzero apiCallEnd) as Hend. simpl in Hend.
  destruct (t_apiCallEnd (c_timings c)) as [finish|]; [|done].
  simpl. unfold truthyNum. destruct (Z.eqb_spec finish 0); [congruence|].
  simpl. destruct (t_orchestratorStart (c_timings c)); simpl; f_equal; lia.
Qed.

(** Once [responseSent] is marked the breakdown no longer
    depends on the clock. *)
Theorem getBreakdown_complete (c : collector) (now now' : Z) :
  isComplete c = true → getBreakdown c now = getBreakdown c now'.
Proof. unfold isComplete, getBreakdown. intros Hdone. by rewrite Hdone. Qed.

End MetricsMoreFacts.

(** ** Message metadata store *)

Section MetadataStoreMoreFacts.
Import Js MetadataStore.
Local Open Scope Z_scope.


Lemma cleanup_lookup_store olderThanMs now (messages : gmap string metadata) k :
  (cleanup olderThanMs now messages).2 !! k
  = match messages !! k with
    | Some record =>
        if stale now
             match olderThanMs with
             | Some t => if truthyNum t then t else defaultRetentionMs
             | None => defaultRetentionMs
             end record
        then None else Some record
    | None => None
    end.
Proof.
  unfold cleanup. simpl. rewrite map_lookup_filter.
  destruct (messages !! k) as [record|]; simpl; [|done].
  destruct (stale now _ record); by case_guard.
Qed.

(** X10.  After [cleanup] every remaining record was in the store
    before and is not expired, so a [get] at that time evicts nothing;
    the count returned is the number of records removed; and a second
    sweep at the same time removes nothing. *)
Theorem cleanup_leaves_live_records
    (olderThanMs : option Z) (now : Z) (messages : gmap string metadata) :
  (∀ k record,
     (cleanup olderThanMs now messages).2 !! k = Some record →
     messages !! k = Some record ∧ expiredAt now record = false)
  ∧ (∀ messageId,
       get messageId now (cleanup olderThanMs now messages).2
       = ((cleanup olderThanMs now messages).2 !! keyToString messageId,
          (cleanup olderThanMs now messages).2))
  ∧ ((cleanup olderThanMs now messages).1
     + size (cleanup olderThanMs now messages).2 = size messages)%nat
  ∧ cleanup olderThanMs now (cleanup olderThanMs now messages).2
    = (0%nat, (cleanup olderThanMs now messages).2).
Proof.
  assert (Hlive : ∀ k record,
    (cleanup olderThanMs now messages).2 !! k = Some record →
    messages !! k = Some record
    ∧ stale now match olderThanMs with
                | Some t => if truthyNum t then t else defaultRetentionMs
                | None => defaultRetentionMs
                end record = false).
  { intros k record. rewrite cleanup_lookup_store.
    destruct (messages !! k) as [r|]; [|done].
    destruct (stale now _ r) eqn:Hstale; [done|]. by intros [= <-]. }
  split; [|split; [|split]].
  - intros k record Hk. destruct (Hlive k record Hk) as [Hin Hstale].
    split; [done|]. unfold stale in Hstale. by apply orb_false_iff in Hstale as [_ ?].
  - intros messageId. unfold get.
    destruct ((cleanup olderThanMs now messages).2 !! keyToString messageId)
      as [record|] eqn:Hk; [|done].
    destruct (Hlive _ _ Hk) as [_ Hstale]. unfold stale in Hstale.
    apply orb_false_iff in Hstale as [_ ->]. done.
  - unfold cleanup. simpl.
    match goal with
    | |- context [size (filter ?P messages)] =>
        assert (Hsize : (size (filter P messages) <= size messages)%nat)
          by apply map_size_filter
    end.
    lia.
  - assert (Hsame : (cleanup olderThanMs now (cleanup olderThanMs now messages).2).2
                    = (cleanup olderThanMs now messages).2).
    { apply map_eq. intros k. rewrite cleanup_lookup_store.
      destruct ((cleanup olderThanMs now messages).2 !! k) as [record|] eqn:Hk;
        [|done].
      destruct (Hlive _ _ Hk) as [_ ->]. done. }
    unfold cleanup at 1. simpl. unfold cleanup at 1 in Hsame. simpl in Hsame.
    rewrite Hsame. f_equal. lia.
Qed.

(** The statistics add up: the active and the expired records
    together are all the records of the store. *)
Theorem getStats_total (now : Z) (messages : gmap string metadata) :
  total (getStats now messages)
  = (active (getStats now messages) + expired (getStats now messages))%nat.
Proof.
  unfold getStats. simpl.
  apply (map_fold_weak_ind
    (fun (counts : nat * nat) (m : gmap string metadata) =>
       size m = (counts.1 + counts.2)%nat)).
  - by rewrite map_size_empty.
  - intros k record m counts Hfresh IH.
    rewrite (map_size_insert_None _ _ _ Hfresh), IH.
    destruct (expiredAt now record); simpl; lia.
Qed.

(** X11.  Ids are compared after conversion to a string: a record
    stored under one id is found under every id with the same string
    form, such as the number 5 and the string "5"; and storing again
    under such an id replaces the record. *)
Theorem store_get_same_string
    (stored asked : key) (md md' : metadata) (c e c' e' now : Z)
    (messages : gmap string metadata) :
  truthyKey stored = true →
  truthyKey asked = true →
  keyToString stored = keyToString asked →
  now <= e + retentionOf md →
  get asked now (store stored md c e messages).2
    = (Some (withTimestamps md (Some c) (Some (e + retentionOf md))),
       (store stored md c e messages).2)
  ∧ (store asked md' c' e' (store stored md c e messages).2).2
    = (store asked md' c' e' messages).2.
Proof.
  intros Hstored Hasked Hsame Hnow. unfold store. rewrite Hstored, Hasked. simpl.
  rewrite Hsame. split.
  - apply (get_live _ _ _ _ (lookup_insert_eq _ _ _)). simpl. apply Z.ltb_ge. lia.
  - apply insert_insert_eq.
Qed.

(** X12.  The sweep applies its own horizon: a record whose retention
    is longer than the horizon is removed by [cleanup] once it is older
    than the horizon, although a [get] at that time still returns it. *)
Theorem cleanup_evicts_before_expiry
    (messageId : key) (md : metadata) (created now : Z)
    (messages : gmap string metadata) :
  truthyKey messageId = true →
  defaultRetentionMs < now - created →
  now <= created + retentionOf md →
  (get messageId now (store messageId md created created messages).2).1
    = Some (withTimestamps md (Some created) (Some (created + retentionOf md)))
  ∧ (cleanup None now (store messageId md created created messages).2).2
      !! keyToString messageId = None.
Proof.
  intros Hid Hold Hlive.
  assert (Hstore : (store messageId md created created messages).2
                   = <[keyToString messageId :=
                         withTimestamps md (Some created)
                           (Some (created + retentionOf md))]> messages)
    by (unfold store; by rewrite Hid).
  rewrite Hstore. split.
  - rewrite (get_live _ _ _ _ (lookup_insert_eq _ _ _)); [done|].
    simpl. apply Z.ltb_ge. lia.
  - rewrite cleanup_lookup_store, lookup_insert_eq. unfold stale. simpl.
    destruct (Z.ltb_spec defaultRetentionMs (now - created)); [done | lia].
Qed.

End MetadataStoreMoreFacts.

(** ** Reaction controller *)

Section ReactionMoreFacts.
Import Js EmojiMappings MetadataStore ReactionHandler.
Local Open Scope Z_scope.

Lemma update_frame messageId updates (messages : gmap string metadata) k :
  k ≠ keyToString messageId →
  (update messageId updates messages).2 !! k = messages !! k.
Proof.
  intros Hk. unfold update.
  destruct (messages !! keyToString messageId); [|done].
  by apply lookup_insert_ne.
Qed.

Lemma get_frame messageId now (messages : gmap string metadata) k :
  k ≠ keyToString messageId →
  (get messageId now messages).2 !! k = messages !! k.
Proof.
  intros Hk. unfold get.
  destruct (messages !! keyToString messageId) as [record|]; [|done].
  destruct (expiredAt now record); [|done]. by apply lookup_delete_ne.
Qed.

Lemma handleReaction_dispatch r t (messages : gmap string metadata) :
  handleReaction r t messages
  = match new_reaction r with
    | Some ty =>
        if String.eqb (rt_type ty) "emoji" && truthyStr (rt_emoji ty)
        then
          match messages !! keyToString (message_id r) with
          | Some md =>
              if expiredAt t md
              then (delete (keyToString (message_id r)) messages, [])
              else dispatch (rt_emoji ty) (message_id r) md messages
          | None => (messages, [])
          end
        else (messages, [])
    | None => (messages, [])
    end.
Proof.
  unfold handleReaction, dispatch, get.
  destruct (new_reaction r) as [ty|]; [|done].
  destruct (String.eqb (rt_type ty) "emoji"); [|done]. simpl.
  destruct (truthyStr (rt_emoji ty)); [|done]. simpl.
  destruct (messages !! keyToString (message_id r)) as [md|]; [|done].
  by destruct (expiredAt t md).
Qed.

(** What any branch does to the store: nothing, or one [update] of
    the record of the message. *)
Lemma dispatch_store emoji messageId md (messages : gmap string metadata) :
  (dispatch emoji messageId md messages).1 = messages
  ∨ ∃ updates,
      (dispatch emoji messageId md messages).1
      = (update messageId updates messages).2
      ∧ createdAt updates = None ∧ expiresAt updates = None
      ∧ chatId updates = None ∧ originalMessage updates = None
      ∧ originalResponse updates = None ∧ responseText updates = None
      ∧ skill updates = None ∧ model updates = None ∧ metrics updates = None
      ∧ (isVerbosityEmoji emoji = false → verbosity updates = None).
Proof.
  unfold dispatch. destruct (isVerbosityEmoji emoji) eqn:Hverb.
  - unfold changeVerbosity. destruct (getVerbosityFromEmoji emoji) as [v|]; [|by left].
    right. exists (verbosityUpdate v). by repeat split.
  - destruct (String.eqb emoji ACTION_RETRY_SMART).
    { unfold retryWithSmartModel. destruct (_ && _); [by left|].
      right. exists retryUpdate. by repeat split. }
    destruct (String.eqb emoji ACTION_EXPLAIN); [by left|].
    destruct (String.eqb emoji ACTION_METRICS); [by left|].
    destruct (_ || _); [|by left].
    right. exists (feedbackUpdate emoji). by repeat split.
Qed.

(** X13.  A reaction touches at most the record of its own message:
    every other entry of the store is as before. *)
Theorem handleReaction_frame (r : reaction) (t : Z)
    (messages : gmap string metadata) (k : string) :
  k ≠ keyToString (message_id r) →
  (handleReaction r t messages).1 !! k = messages !! k.
Proof.
  intros Hk. rewrite handleReaction_dispatch.
  destruct (new_reaction r) as [ty|]; [|done].
  destruct (_ && _); [|done].
  destruct (messages !! keyToString (message_id r)) as [md|]; [|done].
  destruct (expiredAt t md); [by apply lookup_delete_ne|].
  destruct (dispatch_store (rt_emoji ty) (message_id r) md messages)
    as [-> | (updates & -> & _)]; [done|].
  by apply update_frame.
Qed.

(** X14.  Whatever the event, the record of the message keeps its
    chat, texts, skill, model, metrics and timestamps, and it keeps its
    verbosity unless the symbol is a verbosity symbol; the record
    disappears only when it has expired. *)
Theorem handleReaction_keeps_content (r : reaction) (t : Z)
    (messages : gmap string metadata) (md : metadata) :
  messages !! keyToString (message_id r) = Some md →
  match (handleReaction r t messages).1 !! keyToString (message_id r) with
  | Some md' =>
      sameContent md md'
      ∧ ((∀ ty, new_reaction r = Some ty → isVerbosityEmoji (rt_emoji ty) = false) →
         verbosity md' = verbosity md)
  | None => expiredAt t md = true
  end.
Proof.
  intros Hmd. rewrite handleReaction_dispatch.
  assert (Hsame : sameContent md md ∧ (True → verbosity md = verbosity md))
    by (by repeat split).
  destruct (new_reaction r) as [ty|]; [|cbn [fst]; rewrite Hmd; by destruct Hsame].
  destruct (_ && _); [|cbn [fst]; rewrite Hmd; by destruct Hsame].
  rewrite Hmd.
  destruct (expiredAt t md) eqn:Hlive; [cbn [fst]; by rewrite lookup_delete_eq|].
  destruct (dispatch_store (rt_emoji ty) (message_id r) md messages)
    as [-> | (u & -> & Hc & He & Hchat & Hmsg & Horig & Htext & Hskill & Hmodel
              & Hmetrics & Hverb)].
  { rewrite Hmd. by destruct Hsame. }
  unfold update. rewrite Hmd. cbn [snd]. rewrite lookup_insert_eq.
  unfold sameContent. simpl.
  rewrite Hchat, Hmsg, Horig, Htext, Hskill, Hmodel, Hmetrics. simpl.
  split; [by repeat split|].
  intros Hnot. by rewrite (Hverb (Hnot ty eq_refl)).
Qed.

Lemma action_emoji_cases e :
  String.eqb e ACTION_RETRY_SMART || String.eqb e ACTION_EXPLAIN
  || String.eqb e ACTION_METRICS || String.eqb e ACTION_YES || String.eqb e ACTION_NO
  = true → isActionEmoji e = true.
Proof.
  unfold isActionEmoji. simpl. intros H.
  repeat (apply orb_true_iff in H as [H | H]); rewrite H; by rewrite ?orb_true_r.
Qed.

(** The handler calls the transport only for an emoji event
    with a verbosity or action symbol on a message whose record is
    stored and live; every call addresses the chat of that record; and
    an already sent message is edited only for a verbosity symbol. *)
Theorem handleReaction_calls (r : reaction) (t : Z)
    (messages : gmap string metadata) :
  (handleReaction r t messages).2 ≠ [] →
  ∃ ty md,
    new_reaction r = Some ty
    ∧ rt_type ty = "emoji"
    ∧ (isVerbosityEmoji (rt_emoji ty) = true ∨ isActionEmoji (rt_emoji ty) = true)
    ∧ messages !! keyToString (message_id r) = Some md
    ∧ expiredAt t md = false
    ∧ Forall (fun op => opChat op = chatId md) (handleReaction r t messages).2
    ∧ (existsb isEdit (handleReaction r t messages).2 = true →
       isVerbosityEmoji (rt_emoji ty) = true).
Proof.
  rewrite handleReaction_dispatch. intros Hops.
  destruct (new_reaction r) as [ty|]; [|done].
  destruct (String.eqb_spec (rt_type ty) "emoji") as [Htype|]; [|done]. simpl in *.
  destruct (truthyStr (rt_emoji ty)); [|done].
  destruct (messages !! keyToString (message_id r)) as [md|] eqn:Hmd; [|done].
  destruct (expiredAt t md) eqn:Hlive; [done|].
  exists ty, md. do 2 (split; [done|]).
  revert Hops. unfold dispatch.
  destruct (isVerbosityEmoji (rt_emoji ty)) eqn:Hverb.
  { unfold changeVerbosity.
    destruct (getVerbosityFromEmoji (rt_emoji ty)); [|done]. intros _. simpl.
    split; [by left|]. do 2 (split; [done|]). split; [by repeat constructor | done]. }
  destruct (String.eqb (rt_emoji ty) ACTION_RETRY_SMART) eqn:H1.
  { intros _. split; [right; apply action_emoji_cases; by rewrite H1|].
    do 2 (split; [done|]). unfold retryWithSmartModel.
    destruct (_ && _); simpl; (split; [by repeat constructor | done]). }
  destruct (String.eqb (rt_emoji ty) ACTION_EXPLAIN) eqn:H2.
  { intros _. split; [right; apply action_emoji_cases; by rewrite H1, H2|].
    do 2 (split; [done|]). simpl. split; [by repeat constructor | done]. }
  destruct (String.eqb (rt_emoji ty) ACTION_METRICS) eqn:H3.
  { intros _. split; [right; apply action_emoji_cases; by rewrite H1, H2, H3|].
    do 2 (split; [done|]). simpl. split; [by repeat constructor | done]. }
  destruct (_ || _) eqn:H4; [|done].
  intros _. split.
  { right. apply action_emoji_cases. rewrite H1, H2, H3. simpl. exact H4. }
  do 2 (split; [done|]). unfold handleUserFeedback.
  destruct (String.eqb _ ACTION_YES); simpl; (split; [by repeat constructor | done]).
Qed.


End ReactionMoreFacts.

(** ** Rendering and emoji tables *)

Section RenderingMoreFacts.
Import Js EmojiMappings MetadataStore ReactionHandler.

(** X16.  Every rendering contains the response text as it is; and at
    any verbosity other than ['full'] and ['medium'] the rendering is
    the response text alone. *)
Theorem formatResponse_contains_response
    (responseText : string) (skill model : option string)
    (metricsData : option Metrics.breakdown)
    (explanation : option explanation) (score : option Z) (verbosity : string) :
  includes
    (formatResponseWithVerbosity responseText skill model metricsData
       explanation score verbosity)
    responseText = true
  ∧ (verbosity ≠ "full" → verbosity ≠ "medium" →
     formatResponseWithVerbosity responseText skill model metricsData
       explanation score verbosity = responseText).
Proof.
  unfold formatResponseWithVerbosity. cbv zeta. split.
  - assert (Hin : ∀ before after,
      includes ((before +:+ responseText) +:+ after) responseText = true).
    { intros before after. apply includes_app_l, includes_app_after, includes_refl. }
    assert (Hin' : ∀ before, includes (before +:+ responseText) responseText = true).
    { intros before. apply includes_app_after, includes_refl. }
    destruct (String.eqb verbosity "full"); [apply Hin | apply Hin'].
  - intros Hfull Hmedium.
    rewrite (proj2 (String.eqb_neq verbosity "full") Hfull).
    rewrite (proj2 (String.eqb_neq verbosity "medium") Hmedium).
    simpl. by destruct metricsData.
Qed.

(** The reactions offered after a verbosity change are the two
    other verbosity symbols: the symbol of the current level is not
    among them, and each offered symbol names a different level. *)
Theorem getReactionsForVerbosity_others (e v : string) :
  getVerbosityFromEmoji e = Some v →
  (e ∉ getReactionsForVerbosity v)
  ∧ length (getReactionsForVerbosity v) = 2%nat
  ∧ ∀ e', e' ∈ getReactionsForVerbosity v ↔
          (∃ v', getVerbosityFromEmoji e' = Some v' ∧ v' ≠ v).
Proof.
  unfold getVerbosityFromEmoji.
  destruct (String.eqb_spec e VERBOSITY_MINIMAL) as [-> | Hmin].
  { intros [= <-]. split; [by apply not_elem_of_cons; split; [|apply not_elem_of_cons; split; [|apply not_elem_of_nil]]|]. split; [done|].
    intros e'. unfold getReactionsForVerbosity. simpl. split.
    - intros He'. apply elem_of_cons in He' as [-> | He'];
        [exists "medium"; by split|].
      apply list_elem_of_singleton in He' as ->. exists "full". by split.
    - intros (v' & Hv' & Hne).
      destruct (String.eqb_spec e' VERBOSITY_MINIMAL) as [-> | ?];
        [congruence|].
      destruct (String.eqb_spec e' VERBOSITY_MEDIUM) as [-> | ?]; [set_solver|].
      destruct (String.eqb_spec e' VERBOSITY_FULL) as [-> | ?]; [set_solver | done]. }
  destruct (String.eqb_spec e VERBOSITY_MEDIUM) as [-> | Hmed].
  { intros [= <-]. split; [by apply not_elem_of_cons; split; [|apply not_elem_of_cons; split; [|apply not_elem_of_nil]]|]. split; [done|].
    intros e'. unfold getReactionsForVerbosity. simpl. split.
    - intros He'. apply elem_of_cons in He' as [-> | He'];
        [exists "minimal"; by split|].
      apply list_elem_of_singleton in He' as ->. exists "full". by split.
    - intros (v' & Hv' & Hne).
      destruct (String.eqb_spec e' VERBOSITY_MINIMAL) as [-> | ?]; [set_solver|].
      destruct (String.eqb_spec e' VERBOSITY_MEDIUM) as [-> | ?];
        [congruence|].
      destruct (String.eqb_spec e' VERBOSITY_FULL) as [-> | ?]; [set_solver | done]. }
  destruct (String.eqb_spec e VERBOSITY_FULL) as [-> | Hfull]; [|done].
  intros [= <-]. split; [by apply not_elem_of_cons; split; [|apply not_elem_of_cons; split; [|apply not_elem_of_nil]]|]. split; [done|].
  intros e'. unfold getReactionsForVerbosity. simpl. split.
  - intros He'. apply elem_of_cons in He' as [-> | He'];
      [exists "minimal"; by split|].
    apply list_elem_of_singleton in He' as ->. exists "medium". by split.
  - intros (v' & Hv' & Hne).
    destruct (String.eqb_spec e' VERBOSITY_MINIMAL) as [-> | ?]; [set_solver|].
    destruct (String.eqb_spec e' VERBOSITY_MEDIUM) as [-> | ?]; [set_solver|].
    destruct (String.eqb_spec e' VERBOSITY_FULL) as [-> | ?];
      [congruence | done].
Qed.

End RenderingMoreFacts.

(** ** Interactive prompts *)

Section PromptMoreFacts.
Import Js MetadataStore UserPromptHandler.
Local Open Scope Z_scope.

(** X17.  A reaction whose symbol is none of the prompt's options is
    ignored while the prompt is live: the answer is [null], neither map
    changes, and a later reaction with one of the options, still before
    the expiry, selects it. *)
Theorem wrong_symbol_keeps_prompt
    (messageId : key) (wrong right : string) (now later : Z) (h : handler)
    (p : promptData) (opt : promptOption) :
  pendingPrompts h !! keyToString messageId = Some p →
  now <= p_expiresAt p →
  later <= p_expiresAt p →
  find (fun o => String.eqb (MetadataStore.emoji o) wrong) (options p) = None →
  find (fun o => String.eqb (MetadataStore.emoji o) right) (options p) = Some opt →
  handleResponse messageId wrong now h = (None, h)
  ∧ (handleResponse messageId right later
       (handleResponse messageId wrong now h).2).1
    = Some {| s_question := question p; answer := label opt;
              s_action := action opt; s_context := context p |}.
Proof.
  intros Hp Hnow Hlater Hwrong Hright.
  assert (Hfirst : handleResponse messageId wrong now h = (None, h)).
  { unfold handleResponse. rewrite Hp.
    destruct (Z.ltb_spec (p_expiresAt p) now); [lia|]. by rewrite Hwrong. }
  split; [done|]. rewrite Hfirst. cbn [snd].
  by rewrite (handleResponse_selected _ _ _ _ _ _ Hp Hlater Hright).
Qed.

(** X18.  [cancelPrompt] reports whether the prompt was pending;
    afterwards the prompt is not pending, every reaction to it is
    answered [null] without any change, and every other prompt and the
    metadata are as before. *)
Theorem cancelPrompt_effect (messageId : key) (h : handler) :
  (cancelPrompt messageId h).1 = isPendingPrompt messageId h
  ∧ isPendingPrompt messageId (cancelPrompt messageId h).2 = false
  ∧ (∀ emoji_ now,
       handleResponse messageId emoji_ now (cancelPrompt messageId h).2
       = (None, (cancelPrompt messageId h).2))
  ∧ (∀ k, k ≠ keyToString messageId →
       pendingPrompts (cancelPrompt messageId h).2 !! k = pendingPrompts h !! k)
  ∧ metadataStore (cancelPrompt messageId h).2 = metadataStore h.
Proof.
  assert (Hgone : pendingPrompts (cancelPrompt messageId h).2
                    !! keyToString messageId = None).
  { unfold cancelPrompt.
    destruct (pendingPrompts h !! keyToString messageId) eqn:Hp; simpl;
      [apply lookup_delete_eq | done]. }
  split; [|split; [|split; [|split]]].
  - unfold cancelPrompt, isPendingPrompt.
    destruct (pendingPrompts h !! keyToString messageId) eqn:Hp; simpl.
    + done.
    + done.
  - unfold isPendingPrompt. rewrite Hgone.
    apply bool_decide_eq_false. by intros [? ?].
  - intros emoji_ now. by apply handleResponse_absent.
  - intros k Hk. unfold cancelPrompt.
    destruct (pendingPrompts h !! keyToString messageId); simpl; [|done].
    by apply lookup_delete_ne.
  - unfold cancelPrompt.
    by destruct (pendingPrompts h !! keyToString messageId).
Qed.

Lemma cancelAllForChat_lookup chatId h k :
  pendingPrompts (cancelAllForChat chatId h).2 !! k
  = match pendingPrompts h !! k with
    | Some p => if decide (p_chatId p = chatId) then None else Some p
    | None => None
    end.
Proof.
  unfold cancelAllForChat. simpl. rewrite map_lookup_filter.
  destruct (pendingPrompts h !! k) as [p|]; simpl; [|done].
  destruct (decide (p_chatId p = chatId)); by case_guard.
Qed.

(** X19.  [cancelAllForChat] removes exactly the prompts of the given
    chat: none of them is pending afterwards, the prompts of other chats
    are kept as they are, the count returned is the number of prompts
    that disappeared, and a second call removes nothing. *)
Theorem cancelAllForChat_effect (chatId : option Z) (h : handler) :
  (∀ k p, pendingPrompts (cancelAllForChat chatId h).2 !! k = Some p →
          p_chatId p ≠ chatId ∧ pendingPrompts h !! k = Some p)
  ∧ (∀ k p, pendingPrompts h !! k = Some p → p_chatId p ≠ chatId →
            pendingPrompts (cancelAllForChat chatId h).2 !! k = Some p)
  ∧ ((cancelAllForChat chatId h).1
       + size (pendingPrompts (cancelAllForChat chatId h).2)
     = size (pendingPrompts h))%nat
  ∧ (cancelAllForChat chatId (cancelAllForChat chatId h).2).1 = 0%nat
  ∧ metadataStore (cancelAllForChat chatId h).2 = metadataStore h.
Proof.
  split; [|split; [|split; [|split]]].
  - intros k p. rewrite cancelAllForChat_lookup.
    destruct (pendingPrompts h !! k) as [q|]; [|done].
    destruct (decide (p_chatId q = chatId)); [done|]. by intros [= <-].
  - intros k p Hp Hne. rewrite cancelAllForChat_lookup, Hp.
    by destruct (decide (p_chatId p = chatId)).
  - unfold cancelAllForChat. simpl.
    match goal with
    | |- (_ - size ?m + _ = _)%nat =>
        assert (size m <= size (pendingPrompts h))%nat by apply map_size_filter
    end.
    lia.
  - unfold cancelAllForChat. simpl.
    rewrite map_filter_filter.
    match goal with
    | |- (size ?a - size ?b = _)%nat => assert (Heq : b = a)
    end; [|rewrite Heq; lia].
    apply map_filter_ext. intros k p _. simpl. tauto.
  - done.
Qed.

(** X20.  The periodic sweep cannot be told from outside: a reaction
    handled at or after the reading of the sweep gets the same answer
    and leaves the same metadata whether or not the sweep ran. *)
Theorem cleanup_unobservable
    (messageId : key) (emoji_ : string) (now later : Z) (h : handler) :
  now <= later →
  (handleResponse messageId emoji_ later (cleanup now h).2).1
  = (handleResponse messageId emoji_ later h).1
  ∧ metadataStore (handleResponse messageId emoji_ later (cleanup now h).2).2
    = metadataStore (handleResponse messageId emoji_ later h).2.
Proof.
  intros Hle. unfold handleResponse at 1 3. rewrite cleanup_lookup.
  unfold handleResponse.
  destruct (pendingPrompts h !! keyToString messageId) as [p|]; [|done].
  destruct (Z.ltb_spec (p_expiresAt p) now) as [Hdead | Hlive].
  - destruct (Z.ltb_spec (p_expiresAt p) later); [done | lia].
  - destruct (p_expiresAt p <? later); [done|].
    by destruct (find _ (options p)).
Qed.

End PromptMoreFacts.

(** ** Session map and its persistence *)

Section SessionMoreFacts.
Import Js SessionStore.
Local Open Scope Z_scope.

Lemma keyEqb_eq a b : keyEqb a b = true ↔ a = b.
Proof.
  destruct a as [x|x], b as [y|y]; simpl; split; try done.
  - intros H. apply Z.eqb_eq in H. by subst.
  - intros [= ->]. apply Z.eqb_refl.
  - intros H. apply String.eqb_eq in H. by subst.
  - intros [= ->]. apply String.eqb_refl.
Qed.

Lemma keyEqb_refl a : keyEqb a a = true.
Proof. by apply keyEqb_eq. Qed.

Lemma keyEqb_ne a b : a ≠ b → keyEqb a b = false.
Proof.
  intros Hne. destruct (keyEqb a b) eqn:H; [|done].
  by apply keyEqb_eq in H.
Qed.

Lemma mapGet_mapSet_eq k v m : mapGet k (mapSet k v m) = Some v.
Proof.
  induction m as [|[k' v'] m IH]; simpl.
  - by rewrite keyEqb_refl.
  - destruct (keyEqb k' k) eqn:Hk; simpl; by rewrite Hk.
Qed.

Lemma mapGet_mapSet_ne k k' v m :
  k' ≠ k → mapGet k' (mapSet k v m) = mapGet k' m.
Proof.
  intros Hne. induction m as [|[k0 v0] m IH]; simpl.
  - by rewrite keyEqb_ne.
  - destruct (keyEqb k0 k) eqn:Hk; simpl.
    + apply keyEqb_eq in Hk as ->. by rewrite keyEqb_ne.
    + by rewrite IH.
Qed.

Lemma mapGet_None k m : mapGet k m = None ↔ k ∉ m.*1.
Proof.
  induction m as [|[k' v] m IH]; simpl.
  - split; [intros _; apply not_elem_of_nil | done].
  - rewrite not_elem_of_cons.
    destruct (keyEqb k' k) eqn:Hk.
    + apply keyEqb_eq in Hk as ->. split; [done | by intros [? _]].
    + rewrite IH. split; [|by intros [_ ?]].
      intros Hm. split; [|done]. intros ->. by rewrite keyEqb_refl in Hk.
Qed.

Lemma mapSet_keys k v m :
  (mapSet k v m).*1
  = match mapGet k m with Some _ => m.*1 | None => m.*1 ++ [k] end.
Proof.
  induction m as [|[k' v'] m IH]; simpl; [done|].
  destruct (keyEqb k' k) eqn:Hk; simpl; [done|].
  change ((k' :: (mapSet k v m).*1)
          = match mapGet k m with
            | Some _ => k' :: m.*1
            | None => k' :: m.*1 ++ [k]
            end).
  rewrite IH. by destruct (mapGet k m).
Qed.

Lemma mapSet_NoDup k v m : NoDup m.*1 → NoDup (mapSet k v m).*1.
Proof.
  intros Hm. rewrite mapSet_keys.
  destruct (mapGet k m) eqn:Hk; [done|].
  apply NoDup_app. split; [done|]. split; [|apply NoDup_singleton].
  intros x Hx Hx'. apply list_elem_of_singleton in Hx' as ->.
  by apply mapGet_None in Hk.
Qed.

Lemma mapDelete_fst k m :
  (mapDelete k m).1 = bool_decide (is_Some (mapGet k m)).
Proof.
  induction m as [|[k' v] m IH]; simpl; [done|].
  destruct (keyEqb k' k); simpl; [done | apply IH].
Qed.

Lemma mapGet_mapDelete_eq k m :
  NoDup m.*1 → mapGet k (mapDelete k m).2 = None.
Proof.
  induction m as [|[k' v] m IH]; simpl; [done|].
  intros Hm. apply NoDup_cons in Hm as [Hk' Hm].
  destruct (keyEqb k' k) eqn:Hk; simpl.
  - apply keyEqb_eq in Hk as ->. by apply mapGet_None.
  - rewrite Hk. by apply IH.
Qed.

Lemma mapGet_mapDelete_ne k k' m :
  k' ≠ k → mapGet k' (mapDelete k m).2 = mapGet k' m.
Proof.
  intros Hne. induction m as [|[k0 v] m IH]; simpl; [done|].
  destruct (keyEqb k0 k) eqn:Hk; simpl.
  - apply keyEqb_eq in Hk as ->. by rewrite keyEqb_ne.
  - by rewrite IH.
Qed.

Lemma mapDelete_length k m :
  (length (mapDelete k m).2 + (if (mapDelete k m).1 then 1 else 0))%nat = length m.
Proof.
  induction m as [|[k' v] m IH]; simpl; [done|].
  destruct (keyEqb k' k); simpl; lia.
Qed.

(** After [setSession] the user's session is the one given,
    stamped with the time of the call; the sessions of all other users
    are as before, and the number of sessions grows by one exactly when
    the user had none. *)
Theorem setSession_getSession
    (userId : key) (s : sessionData) (nowIso : string) (sessionsCache : sessionMap) :
  getSession userId (setSession userId s nowIso sessionsCache)
  = Some {| history := history s; context := context s;
            turnCount := turnCount s; lastActive := nowIso |}
  ∧ (∀ other, other ≠ userId →
       getSession other (setSession userId s nowIso sessionsCache)
       = getSession other sessionsCache)
  ∧ getSessionCount (setSession userId s nowIso sessionsCache)
    = match getSession userId sessionsCache with
      | Some _ => getSessionCount sessionsCache
      | None => S (getSessionCount sessionsCache)
      end.
Proof.
  unfold getSession, setSession, getSessionCount. split; [|split].
  - apply mapGet_mapSet_eq.
  - intros other Hne. by apply mapGet_mapSet_ne.
  - rewrite <- !(length_fmap fst), mapSet_keys.
    destruct (mapGet userId sessionsCache); [done|].
    rewrite length_app. simpl. lia.
Qed.

(** [deleteSession] answers whether the user had a session;
    afterwards the user has none, the sessions of all other users are as
    before, and the number of sessions dropped by one exactly when the
    answer was true. *)
Theorem deleteSession_effect (userId : key) (sessionsCache : sessionMap) :
  NoDup sessionsCache.*1 →
  (deleteSession userId sessionsCache).1
  = bool_decide (is_Some (getSession userId sessionsCache))
  ∧ getSession userId (deleteSession userId sessionsCache).2 = None
  ∧ (∀ other, other ≠ userId →
       getSession other (deleteSession userId sessionsCache).2
       = getSession other sessionsCache)
  ∧ (getSessionCount (deleteSession userId sessionsCache).2
     + (if (deleteSession userId sessionsCache).1 then 1 else 0))%nat
    = getSessionCount sessionsCache.
Proof.
  intros Hkeys. unfold getSession, deleteSession, getSessionCount.
  split; [|split; [|split]].
  - apply mapDelete_fst.
  - by apply mapGet_mapDelete_eq.
  - intros other Hne. by apply mapGet_mapDelete_ne.
  - apply mapDelete_length.
Qed.

(** X21.  With string user ids, saving and loading gives back every
    session stored under an id other than ['__proto__']: the history,
    the context and the turn counter as saved, and the time of last
    activity as saved unless it was empty.  A session stored under
    ['__proto__'] is not written, so nothing is found under that id
    afterwards; when there is none, the number of sessions is the
    same. *)
Theorem reload_restores_sessions
    (nowIso : string) (sessionsCache : sessionMap) (d : disk) :
  stringKeys sessionsCache → NoDup sessionsCache.*1 →
  (∀ userId, userId ≠ KStr "__proto__" →
     getSession userId (loadSessions nowIso (saveSessions sessionsCache d))
     = (fun s => {| history := history s; context := context s;
                    turnCount := turnCount s;
                    lastActive := if truthyStr (lastActive s)
                                  then lastActive s else nowIso |})
       <$> getSession userId sessionsCache)
  ∧ getSession (KStr "__proto__")
      (loadSessions nowIso (saveSessions sessionsCache d)) = None
  ∧ (KStr "__proto__" ∉ sessionsCache.*1 →
     getSessionCount (loadSessions nowIso (saveSessions sessionsCache d))
     = getSessionCount sessionsCache).
Proof.
  intros Hkeys Hnodup. split; [|split].
  - intros [n|name] Hid.
    + rewrite getSession_number_after_reload. unfold getSession.
      by rewrite mapGet_number_stringKeys.
    + rewrite reload_getSession by done.
      assert (Hname : name ≠ "__proto__") by congruence.
      rewrite (proj2 (String.eqb_neq _ _) Hname). unfold getSession.
      destruct (mapGet (KStr name) sessionsCache) as [s|]; simpl; [|done].
      f_equal. unfold restore. simpl. f_equal. unfold truthyNum.
      by destruct (Z.eqb_spec (turnCount s) 0) as [-> |].
  - by rewrite reload_getSession.
  - intros Hproto. unfold getSessionCount. by apply reload_count.
Qed.

End SessionMoreFacts.

(** ** Chat sessions and the request sent to the model *)

Section OrchestratorFacts.
Import Js SessionStore Orchestrator.
Local Open Scope Z_scope.

(** X22.  For a window of [maxTurns] >= 0 turns the formatted history
    is the end of the history, in order, reduced to role and content:
    the last 2 * [maxTurns] entries, or all of them when there are
    fewer, and all of them when [maxTurns] is 0. *)
Theorem formatConversationHistory_window (history : list turn) (maxTurns : Z) :
  0 <= maxTurns →
  ∃ older recent,
    history = older ++ recent
    ∧ formatConversationHistory (Some history) maxTurns
      = map (fun msg => {| m_role := role msg; m_content := content msg |}) recent
    ∧ Z.of_nat (length recent)
      = if maxTurns =? 0 then Z.of_nat (length history)
        else Z.min (Z.of_nat (length history)) (2 * maxTurns).
Proof.
  intros Hmax. unfold formatConversationHistory.
  destruct history as [|t history].
  { exists [], []. simpl. repeat split. destruct (maxTurns =? 0); lia. }
  change ((length (t :: history) =? 0)%nat) with false. cbv iota.
  unfold slice. set (h := t :: history). set (len := Z.of_nat (length h)).
  set (k := if - maxTurns * 2 <? 0
            then Z.max (len + - maxTurns * 2) 0
            else Z.min (- maxTurns * 2) len).
  exists (take (Z.to_nat k) h), (drop (Z.to_nat k) h).
  split; [by rewrite take_drop|]. split; [done|].
  rewrite length_drop. fold len.
  assert (Hk : k = if maxTurns =? 0 then 0 else Z.max (len - 2 * maxTurns) 0).
  { unfold k. destruct (Z.eqb_spec maxTurns 0) as [-> | Hne]; [done|].
    destruct (Z.ltb_spec (- maxTurns * 2) 0); [f_equal|]; lia. }
  assert (Hlen : Z.of_nat (length h) = len) by done.
  clearbody k len. destruct (maxTurns =? 0); lia.
Qed.

(** X23.  [sendMessage] appends one complete exchange, the message
    and then the text taken from the answer, and counts one more turn;
    [createSession] for the same user then gives back this very
    session, and the stored sessions of all other users are as
    before. *)
Theorem sendMessage_then_createSession
    (message_ : string) (response : response)
    (userStamp assistantStamp stateStamp storeStamp : string)
    (session : chatSession) (sessionsCache : sessionMap) (files : disk) :
  let r := sendMessage message_ response userStamp assistantStamp stateStamp
             storeStamp session sessionsCache files in
  Orchestrator.history r.1.1
  = Orchestrator.history session
    ++ [ {| role := "user"; content := message_; timestamp := userStamp |};
         {| role := "assistant"; content := responseTextOf response;
            timestamp := assistantStamp |} ]
  ∧ Orchestrator.turnCount r.1.1 = Orchestrator.turnCount session + 1
  ∧ createSession (userId session) r.1.2 = r.1.1
  ∧ (∀ other, other ≠ userId session →
       getSession other r.1.2 = getSession other sessionsCache).
Proof.
  cbv zeta. unfold sendMessage, sendMessageFinish, receiveResponse, sendMessageStart.
  cbn [fst snd Orchestrator.history Orchestrator.turnCount userId].
  split; [by rewrite <- app_assoc|]. split; [done|]. split.
  - unfold createSession, setSession, getSession. cbn [userId].
    rewrite mapGet_mapSet_eq. unfold newChatSession, getState. simpl.
    f_equal. unfold truthyNum.
    by destruct (Z.eqb_spec (Orchestrator.turnCount session + 1) 0) as [-> |].
  - intros other Hne. unfold setSession, getSession. cbn [userId].
    by apply mapGet_mapSet_ne.
Qed.

(** X24.  Several calls of [sendMessage] can wait on one session at
    the same time.  Whatever the order in which calls start and
    receive their answers, the history grows by exactly one entry per
    step, in the order of the steps (the user entry at a start, the
    assistant entry at an answer), and the turn counter grows by the
    number of starts; a call that nothing interrupts is a start
    followed by its answer. *)
Theorem sendMessage_interleaved_history
    (steps : list callStep) (session : chatSession) :
  let session' := fold_left sessionStep steps session in
  Orchestrator.history session'
  = Orchestrator.history session ++ (stepEntry <$> steps)
  ∧ Orchestrator.turnCount session'
    = Orchestrator.turnCount session
      + Z.of_nat (length (filter (fun step => isStart step = true) steps))
  ∧ userId session' = userId session
  ∧ ∀ message_ response userStamp assistantStamp stateStamp storeStamp
      sessionsCache files,
      (sendMessage message_ response userStamp assistantStamp stateStamp
         storeStamp session sessionsCache files).1.1
      = fold_left sessionStep
          [CallStart message_ userStamp; CallFinish response assistantStamp]
          session.
Proof.
  cbv zeta. split; [|split; [|split]]; [| | |done].
  - revert session. induction steps as [|step steps IH]; intros session; simpl.
    + by rewrite app_nil_r.
    + rewrite IH. destruct step; simpl; by rewrite <- app_assoc.
  - revert session. induction steps as [|step steps IH]; intros session; simpl.
    + lia.
    + rewrite IH, filter_cons.
      destruct step; simpl; repeat case_decide; simpl; try done; lia.
  - revert session. induction steps as [|step steps IH]; intros session; simpl.
    + done.
    + rewrite IH. by destruct step.
Qed.

(** Two calls that overlap: both user entries come before both
    assistant entries, and two turns are counted for four entries that
    are not two exchanges. *)
Example overlapping_calls :
  role <$> Orchestrator.history
             (fold_left sessionStep
                [ CallStart "first" "2026-01-01T00:00:00.000Z";
                  CallStart "second" "2026-01-01T00:00:00.500Z";
                  CallFinish {| r_skill := None;
                                r_result := Some (ResultString "one");
                                r_error := None |} "2026-01-01T00:00:02.000Z";
                  CallFinish {| r_skill := None;
                                r_result := Some (ResultString "two");
                                r_error := None |} "2026-01-01T00:00:03.000Z" ]
                (newChatSession (KNum 42) None))
  = ["user"; "user"; "assistant"; "assistant"].
Proof. reflexivity. Qed.

(** X25.  With a string user id other than ['__proto__'] a session
    survives a restart: after a [sendMessage] that nothing interrupted
    and whose write succeeded, loading the file and calling
    [createSession] for the user gives back the session as it was. *)
Theorem sendMessage_survives_restart
    (message_ : string) (response : response)
    (userStamp assistantStamp stateStamp storeStamp nowIso : string)
    (session : chatSession) (sessionsCache : sessionMap) (files : disk)
    (name : string) :
  userId session = KStr name →
  name ≠ "__proto__" →
  stringKeys sessionsCache → NoDup sessionsCache.*1 →
  let r := sendMessage message_ response userStamp assistantStamp stateStamp
             storeStamp session sessionsCache files in
  createSession (KStr name) (loadSessions nowIso r.2) = r.1.1.
Proof.
  intros Hid Hname Hkeys Hnodup. cbv zeta.
  unfold sendMessage, sendMessageFinish. cbn [fst snd].
  set (session' := receiveResponse response assistantStamp
                     (sendMessageStart message_ userStamp session)).
  assert (Hid' : userId session' = KStr name) by done.
  rewrite Hid'. clearbody session'. unfold setSession, createSession.
  rewrite reload_getSession
    by (by apply mapSet_stringKeys || by apply mapSet_NoDup).
  rewrite (proj2 (String.eqb_neq _ _) Hname), mapGet_mapSet_eq.
  destruct session' as [uid h c tc]. simpl in Hid'. subst uid.
  unfold newChatSession. simpl. f_equal. unfold truthyNum.
  destruct (Z.eqb_spec tc 0) as [-> | Hne]; [done|].
  cbn [negb]. by destruct (Z.eqb_spec tc 0).
Qed.

(** X26.  With a numeric user id nothing survives a restart: whatever
    was saved, [createSession] after loading starts an empty session
    with no turn counted. *)
Theorem createSession_number_after_restart
    (n : Z) (nowIso : string) (sessionsCache : sessionMap) (files : disk) :
  createSession (KNum n) (loadSessions nowIso (saveSessions sessionsCache files))
  = {| userId := KNum n; Orchestrator.history := [];
       Orchestrator.context := {| lastSkill := None |};
       Orchestrator.turnCount := 0 |}.
Proof.
  unfold createSession. by rewrite getSession_number_after_reload.
Qed.

(** X27.  In a chat the request carries the user's message twice: the
    history handed over by [sendMessage] already ends with the message,
    so the messages sent end with it as typed, followed by the prompt
    as a second user message; before them come the last 19 earlier
    entries, or all of them when there are fewer. *)
Theorem chat_request_repeats_message
    (prompt modelName message_ userStamp : string) (earlier : list turn) :
  ∃ window,
    requestMessages prompt modelName
      (Some (earlier
             ++ [ {| role := "user"; content := message_;
                     timestamp := userStamp |} ]))
    = window
      ++ [ {| m_role := "user"; m_content := message_ |};
           {| m_role := "user";
              m_content := clawdbotContext modelName +:+ prompt |} ]
    ∧ length window = Nat.min (length earlier) 19.
Proof.
  unfold requestMessages, formatConversationHistory.
  set (user := {| role := "user"; content := message_; timestamp := userStamp |}).
  assert (Hlen : length (earlier ++ [user]) = S (length earlier))
    by (rewrite length_app; simpl; lia).
  rewrite Hlen. change ((S (length earlier) =? 0)%nat) with false. cbv iota.
  unfold slice. rewrite Hlen.
  change (- 10 * 2 <? 0) with true. cbv iota.
  set (k := Z.to_nat (Z.max (Z.of_nat (S (length earlier)) + - 10 * 2) 0)).
  assert (Hk : (k <= length earlier)%nat) by (unfold k; lia).
  rewrite drop_app_le by done. rewrite map_app. simpl.
  exists (map (fun msg => {| m_role := role msg; m_content := content msg |})
            (drop k earlier)).
  split; [by rewrite <- app_assoc|].
  rewrite length_map, length_drop. unfold k. lia.
Qed.

(** X28.  The assistant entry written to the history is not empty
    when the answer carries an error text or a non-empty text result;
    a text result is stored as it is, and the error text is used only
    when there is no text. *)
Theorem responseTextOf_nonempty (response : response) :
  (truthyOptStr (r_error response) = true →
   truthyStr (responseTextOf response) = true)
  ∧ (∀ text, r_result response = Some (ResultString text) →
             truthyStr text = true → responseTextOf response = text)
  ∧ (r_result response = None → r_error response = None →
     responseTextOf response = "").
Proof.
  split; [|split].
  - intros Herr. unfold responseTextOf. cbv zeta.
    match goal with
    | |- truthyStr (if negb (truthyStr ?t) && _ then _ else _) = true =>
        destruct (truthyStr t) eqn:Ht
    end; [done|].
    rewrite Herr. done.
  - intros text Hres Htext. unfold responseTextOf. cbv zeta.
    rewrite Hres, Htext. simpl. by rewrite Htext.
  - intros Hres Herr. unfold responseTextOf. by rewrite Hres, Herr.
Qed.

End OrchestratorFacts.

(** ** Code execution skill *)

Section CodeExecFacts.
Import Js CodeExec.

Lemma startsWith_prefix s p q :
  startsWith s (p +:+ q) = true → startsWith s p = true.
Proof.
  revert s. induction p as [|c p IH]; intros s; [done|].
  change (String c p +:+ q) with (String c (p +:+ q)).
  destruct s as [|d s]; simpl; [done|].
  destruct (Ascii.eqb c d); [apply IH | done].
Qed.

Lemma includes_prefix s p q :
  includes s (p +:+ q) = true → includes s p = true.
Proof.
  induction s as [|c s IH].
  - simpl. rewrite !orb_false_r. apply startsWith_prefix.
  - change (includes (String c s) (p +:+ q))
      with (startsWith (String c s) (p +:+ q) || includes s (p +:+ q)).
    change (includes (String c s) p)
      with (startsWith (String c s) p || includes s p).
    intros H. apply orb_true_iff in H as [H | H]; apply orb_true_iff.
    + left. by apply startsWith_prefix in H.
    + right. by apply IH.
Qed.

(** X29.  The image chosen for the detected language is always the
    entry of the image table for that language: the fallback is never
    needed. *)
Theorem getDockerImage_detectLanguage (code : string) :
  ∃ imageName,
    getDockerImage (detectLanguage code) = Image imageName
    ∧ (detectLanguage code, imageName) ∈ images.
Proof.
  unfold detectLanguage.
  repeat match goal with
  | |- context [if ?b then _ else _] => destruct b
  end;
    (eexists; split; [reflexivity|]; unfold images;
     repeat first [ by left | right ]).
Qed.

(** X30.  A text is detected as Rust only if it contains 'fn main()':
    the test for 'let mut ' never decides, because every text with
    'let mut ' contains 'let ' and is taken for JavaScript (or Python)
    before. *)
Theorem detectLanguage_rust (code : string) :
  (detectLanguage code = "rust" → includes code "fn main()" = true)
  ∧ (includes code "let mut " = true →
     detectLanguage code = "python" ∨ detectLanguage code = "javascript").
Proof.
  split.
  - unfold detectLanguage.
    destruct (includes code "let mut ") eqn:Hmut.
    + apply (includes_prefix code "let " "mut ") in Hmut. rewrite Hmut.
      rewrite !orb_true_r.
      by destruct (includes code "def " || includes code "import ").
    + rewrite orb_false_r.
      repeat match goal with
      | |- context [if ?b then _ else _] => destruct b eqn:?
      end; done.
  - intros Hmut. apply (includes_prefix code "let " "mut ") in Hmut.
    unfold detectLanguage. rewrite Hmut, !orb_true_r.
    destruct (includes code "def " || includes code "import "); auto.
Qed.

End CodeExecFacts.

(** ** Instances *)

Lemma chooseModel_never_downgraded_witness :
  ModelPicker.forceModel ModelPicker.noContext = None
  ∧ Forall (fun w => w ∈ ModelPicker.indicatorExtensions) [" architecture"]
  ∧ ModelPicker.chooseModel "review the design" ModelPicker.noContext
    = ModelPicker.smart
  ∧ ModelPicker.chooseModel
      (fold_left String.append [" architecture"] "review the design")
      ModelPicker.noContext
    = ModelPicker.smart.
Proof.
  assert (H1 : ModelPicker.forceModel ModelPicker.noContext = None) by reflexivity.
  assert (H2 : Forall (fun w => w ∈ ModelPicker.indicatorExtensions) [" architecture"]).
  { repeat constructor; unfold ModelPicker.indicatorExtensions; simpl; set_solver. }
  assert (H3 : ModelPicker.chooseModel "review the design" ModelPicker.noContext
               = ModelPicker.smart) by reflexivity.
  split; [exact H1|]. split; [exact H2|]. split; [exact H3|].
  exact (chooseModel_never_downgraded "review the design" ModelPicker.noContext
           [" architecture"] H1 H2 H3).
Defined.

Lemma explainChoice_agrees_witness :
  ModelPicker.forceModel ModelPicker.noContext = None
  ∧ ModelPicker.deepConversation ModelPicker.noContext = false
  ∧ ModelPicker.e_complexity
      (ModelPicker.explainChoice "review the design" (ModelPicker.ChosenName "smart"))
    = ModelPicker.analyzeTaskComplexity "review the design" ModelPicker.noContext.
Proof.
  split; [reflexivity|]. split; [reflexivity|].
  exact (proj1 (explainChoice_agrees "review the design" ModelPicker.noContext
                  (ModelPicker.ChosenName "smart") eq_refl eq_refl)).
Defined.

Lemma collector_always_wellFormed_witness :
  (0 < 1000)%Z
  ∧ Forall (fun m : string * Z => (0 < m.2)%Z)
      [("fastPathCheck", 1005%Z); ("apiCallStart", 1040%Z)]
  ∧ Metrics.wellFormed
      (fold_left (fun c (m : string * Z) => Metrics.mark m.1 m.2 c)
         [("fastPathCheck", 1005%Z); ("apiCallStart", 1040%Z)]
         (Metrics.newCollector (Js.KNum 7) "hi" 1000)).
Proof.
  assert (H1 : (0 < 1000)%Z) by reflexivity.
  assert (H2 : Forall (fun m : string * Z => (0 < m.2)%Z)
                 [("fastPathCheck", 1005%Z); ("apiCallStart", 1040%Z)])
    by (repeat constructor).
  split; [exact H1|]. split; [exact H2|].
  exact (collector_always_wellFormed (Js.KNum 7) "hi" 1000 _ H1 H2).
Defined.

Lemma getBreakdown_orchestrator_witness :
  Metrics.wellFormed
    (Metrics.mark "apiCallEnd" 1040 (Metrics.newCollector (Js.KNum 7) "hi" 1000))
  ∧ Metrics.b_orchestrator
      (Metrics.getBreakdown
         (Metrics.mark "apiCallEnd" 1040
            (Metrics.newCollector (Js.KNum 7) "hi" 1000)) 1100)
    = Some 1040%Z.
Proof.
  assert (Hwf : Metrics.wellFormed
    (Metrics.mark "apiCallEnd" 1040 (Metrics.newCollector (Js.KNum 7) "hi" 1000))).
  { split; [by eexists | intros event; destruct event; vm_compute; congruence]. }
  split; [exact Hwf|].
  exact (getBreakdown_orchestrator _ 1100%Z Hwf).
Defined.

Lemma store_get_same_string_witness :
  Js.truthyKey (Js.KNum 5) = true
  ∧ Js.truthyKey (Js.KStr "5") = true
  ∧ Js.keyToString (Js.KNum 5) = Js.keyToString (Js.KStr "5")
  ∧ (1000 <= 20 + MetadataStore.retentionOf MetadataStore.noFields)%Z
  ∧ MetadataStore.get (Js.KStr "5") 1000
      (MetadataStore.store (Js.KNum 5) MetadataStore.noFields 10 20 ∅).2
    = (Some (MetadataStore.withTimestamps MetadataStore.noFields (Some 10%Z)
               (Some (20 + MetadataStore.retentionOf MetadataStore.noFields)%Z)),
       (MetadataStore.store (Js.KNum 5) MetadataStore.noFields 10 20 ∅).2).
Proof.
  assert (H1 : Js.truthyKey (Js.KNum 5) = true) by reflexivity.
  assert (H2 : Js.truthyKey (Js.KStr "5") = true) by reflexivity.
  assert (H3 : Js.keyToString (Js.KNum 5) = Js.keyToString (Js.KStr "5"))
    by (vm_compute; reflexivity).
  assert (H4 : (1000 <= 20 + MetadataStore.retentionOf MetadataStore.noFields)%Z)
    by (vm_compute; discriminate).
  split; [exact H1|]. split; [exact H2|]. split; [exact H3|]. split; [exact H4|].
  exact (proj1 (store_get_same_string (Js.KNum 5) (Js.KStr "5")
                  MetadataStore.noFields MetadataStore.noFields
                  10 20 30 40 1000 ∅ H1 H2 H3 H4)).
Defined.

Lemma cleanup_evicts_before_expiry_witness :
  Js.truthyKey (Js.KNum 5) = true
  ∧ (MetadataStore.defaultRetentionMs < 3700000 - 1000)%Z
  ∧ (3700000 <= 1000 + MetadataStore.retentionOf Samples.longRetention)%Z
  ∧ (MetadataStore.cleanup None 3700000
       (MetadataStore.store (Js.KNum 5) Samples.longRetention 1000 1000 ∅).2).2
      !! Js.keyToString (Js.KNum 5) = None.
Proof.
  assert (H1 : Js.truthyKey (Js.KNum 5) = true) by reflexivity.
  assert (H2 : (MetadataStore.defaultRetentionMs < 3700000 - 1000)%Z) by reflexivity.
  assert (H3 : (3700000 <= 1000 + MetadataStore.retentionOf Samples.longRetention)%Z)
    by (vm_compute; discriminate).
  split; [exact H1|]. split; [exact H2|]. split; [exact H3|].
  exact (proj2 (cleanup_evicts_before_expiry (Js.KNum 5) Samples.longRetention
                  1000 3700000 ∅ H1 H2 H3)).
Defined.

Lemma handleReaction_frame_witness :
  "7" ≠ Js.keyToString
          (ReactionHandler.message_id (Samples.reactionOn55 EmojiMappings.ACTION_YES))
  ∧ (ReactionHandler.handleReaction (Samples.reactionOn55 EmojiMappings.ACTION_YES)
       2000 Samples.answerStore).1 !! "7"
    = Samples.answerStore !! "7".
Proof.
  assert (H : "7" ≠ Js.keyToString
                      (ReactionHandler.message_id
                         (Samples.reactionOn55 EmojiMappings.ACTION_YES)))
    by (vm_compute; discriminate).
  split; [exact H|].
  exact (handleReaction_frame (Samples.reactionOn55 EmojiMappings.ACTION_YES)
           2000 Samples.answerStore "7" H).
Defined.

Lemma handleReaction_keeps_content_witness :
  Samples.answerStore
    !! Js.keyToString
         (ReactionHandler.message_id (Samples.reactionOn55 EmojiMappings.ACTION_YES))
  = Some Samples.answerRecord
  ∧ match (ReactionHandler.handleReaction
             (Samples.reactionOn55 EmojiMappings.ACTION_YES) 2000
             Samples.answerStore).1
          !! Js.keyToString
               (ReactionHandler.message_id
                  (Samples.reactionOn55 EmojiMappings.ACTION_YES)) with
    | Some md' =>
        ReactionHandler.sameContent Samples.answerRecord md'
        ∧ ((∀ ty,
              ReactionHandler.new_reaction
                (Samples.reactionOn55 EmojiMappings.ACTION_YES) = Some ty →
              EmojiMappings.isVerbosityEmoji (ReactionHandler.rt_emoji ty) = false) →
           MetadataStore.verbosity md' = MetadataStore.verbosity Samples.answerRecord)
    | None => MetadataStore.expiredAt 2000 Samples.answerRecord = true
    end.
Proof.
  assert (H : Samples.answerStore
                !! Js.keyToString
                     (ReactionHandler.message_id
                        (Samples.reactionOn55 EmojiMappings.ACTION_YES))
              = Some Samples.answerRecord) by reflexivity.
  split; [exact H|].
  exact (handleReaction_keeps_content
           (Samples.reactionOn55 EmojiMappings.ACTION_YES) 2000
           Samples.answerStore Samples.answerRecord H).
Defined.


Lemma wrong_symbol_keeps_prompt_witness :
  ∃ p,
    UserPromptHandler.pendingPrompts Samples.yesNoPrompt
      !! Js.keyToString (Js.KNum 99) = Some p
    ∧ (2000 <= UserPromptHandler.p_expiresAt p)%Z
    ∧ (3000 <= UserPromptHandler.p_expiresAt p)%Z
    ∧ find (fun o => String.eqb (MetadataStore.emoji o) EmojiMappings.ACTION_REFRESH)
        (UserPromptHandler.options p) = None
    ∧ UserPromptHandler.handleResponse (Js.KNum 99) EmojiMappings.ACTION_REFRESH 2000
        Samples.yesNoPrompt
      = (None, Samples.yesNoPrompt)
    ∧ (UserPromptHandler.handleResponse (Js.KNum 99) EmojiMappings.ACTION_YES 3000
         (UserPromptHandler.handleResponse (Js.KNum 99) EmojiMappings.ACTION_REFRESH
            2000 Samples.yesNoPrompt).2).1
      = Some {| UserPromptHandler.s_question := "Deploy?";
                UserPromptHandler.answer := "Yes";
                UserPromptHandler.s_action := "yes";
                UserPromptHandler.s_context :=
                  {| UserPromptHandler.timeout := None;
                     UserPromptHandler.payload := [] |} |}.
Proof.
  eexists. split; [reflexivity|].
  assert (H1 : (2000 <= 301000)%Z) by (vm_compute; discriminate).
  assert (H2 : (3000 <= 301000)%Z) by (vm_compute; discriminate).
  split; [exact H1|]. split; [exact H2|]. split; [reflexivity|].
  exact (wrong_symbol_keeps_prompt (Js.KNum 99) EmojiMappings.ACTION_REFRESH
           EmojiMappings.ACTION_YES 2000 3000 Samples.yesNoPrompt _ _
           eq_refl H1 H2 eq_refl eq_refl).
Defined.

Lemma cleanup_unobservable_witness :
  (2000 <= 400000)%Z
  ∧ (UserPromptHandler.handleResponse (Js.KNum 99) EmojiMappings.ACTION_YES 400000
       (UserPromptHandler.cleanup 2000 Samples.yesNoPrompt).2).1
    = (UserPromptHandler.handleResponse (Js.KNum 99) EmojiMappings.ACTION_YES 400000
         Samples.yesNoPrompt).1.
Proof.
  assert (H : (2000 <= 400000)%Z) by (vm_compute; discriminate).
  split; [exact H|].
  exact (proj1 (cleanup_unobservable (Js.KNum 99) EmojiMappings.ACTION_YES
                  2000 400000 Samples.yesNoPrompt H)).
Defined.

Lemma reload_restores_sessions_witness :
  SessionStore.stringKeys Samples.oneStringUser
  ∧ NoDup Samples.oneStringUser.*1
  ∧ SessionStore.getSession (Js.KStr "42")
      (SessionStore.loadSessions "2026-01-02T00:00:00.000Z"
         (SessionStore.saveSessions Samples.oneStringUser Samples.emptyDisk))
    = (fun s => {| SessionStore.history := SessionStore.history s;
                   SessionStore.context := SessionStore.context s;
                   SessionStore.turnCount := SessionStore.turnCount s;
                   SessionStore.lastActive :=
                     if Js.truthyStr (SessionStore.lastActive s)
                     then SessionStore.lastActive s
                     else "2026-01-02T00:00:00.000Z" |})
      <$> SessionStore.getSession (Js.KStr "42") Samples.oneStringUser.
Proof.
  assert (H1 : SessionStore.stringKeys Samples.oneStringUser).
  { repeat constructor. by exists "42". }
  assert (H2 : NoDup Samples.oneStringUser.*1) by apply NoDup_singleton.
  assert (H3 : Js.KStr "42" ≠ Js.KStr "__proto__") by discriminate.
  split; [exact H1|]. split; [exact H2|].
  exact (proj1 (reload_restores_sessions "2026-01-02T00:00:00.000Z"
                  Samples.oneStringUser Samples.emptyDisk H1 H2)
           (Js.KStr "42") H3).
Defined.

Lemma formatConversationHistory_window_witness :
  (0 <= 1)%Z
  ∧ ∃ older recent,
      SessionStore.history Samples.oneExchange ++ SessionStore.history Samples.oneExchange
      = older ++ recent
      ∧ Orchestrator.formatConversationHistory
          (Some (SessionStore.history Samples.oneExchange
                 ++ SessionStore.history Samples.oneExchange)) 1
        = map (fun msg => {| Orchestrator.m_role := SessionStore.role msg;
                             Orchestrator.m_content := SessionStore.content msg |})
            recent
      ∧ Z.of_nat (length recent)
        = (if (1 =? 0)%Z
           then Z.of_nat (length (SessionStore.history Samples.oneExchange
                                  ++ SessionStore.history Samples.oneExchange))
           else Z.min
                  (Z.of_nat (length (SessionStore.history Samples.oneExchange
                                     ++ SessionStore.history Samples.oneExchange)))
                  (2 * 1))%Z.
Proof.
  assert (H : (0 <= 1)%Z) by (vm_compute; discriminate).
  split; [exact H|].
  exact (formatConversationHistory_window
           (SessionStore.history Samples.oneExchange
            ++ SessionStore.history Samples.oneExchange) 1 H).
Defined.

Lemma sendMessage_survives_restart_witness :
  Orchestrator.userId (Orchestrator.newChatSession (Js.KStr "42") None) = Js.KStr "42"
  ∧ "42" ≠ "__proto__"
  ∧ SessionStore.stringKeys []
  ∧ NoDup ([] : SessionStore.sessionMap).*1
  ∧ Orchestrator.createSession (Js.KStr "42")
      (SessionStore.loadSessions "2026-01-02T00:00:00.000Z"
         (Orchestrator.sendMessage "hi"
            {| Orchestrator.r_skill := Some "general";
               Orchestrator.r_result := Some (Orchestrator.ResultString "hello");
               Orchestrator.r_error := None |}
            "2026-01-01T00:00:00.000Z" "2026-01-01T00:00:01.000Z"
            "2026-01-01T00:00:01.001Z" "2026-01-01T00:00:01.002Z"
            (Orchestrator.newChatSession (Js.KStr "42") None) []
            Samples.emptyDisk).2)
    = (Orchestrator.sendMessage "hi"
         {| Orchestrator.r_skill := Some "general";
            Orchestrator.r_result := Some (Orchestrator.ResultString "hello");
            Orchestrator.r_error := None |}
         "2026-01-01T00:00:00.000Z" "2026-01-01T00:00:01.000Z"
         "2026-01-01T00:00:01.001Z" "2026-01-01T00:00:01.002Z"
         (Orchestrator.newChatSession (Js.KStr "42") None) []
         Samples.emptyDisk).1.1.
Proof.
  assert (H1 : Orchestrator.userId (Orchestrator.newChatSession (Js.KStr "42") None)
               = Js.KStr "42") by reflexivity.
  assert (H2 : SessionStore.stringKeys []) by constructor.
  assert (H3 : NoDup ([] : SessionStore.sessionMap).*1) by constructor.
  assert (H4 : "42" ≠ "__proto__") by discriminate.
  split; [exact H1|]. split; [exact H4|]. split; [exact H2|]. split; [exact H3|].
  exact (sendMessage_survives_restart "hi"
           {| Orchestrator.r_skill := Some "general";
              Orchestrator.r_result := Some (Orchestrator.ResultString "hello");
              Orchestrator.r_error := None |}
           "2026-01-01T00:00:00.000Z" "2026-01-01T00:00:01.000Z"
           "2026-01-01T00:00:01.001Z" "2026-01-01T00:00:01.002Z"
           "2026-01-02T00:00:00.000Z"
           (Orchestrator.newChatSession (Js.KStr "42") None) []
           Samples.emptyDisk "42" H1 H4 H2 H3).
Defined.
